(** * envoy: the channel router and the gateway chat protocol

    A shallow embedding of [channels/router.go] (package [channels]) and of
    the frame handling of the gateway, with the properties of the routing
    layer proved over it.

    Conventions of the embedding.
    - A Go [string] is a sequence of bytes: [String.string], whose
      characters are 8-bit; [len(s)] is [String.length s].
    - A Go [error] is an [error] value below; a nil error is [None].
    - A Go interface value that may be nil ([Channel], [AgentProcessor]) is
      an [option].
    - [context.Context] arguments are dropped: cancellation is not modelled.
    - The [sync.RWMutex] of the router is not modelled: every operation runs
      to completion on its own (a sequential model). *)

From stdpp Require Import gmap strings list fin_maps pretty.

Open Scope string_scope.
Open Scope list_scope.

(** ** Go errors *)

(** [errorString] is an error built without [%w] ([errors.New], or
    [fmt.Errorf] whose verbs are all [%s]/[%v]); [wrapError] is
    [fmt.Errorf] with one [%w]: the formatted message and the wrapped
    error. *)
Inductive error : Type :=
| errorString (s : string)
| wrapError (msg : string) (err : error).

(** [err.Error()] *)
Definition Error (e : error) : string :=
  match e with
  | errorString s => s
  | wrapError msg _ => msg
  end.

(** [errors.Unwrap(err)] *)
Definition Unwrap (e : error) : option error :=
  match e with
  | errorString _ => None
  | wrapError _ err => Some err
  end.

(** [fmt.Errorf(prefix + "%w", err)] for a literal prefix that may itself
    hold [%s] verbs already expanded: [fmt.Errorf("%s: %w", name, err)] is
    [Errorf_w (name +:+ ": ") err]. *)
Definition Errorf_w (prefix : string) (err : error) : error :=
  wrapError (prefix +:+ Error err) err.

(** [%v] applied to a slice of errors: the messages, separated by one
    space, between square brackets. *)
Fixpoint join_space (l : list string) : string :=
  match l with
  | [] => ""
  | [s] => s
  | s :: rest => s +:+ " " +:+ join_space rest
  end.

Definition fmt_errs (errs : list error) : string :=
  "[" +:+ join_space (Error <$> errs) +:+ "]".

(** ** The message model *)

(** [type ChannelType string]. *)
Abbreviation ChannelType := string (only parsing).

(** [ChannelTypeDM], the chat type of a direct message, from the
    constants of package channels. *)
Definition ChannelTypeDM : ChannelType := "dm".

(** [ChannelTypeGroup], the chat type of a group, from the same
    constants. *)
Definition ChannelTypeGroup : ChannelType := "group".

(** [IncomingMessage], as package channels declares it. The media list,
    the timestamp and the metadata map are never read by the router and
    are left out. *)
Module IncomingMessage.
Record t : Type := mk {
  ID : string;
  ChannelName : string;
  ChatID : string;
  ChatType : ChannelType;
  SenderID : string;
  SenderName : string;
  Content : string;
  ReplyTo : string;
}.
End IncomingMessage.

(** [OutgoingMessage], as package channels declares it. [Format] is a
    string type whose zero value is the empty string. Media and metadata
    are left out as above. *)
Module OutgoingMessage.
Record t : Type := mk {
  Content : string;
  ReplyTo : string;
  Format : string;
}.
End OutgoingMessage.

(** ** Route patterns *)

Module RoutePattern.
Record t : Type := mk {
  Channels : list string;
  ChatTypes : list ChannelType;
  Prefix : string;
}.
End RoutePattern.

(** The search loop of [matchPattern]:
    [found := false; for _, x := range xs { if x == y { found = true; break } }]. *)
Fixpoint found_in (xs : list string) (y : string) : bool :=
  match xs with
  | [] => false
  | x :: rest => if String.eqb x y then true else found_in rest y
  end.

(** [s[:n]] on a string. Go panics when [n] exceeds [len(s)]: [None]. *)
Definition slice_to (s : string) (n : nat) : option string :=
  if (n <=? String.length s)%nat then Some (String.substring 0 n s) else None.

(** [matchPattern], with the run-time check of the slice expression
    written out: [None] stands for the panic of an out-of-range slice. *)
Definition matchPattern_checked
    (pattern : RoutePattern.t) (msg : IncomingMessage.t) : option bool :=
  if (0 <? length (RoutePattern.Channels pattern))%nat
     && negb (found_in (RoutePattern.Channels pattern)
                       (IncomingMessage.ChannelName msg))
  then Some false
  else if (0 <? length (RoutePattern.ChatTypes pattern))%nat
          && negb (found_in (RoutePattern.ChatTypes pattern)
                            (IncomingMessage.ChatType msg))
  then Some false
  else if negb (String.eqb (RoutePattern.Prefix pattern) "")
  then
    if (String.length (IncomingMessage.Content msg)
        <? String.length (RoutePattern.Prefix pattern))%nat
    then Some false
    else
      match slice_to (IncomingMessage.Content msg)
                     (String.length (RoutePattern.Prefix pattern)) with
      | None => None
      | Some head =>
          if negb (String.eqb head (RoutePattern.Prefix pattern))
          then Some false
          else Some true
      end
  else Some true.

(** [matchPattern] as a boolean function: the slice is [substring], which
    is total. The two functions are shown to agree, the panic never being
    reached; the router uses this one. *)
Definition matchPattern
    (pattern : RoutePattern.t) (msg : IncomingMessage.t) : bool :=
  if (0 <? length (RoutePattern.Channels pattern))%nat
     && negb (found_in (RoutePattern.Channels pattern)
                       (IncomingMessage.ChannelName msg))
  then false
  else if (0 <? length (RoutePattern.ChatTypes pattern))%nat
          && negb (found_in (RoutePattern.ChatTypes pattern)
                            (IncomingMessage.ChatType msg))
  then false
  else if negb (String.eqb (RoutePattern.Prefix pattern) "")
  then
    if (String.length (IncomingMessage.Content msg)
        <? String.length (RoutePattern.Prefix pattern))%nat
    then false
    else if negb (String.eqb
                    (String.substring
                       0 (String.length (RoutePattern.Prefix pattern))
                       (IncomingMessage.Content msg))
                    (RoutePattern.Prefix pattern))
    then false
    else true
  else true.

(** The pattern constructors. *)
Definition All : RoutePattern.t := RoutePattern.mk [] [] "".

Definition FromChannels (channels : list string) : RoutePattern.t :=
  RoutePattern.mk channels [] "".

Definition DMOnly : RoutePattern.t := RoutePattern.mk [] [ChannelTypeDM] "".

Definition GroupOnly : RoutePattern.t :=
  RoutePattern.mk [] [ChannelTypeGroup] "".

(** The wording of the specification: [content] starts, byte for byte,
    with [pre]. *)
Definition starts_with (content pre : string) : Prop :=
  ∃ rest, content = pre +:+ rest.

(** The three filter components, as the specification words them. *)
Definition channel_ok (p : RoutePattern.t) (m : IncomingMessage.t) : Prop :=
  RoutePattern.Channels p = []
  ∨ IncomingMessage.ChannelName m ∈ RoutePattern.Channels p.

Definition chat_type_ok (p : RoutePattern.t) (m : IncomingMessage.t) : Prop :=
  RoutePattern.ChatTypes p = []
  ∨ IncomingMessage.ChatType m ∈ RoutePattern.ChatTypes p.

Definition prefix_ok (p : RoutePattern.t) (m : IncomingMessage.t) : Prop :=
  RoutePattern.Prefix p = ""
  ∨ starts_with (IncomingMessage.Content m) (RoutePattern.Prefix p).

(** ** Collaborators of the router

    Adapters and the agent are external code. Their methods are modelled as
    transitions of a world [W], the state of everything outside the router
    (platform sessions, the agent's memory): a method takes the world and
    gives back its result and the new world. *)

(** The [Channel] interface, as package channels declares it. [Name] is
    a constant of the adapter. [OnMessage] installs a hook in the adapter;
    the router only ever passes the closure over its own [route]
    (router.go, lines 109 to 111), so the hook is not an argument here.
    [OnEvent] is never called by the router and is left out. *)
Module Channel.
Record t (W : Type) : Type := mk {
  Name : string;
  Connect : W → option error * W;
  Disconnect : W → option error * W;
  Send : string → OutgoingMessage.t → W → option error * W;
  OnMessage : W → W;
}.
Arguments mk {W}.
Arguments Name {W}.
Arguments Connect {W}.
Arguments Disconnect {W}.
Arguments Send {W}.
Arguments OnMessage {W}.
End Channel.

(** The [AgentProcessor] interface: [Process(ctx, sessionID, content)]
    returns a pair [(string, error)]. *)
Module AgentProcessor.
Record t (W : Type) : Type := mk {
  Process : string → string → W → (string * option error) * W;
}.
Arguments mk {W}.
Arguments Process {W}.
End AgentProcessor.

(** [MessageHandler] is a function type in Go. Handlers are closures over
    the router, so they are represented by what they are: a handler written
    by the user of the package, known by a number, or the closure that
    [ProcessWithAgent] returns. *)
Inductive MessageHandler : Type :=
| UserHandler (id : nat)
| AgentHandler.

Module RouteHandler.
Record t : Type := mk {
  Pattern : RoutePattern.t;
  Handler : MessageHandler;
}.
End RouteHandler.

(** [Router]. The logger is not a field: what is logged goes to the trace
    below. *)
Module Router.
Record t (W : Type) : Type := mk {
  channels : gmap string (Channel.t W);
  handlers : list RouteHandler.t;
  agent : option (AgentProcessor.t W);
}.
Arguments mk {W}.
Arguments channels {W}.
Arguments handlers {W}.
Arguments agent {W}.
End Router.

(** ** What the router does to the outside: the trace *)

Inductive Level : Type := LevelInfo | LevelWarn | LevelError.

Inductive attr : Type :=
| AttrString (s : string)
| AttrError (e : error).

(** One entry for each call that the router's own code makes across its
    boundary, with the value that the call returned. *)
Inductive Event (W : Type) : Type :=
| EvLog (level : Level) (msg : string) (attrs : list (string * attr))
| EvConnect (ch : Channel.t W) (res : option error)
| EvDisconnect (ch : Channel.t W) (res : option error)
| EvSend (ch : Channel.t W) (chatID : string) (msg : OutgoingMessage.t)
         (res : option error)
| EvOnMessage (ch : Channel.t W)
| EvProcess (a : AgentProcessor.t W) (sessionID content : string)
            (res : string * option error)
| EvHandler (h : MessageHandler) (msg : IncomingMessage.t)
            (res : option error).
Arguments EvLog {W}.
Arguments EvConnect {W}.
Arguments EvDisconnect {W}.
Arguments EvSend {W}.
Arguments EvOnMessage {W}.
Arguments EvProcess {W}.
Arguments EvHandler {W}.

(** The state that the operations of the router run in. *)
Record St (W : Type) : Type := mkSt {
  st_router : Router.t W;
  st_world : W;
  st_trace : list (Event W);
}.
Arguments mkSt {W}.
Arguments st_router {W}.
Arguments st_world {W}.
Arguments st_trace {W}.

(** The monad of the embedding: state passing over [St]. *)
Definition M (W A : Type) : Type := St W → A * St W.

Definition ret {W A} (a : A) : M W A := λ st, (a, st).

Definition bind {W A B} (m : M W A) (k : A → M W B) : M W B :=
  λ st, let '(a, st') := m st in k a st'.

Notation "'do' x <- m ; k" := (bind m (λ x, k))
  (at level 10, x pattern, m at level 99, k at level 200, only parsing).
Notation "m ;; k" := (bind m (λ _, k))
  (at level 100, k at level 200, right associativity, only parsing).

Definition gets {W A} (f : St W → A) : M W A := λ st, (f st, st).

Definition modify_router {W} (f : Router.t W → Router.t W) : M W unit :=
  λ st, (tt, mkSt (f (st_router st)) (st_world st) (st_trace st)).

(** Run a transition of the world. *)
Definition lift_world {W A} (f : W → A * W) : M W A :=
  λ st, let '(a, w) := f (st_world st) in
        (a, mkSt (st_router st) w (st_trace st)).

Definition emit {W} (ev : Event W) : M W unit :=
  λ st, (tt, mkSt (st_router st) (st_world st) (st_trace st ++ [ev])).

(** [r.logger.Info/Warn/Error(msg, key, value, ...)] *)
Definition log {W} (level : Level) (msg : string)
    (attrs : list (string * attr)) : M W unit :=
  emit (EvLog level msg attrs).

(** The calls across the boundary: run the callee, record the call. *)
Definition call_connect {W} (ch : Channel.t W) : M W (option error) :=
  do res <- lift_world (Channel.Connect ch);
  emit (EvConnect ch res);; ret res.

Definition call_disconnect {W} (ch : Channel.t W) : M W (option error) :=
  do res <- lift_world (Channel.Disconnect ch);
  emit (EvDisconnect ch res);; ret res.

Definition call_send {W} (ch : Channel.t W) (chatID : string)
    (msg : OutgoingMessage.t) : M W (option error) :=
  do res <- lift_world (Channel.Send ch chatID msg);
  emit (EvSend ch chatID msg res);; ret res.

Definition call_on_message {W} (ch : Channel.t W) : M W unit :=
  lift_world (λ w, (tt, Channel.OnMessage ch w));;
  emit (EvOnMessage ch).

Definition call_process {W} (a : AgentProcessor.t W)
    (sessionID content : string) : M W (string * option error) :=
  do res <- lift_world (AgentProcessor.Process a sessionID content);
  emit (EvProcess a sessionID content res);; ret res.

(** Go's [for k, v := range m] visits every entry of the map once, in an
    order that the language leaves open. An operation that ranges over a
    map takes the order as an argument: a function from the map to the list
    of its entries as visited. [range_ok] says that the function is a
    possible order for [m]. *)
Definition range_ok {V} (range : gmap string V → list (string * V))
    (m : gmap string V) : Prop :=
  range m ≡ₚ map_to_list m.

(** ** The router *)

Section Router.

Context {W : Type}.

(** The code of the handlers that the user of the package registers.
    A handler may change the world and, through the router's exported
    methods, the router itself; what it does is opaque, so the calls it
    makes on its own account are not entries of the trace. *)
Variable user_handler :
  nat → IncomingMessage.t → Router.t W * W → option error * (Router.t W * W).

(** [NewRouter] *)
Definition NewRouter : Router.t W := Router.mk ∅ [] None.

(** [SetAgent] *)
Definition SetAgent (agent : option (AgentProcessor.t W)) : M W unit :=
  modify_router (λ r, Router.mk (Router.channels r) (Router.handlers r) agent).

(** [Register] *)
Definition Register (channel : Channel.t W) : M W unit :=
  let name := Channel.Name channel in
  modify_router (λ r, Router.mk (<[name := channel]> (Router.channels r))
                                (Router.handlers r) (Router.agent r));;
  call_on_message channel;;
  log LevelInfo "channel registered" [("name", AttrString name)].

(** [Unregister] *)
Definition Unregister (name : string) : M W unit :=
  modify_router (λ r, Router.mk (delete name (Router.channels r))
                                (Router.handlers r) (Router.agent r));;
  log LevelInfo "channel unregistered" [("name", AttrString name)].

(** [OnMessage]: [append] at the end of the slice. *)
Definition OnMessage (pattern : RoutePattern.t) (handler : MessageHandler)
    : M W unit :=
  modify_router (λ r, Router.mk (Router.channels r)
                        (Router.handlers r ++ [RouteHandler.mk pattern handler])
                        (Router.agent r)).

(** [Send] *)
Definition Send (channelName chatID : string) (msg : OutgoingMessage.t)
    : M W (option error) :=
  do channels <- gets (λ st, Router.channels (st_router st));
  match channels !! channelName with
  | None => ret (Some (errorString ("channel not found: " +:+ channelName)))
  | Some channel => call_send channel chatID msg
  end.

(** The loop of [Broadcast] over the targets, in the order visited;
    [errs] is the slice of errors collected so far. *)
Fixpoint Broadcast_loop (channels : gmap string (Channel.t W))
    (targets : list (string * string)) (msg : OutgoingMessage.t)
    (errs : list error) : M W (list error) :=
  match targets with
  | [] => ret errs
  | (name, chatID) :: rest =>
      match channels !! name with
      | Some channel =>
          do err <- call_send channel chatID msg;
          match err with
          | Some e =>
              Broadcast_loop channels rest msg
                             (errs ++ [Errorf_w (name +:+ ": ") e])
          | None => Broadcast_loop channels rest msg errs
          end
      | None => Broadcast_loop channels rest msg errs
      end
  end.

(** [Broadcast]. [range_channels] is the order of the loop that copies
    the registry, [range_targets] the order of the loop over [chatIDs]. *)
Definition Broadcast
    (range_channels :
       gmap string (Channel.t W) → list (string * Channel.t W))
    (range_targets : gmap string string → list (string * string))
    (chatIDs : gmap string string) (msg : OutgoingMessage.t)
    : M W (option error) :=
  do registry <- gets (λ st, Router.channels (st_router st));
  let channels :=
    foldl (λ acc kv, <[kv.1 := kv.2]> acc) ∅ (range_channels registry) in
  do errs <- Broadcast_loop channels (range_targets chatIDs) msg [];
  if (0 <? length errs)%nat
  then ret (Some (errorString ("broadcast errors: " +:+ fmt_errs errs)))
  else ret None.

(** The loop of [ConnectAll]. *)
Fixpoint ConnectAll_loop (entries : list (string * Channel.t W))
    : M W (option error) :=
  match entries with
  | [] => ret None
  | (name, channel) :: rest =>
      do err <- call_connect channel;
      match err with
      | Some e => ret (Some (Errorf_w ("connect " +:+ name +:+ ": ") e))
      | None =>
          log LevelInfo "channel connected" [("name", AttrString name)];;
          ConnectAll_loop rest
      end
  end.

(** [ConnectAll] *)
Definition ConnectAll
    (range : gmap string (Channel.t W) → list (string * Channel.t W))
    : M W (option error) :=
  do channels <- gets (λ st, Router.channels (st_router st));
  ConnectAll_loop (range channels).

(** The loop of [DisconnectAll]. *)
Fixpoint DisconnectAll_loop (entries : list (string * Channel.t W))
    (errs : list error) : M W (list error) :=
  match entries with
  | [] => ret errs
  | (name, channel) :: rest =>
      do err <- call_disconnect channel;
      match err with
      | Some e =>
          DisconnectAll_loop rest (errs ++ [Errorf_w (name +:+ ": ") e])
      | None =>
          log LevelInfo "channel disconnected" [("name", AttrString name)];;
          DisconnectAll_loop rest errs
      end
  end.

(** [DisconnectAll] *)
Definition DisconnectAll
    (range : gmap string (Channel.t W) → list (string * Channel.t W))
    : M W (option error) :=
  do channels <- gets (λ st, Router.channels (st_router st));
  do errs <- DisconnectAll_loop (range channels) [];
  if (0 <? length errs)%nat
  then ret (Some (errorString ("disconnect errors: " +:+ fmt_errs errs)))
  else ret None.

(** [GetChannel]: the pair of the comma-ok lookup; the channel is nil
    when the name is absent. *)
Definition GetChannel (name : string) : M W (option (Channel.t W) * bool) :=
  do channels <- gets (λ st, Router.channels (st_router st));
  match channels !! name with
  | Some ch => ret (Some ch, true)
  | None => ret (None, false)
  end.

(** [ListChannels] *)
Definition ListChannels
    (range : gmap string (Channel.t W) → list (string * Channel.t W))
    : M W (list string) :=
  do channels <- gets (λ st, Router.channels (st_router st));
  ret (foldl (λ names kv, (names ++ [kv.1])%list) [] (range channels)).

(** The closure returned by [ProcessWithAgent]. *)
Definition ProcessWithAgent_func (msg : IncomingMessage.t)
    : M W (option error) :=
  do agent <- gets (λ st, Router.agent (st_router st));
  match agent with
  | None =>
      log LevelWarn "no agent configured, message not processed"
          [("channel", AttrString (IncomingMessage.ChannelName msg));
           ("chat", AttrString (IncomingMessage.ChatID msg))];;
      ret None
  | Some agent =>
      let sessionID :=
        IncomingMessage.ChannelName msg +:+ ":" +:+ IncomingMessage.ChatID msg in
      log LevelInfo "processing message"
          [("channel", AttrString (IncomingMessage.ChannelName msg));
           ("chat", AttrString (IncomingMessage.ChatID msg));
           ("from", AttrString (IncomingMessage.SenderName msg))];;
      do (response, err) <-
        call_process agent sessionID (IncomingMessage.Content msg);
      match err with
      | Some e =>
          log LevelError "agent processing error"
              [("channel", AttrString (IncomingMessage.ChannelName msg));
               ("chat", AttrString (IncomingMessage.ChatID msg));
               ("error", AttrError e)];;
          ret (Some e)
      | None =>
          Send (IncomingMessage.ChannelName msg) (IncomingMessage.ChatID msg)
               (OutgoingMessage.mk response (IncomingMessage.ID msg) "")
      end
  end.

(** [ProcessWithAgent] *)
Definition ProcessWithAgent : MessageHandler := AgentHandler.

(** [h.Handler(ctx, msg)]: run the code behind the handler value. *)
Definition call_handler (h : MessageHandler) (msg : IncomingMessage.t)
    : M W (option error) :=
  do res <-
    match h with
    | UserHandler id =>
        λ st, let '(res, (r, w)) :=
                user_handler id msg (st_router st, st_world st) in
              (res, mkSt r w (st_trace st))
    | AgentHandler => ProcessWithAgent_func msg
    end;
  emit (EvHandler h msg res);; ret res.

(** The loop of [route] over the snapshot of the handlers. *)
Fixpoint route_loop (handlers : list RouteHandler.t) (msg : IncomingMessage.t)
    : M W unit :=
  match handlers with
  | [] => ret tt
  | h :: rest =>
      (if matchPattern (RouteHandler.Pattern h) msg
       then
         do err <- call_handler (RouteHandler.Handler h) msg;
         match err with
         | Some e =>
             log LevelError "handler error"
                 [("channel", AttrString (IncomingMessage.ChannelName msg));
                  ("chat", AttrString (IncomingMessage.ChatID msg));
                  ("error", AttrError e)]
         | None => ret tt
         end
       else ret tt);;
      route_loop rest msg
  end.

(** [route] *)
Definition route (msg : IncomingMessage.t) : M W (option error) :=
  do handlers <- gets (λ st, Router.handlers (st_router st));
  route_loop handlers msg;;
  ret None.

End Router.

(** ** The gateway: wire frames and their handling *)

(** [type MessageType string]. *)
Abbreviation MessageType := string (only parsing).

(** Modelled from the spec: the declaration of the frame type of a chat request
    is missing from the sources at hand; the wire protocol writes it
    chat. *)
Definition MessageTypeChat : MessageType := "chat".

(** Modelled from the spec: the declaration of the frame type of a liveness probe
    is missing from the sources at hand; the wire protocol writes it
    ping. *)
Definition MessageTypePing : MessageType := "ping".

(** Modelled from the spec: the declaration of the frame type of the auth handshake
    is missing from the sources at hand; the wire protocol writes it
    auth. *)
Definition MessageTypeAuth : MessageType := "auth".

(** Modelled from the spec: the declaration of the frame type of a topic subscription
    is missing from the sources at hand; the wire protocol writes it
    subscribe. *)
Definition MessageTypeSubscribe : MessageType := "subscribe".

(** Modelled from the spec: the declaration of the frame type of a reply
    is missing from the sources at hand; the wire protocol writes it
    response. *)
Definition MessageTypeResponse : MessageType := "response".

(** Modelled from the spec: the declaration of the frame type of the reply to a probe
    is missing from the sources at hand; the wire protocol writes it
    pong. *)
Definition MessageTypePong : MessageType := "pong".

(** Modelled from the spec: the declaration of the frame type of a failure reply
    is missing from the sources at hand; the wire protocol writes it
    error. *)
Definition MessageTypeError : MessageType := "error".

(** The values that the [data] mapping of a frame holds in the replies of
    the gateway. *)
Inductive json : Type :=
| JBool (b : bool)
| JString (s : string).

(** Modelled from the spec: the declaration of the wire [Message] is
    missing; the fields are those of the wire protocol (one frame is one
    JSON object). A timestamp is an instant, counted from some origin. *)
Module Message.
Record t : Type := mk {
  ID : string;
  Type_ : MessageType;
  Content : string;
  Channel : string;
  Data : gmap string json;
  Error : string;
  Timestamp : nat;
}.
End Message.

(** Modelled from the spec: the body of [NewChatResponse] is missing; the
    protocol tests fix what it sets: id, type response, content, and the
    time of the call. *)
Definition NewChatResponse (id content : string) (now : nat) : Message.t :=
  Message.mk id MessageTypeResponse content "" ∅ "" now.

(** Modelled from the spec: the body of [NewErrorMessage] is missing; the
    protocol tests fix what it sets: id, type error, and the error text. *)
Definition NewErrorMessage (id err : string) (now : nat) : Message.t :=
  Message.mk id MessageTypeError "" "" ∅ err now.

(** Modelled from the spec: the reply to a ping, type pong with the id of
    the request and the current time. *)
Definition pong_reply (id : string) (now : nat) : Message.t :=
  Message.mk id MessageTypePong "" "" ∅ "" now.

(** Modelled from the spec: the reply to auth and subscribe, type
    response with the id of the request and a data mapping. *)
Definition data_reply (id : string) (data : gmap string json) (now : nat)
    : Message.t :=
  Message.mk id MessageTypeResponse "" "" data "" now.

(** Modelled from the spec: the protocol handling of the gateway
    (gateway.go) is missing from the sources at hand; this follows the
    table of the component design, one case for each inbound type. The
    result is the list of frames that the gateway replies with on the
    session. [agent] is the configured backend processor, if any;
    [sessionID] the identity derived from the connection; [now] the time
    of the reply; [unknown] the text that describes a type that is not
    recognized. *)
Definition handleMessage {W} (agent : option (AgentProcessor.t W))
    (sessionID : string) (now : nat) (unknown : MessageType → string)
    (msg : Message.t) : W → list Message.t * W :=
  λ w,
  if String.eqb (Message.Type_ msg) MessageTypePing then
    ([pong_reply (Message.ID msg) now], w)
  else if String.eqb (Message.Type_ msg) MessageTypeChat then
    match agent with
    | Some a =>
        let '((text, err), w') :=
          AgentProcessor.Process a sessionID (Message.Content msg) w in
        match err with
        | Some e => ([NewErrorMessage (Message.ID msg) (Error e) now], w')
        | None => ([NewChatResponse (Message.ID msg) text now], w')
        end
    | None =>
        ([NewChatResponse (Message.ID msg)
            ("Message received: " +:+ Message.Content msg) now], w)
    end
  else if String.eqb (Message.Type_ msg) MessageTypeAuth then
    ([data_reply (Message.ID msg) {["authenticated" := JBool true]} now], w)
  else if String.eqb (Message.Type_ msg) MessageTypeSubscribe then
    ([data_reply (Message.ID msg) {["subscribed" := JBool true]} now], w)
  else
    ([NewErrorMessage (Message.ID msg) (unknown (Message.Type_ msg)) now], w).

(** ** Reading a trace *)

(** The adapter sends of a trace, oldest first. *)
Definition send_calls {W} (tr : list (Event W))
    : list (Channel.t W * string * OutgoingMessage.t * option error) :=
  omap (λ ev, match ev with
              | EvSend ch chatID msg res => Some (ch, chatID, msg, res)
              | _ => None
              end) tr.

Definition connect_calls {W} (tr : list (Event W))
    : list (Channel.t W * option error) :=
  omap (λ ev, match ev with
              | EvConnect ch res => Some (ch, res)
              | _ => None
              end) tr.

Definition disconnect_calls {W} (tr : list (Event W))
    : list (Channel.t W * option error) :=
  omap (λ ev, match ev with
              | EvDisconnect ch res => Some (ch, res)
              | _ => None
              end) tr.

Definition process_calls {W} (tr : list (Event W))
    : list (AgentProcessor.t W * string * string * (string * option error)) :=
  omap (λ ev, match ev with
              | EvProcess a sessionID content res =>
                  Some (a, sessionID, content, res)
              | _ => None
              end) tr.

(** The handler invocations of a trace, each with what the handler
    returned. *)
Definition handler_calls {W} (tr : list (Event W))
    : list (MessageHandler * IncomingMessage.t * option error) :=
  omap (λ ev, match ev with
              | EvHandler h msg res => Some (h, msg, res)
              | _ => None
              end) tr.

(** The record that [route] writes for a handler that failed on [msg]. *)
Definition handler_error_record {W} (msg : IncomingMessage.t) (e : error)
    : Event W :=
  EvLog LevelError "handler error"
        [("channel", AttrString (IncomingMessage.ChannelName msg));
         ("chat", AttrString (IncomingMessage.ChatID msg));
         ("error", AttrError e)].

(** The errors of the "handler error" records of a trace. *)
Definition handler_errors_logged {W} (tr : list (Event W)) : list error :=
  omap (λ ev, match ev with
              | EvLog LevelError msg [(_, _); (_, _); (_, AttrError e)] =>
                  if String.eqb msg "handler error" then Some e else None
              | _ => None
              end) tr.

(** The error of [Send] for a name that is not registered. *)
Definition channel_not_found (channelName : string) : error :=
  errorString ("channel not found: " +:+ channelName).

(** The one error that reports the failures [errs] of an operation over
    several adapters, or nil when there are none. *)
Definition aggregate (what : string) (errs : list error) : option error :=
  match errs with
  | [] => None
  | _ => Some (errorString (what +:+ fmt_errs errs))
  end.

(** ** Data for the examples *)

(** A message for the examples: a direct message on telegram. *)
Definition example_msg (content : string) : IncomingMessage.t :=
  IncomingMessage.mk "m1" "telegram" "42" ChannelTypeDM "u7" "Ada" content "".

(** The world of the examples: the texts delivered so far, latest first. *)
Definition ExWorld : Type := list string.

(** An adapter that works: it delivers what it is given. *)
Definition up_adapter (name : string) : Channel.t ExWorld :=
  Channel.mk name
    (λ w, (None, w))
    (λ w, (None, w))
    (λ chatID msg w,
       (None, (name +:+ "/" +:+ chatID +:+ ": " +:+ OutgoingMessage.Content msg)
              :: w))
    (λ w, w).

(** An adapter whose platform is out of reach: every call fails. *)
Definition down_adapter (name : string) : Channel.t ExWorld :=
  Channel.mk name
    (λ w, (Some (errorString "dial failed"), w))
    (λ w, (Some (errorString "close failed"), w))
    (λ chatID msg w, (Some (errorString "not connected"), w))
    (λ w, w).

(** An agent that answers with a greeting, and one that fails. *)
Definition greeter : AgentProcessor.t ExWorld :=
  AgentProcessor.mk (λ sessionID content w, (("Hello from agent!", None), w)).

Definition broken_agent : AgentProcessor.t ExWorld :=
  AgentProcessor.mk
    (λ sessionID content w, (("", Some (errorString "model overloaded")), w)).

(** The handlers of the examples: number 0 succeeds, every other one
    fails; neither touches the router or the world. *)
Definition example_handlers (id : nat) (msg : IncomingMessage.t)
    (rw : Router.t ExWorld * ExWorld)
    : option error * (Router.t ExWorld * ExWorld) :=
  match id with
  | 0 => (None, rw)
  | _ => (Some (errorString "handler failed"), rw)
  end.

Definition example_st (r : Router.t ExWorld) : St ExWorld := mkSt r [] [].


(** ** Outcomes of the operations over several adapters *)

(** One attempted send of [Broadcast]: the target entry, the adapter found
    under its name, and what the adapter's [Send] returned. *)
Record SendOutcome (W : Type) : Type := mkSendOutcome {
  so_name : string;
  so_channel : Channel.t W;
  so_chatID : string;
  so_result : option error;
}.
Arguments mkSendOutcome {W}.
Arguments so_name {W}.
Arguments so_channel {W}.
Arguments so_chatID {W}.
Arguments so_result {W}.

Definition so_target {W} (o : SendOutcome W) : string * Channel.t W * string :=
  (so_name o, so_channel o, so_chatID o).

Definition so_event {W} (out : OutgoingMessage.t) (o : SendOutcome W) : Event W :=
  EvSend (so_channel o) (so_chatID o) out (so_result o).

(** The targets of a broadcast that name a registered channel, each with
    the adapter registered under the name. *)
Definition broadcast_targets {W} (registry : gmap string (Channel.t W))
    (targets : list (string * string)) : list (string * Channel.t W * string) :=
  omap (λ t, (λ ch, (t.1, ch, t.2)) <$> registry !! t.1) targets.

(** The failures among named results, each wrapped under its name as
    [fmt.Errorf("%s: %w", name, err)] does. *)
Definition named_failures (results : list (string * option error)) : list error :=
  omap (λ nr, Errorf_w (nr.1 +:+ ": ") <$> nr.2) results.


(** What [ConnectAll] leaves in the trace for one adapter, given what its
    [Connect] returned: the call, and the record of a success. *)
Definition connect_events {W} (r : string * Channel.t W * option error)
    : list (Event W) :=
  match r.2 with
  | None => [EvConnect r.1.2 None;
             EvLog LevelInfo "channel connected" [("name", AttrString r.1.1)]]
  | Some e => [EvConnect r.1.2 (Some e)]
  end.

(** The same for [DisconnectAll]. *)
Definition disconnect_events {W} (r : string * Channel.t W * option error)
    : list (Event W) :=
  match r.2 with
  | None => [EvDisconnect r.1.2 None;
             EvLog LevelInfo "channel disconnected" [("name", AttrString r.1.1)]]
  | Some e => [EvDisconnect r.1.2 (Some e)]
  end.


(** ** What the agent handler leaves in the trace *)

(** The session of a message: channel name, a colon, chat id. *)
Definition session_of (msg : IncomingMessage.t) : string :=
  IncomingMessage.ChannelName msg +:+ ":" +:+ IncomingMessage.ChatID msg.

(** The reply to a message: the text, in reply to the id of the message. *)
Definition reply_with (msg : IncomingMessage.t) (text : string)
    : OutgoingMessage.t :=
  OutgoingMessage.mk text (IncomingMessage.ID msg) "".

Definition no_agent_record {W} (msg : IncomingMessage.t) : Event W :=
  EvLog LevelWarn "no agent configured, message not processed"
        [("channel", AttrString (IncomingMessage.ChannelName msg));
         ("chat", AttrString (IncomingMessage.ChatID msg))].

Definition processing_record {W} (msg : IncomingMessage.t) : Event W :=
  EvLog LevelInfo "processing message"
        [("channel", AttrString (IncomingMessage.ChannelName msg));
         ("chat", AttrString (IncomingMessage.ChatID msg));
         ("from", AttrString (IncomingMessage.SenderName msg))].

Definition agent_error_record {W} (msg : IncomingMessage.t) (e : error)
    : Event W :=
  EvLog LevelError "agent processing error"
        [("channel", AttrString (IncomingMessage.ChannelName msg));
         ("chat", AttrString (IncomingMessage.ChatID msg));
         ("error", AttrError e)].

(** The state in which the agent handler goes on once the processor has
    returned: the world as the processor left it, and the call recorded. *)
Definition after_process {W} (a : AgentProcessor.t W)
    (msg : IncomingMessage.t) (st : St W) : St W :=
  let pr := AgentProcessor.Process a (session_of msg)
              (IncomingMessage.Content msg) (st_world st) in
  mkSt (st_router st) pr.2
       (st_trace st
        ++ [processing_record msg;
            EvProcess a (session_of msg) (IncomingMessage.Content msg) pr.1]).

(** A state with one more entry at the end of its trace. *)
Definition with_event {W} (st : St W) (ev : Event W) : St W :=
  mkSt (st_router st) (st_world st) (st_trace st ++ [ev]).


(** Routers and states of the examples. *)
Definition two_channels : gmap string (Channel.t ExWorld) :=
  <["telegram" := up_adapter "telegram"]>
    (<["discord" := down_adapter "discord"]> ∅).

Definition example_router : Router.t ExWorld :=
  Router.mk two_channels
    [RouteHandler.mk All (UserHandler 1);
     RouteHandler.mk (FromChannels ["discord"]) (UserHandler 0);
     RouteHandler.mk DMOnly (UserHandler 0);
     RouteHandler.mk (RoutePattern.mk [] [] "/ask") ProcessWithAgent]
    (Some greeter).

Definition example_targets : gmap string string :=
  <["telegram" := "42"]> (<["discord" := "7"]> (<["slack" := "9"]> ∅)).

Definition hello : OutgoingMessage.t := OutgoingMessage.mk "hello" "" "".


(** A router set up the way a program sets it up: a new router, one
    adapter registered, an agent set, the agent handler on every
    message. *)
Definition assembled_st : St ExWorld :=
  (OnMessage All ProcessWithAgent
     (SetAgent (Some greeter)
        (Register (up_adapter "telegram") (example_st NewRouter)).2).2).2.


(** ** The Discord adapter (package discord)

    The adapter is a wrapper around the discordgo SDK. The SDK is not part
    of the repository: the values of its types that the adapter reads are
    records with the fields read, and its functions are taken as
    parameters, transitions of a state [D] of the platform. *)

(** [ChannelTypeChannel] and [ChannelTypeThread], from the constants of
    package channels. *)
Definition ChannelTypeChannel : ChannelType := "channel".
Definition ChannelTypeThread : ChannelType := "thread".

(** The types of discordgo, with the fields that the adapter reads. *)
Module discordgo.

Module User.
Record t : Type := mk {
  ID : string;
  Username : string;
  Discriminator : string;
}.
End User.

Module MessageReference.
Record t : Type := mk {
  MessageID : string;
}.
End MessageReference.

(** A [*discordgo.Channel]; the adapter only tests the pointer for nil. *)
Module Channel.
Record t : Type := mk {
  ID : string;
}.
End Channel.

(** [*discordgo.MessageCreate]. [Thread] and [Reference] are pointers
    that may be nil; [Author] is dereferenced without a test and is taken
    to be there. [Reference] is the field [MessageReference] of the SDK. *)
Module MessageCreate.
Record t : Type := mk {
  ID : string;
  ChannelID : string;
  GuildID : string;
  Thread : option Channel.t;
  Author : User.t;
  Content : string;
  Reference : option MessageReference.t;
}.
End MessageCreate.

(** [discordgo.MessageSend], with the fields that the adapter sets. *)
Module MessageSend.
Record t : Type := mk {
  Content : string;
  Reference : option MessageReference.t;
}.
End MessageSend.

(** The functions of the SDK that the adapter calls, on sessions [S]:
    [discordgo.New], [AddHandler] of the adapter's closure, the write of
    the intents, [Open], [Close], [ChannelMessageSendComplex] (its first
    result is dropped by the adapter), and the read of
    [State.User.Username]. *)
Record Api (D S : Type) : Type := mkApi {
  New : string → D → (S + error) * D;
  AddHandler : S → D → D;
  SetIntents : S → D → D;
  Open : S → D → option error * D;
  Close : S → D → option error * D;
  ChannelMessageSendComplex :
    S → string → MessageSend.t → D → option error * D;
  StateUsername : S → D → string;
}.
Arguments mkApi {D S}.
Arguments New {D S}.
Arguments AddHandler {D S}.
Arguments SetIntents {D S}.
Arguments Open {D S}.
Arguments Close {D S}.
Arguments ChannelMessageSendComplex {D S}.
Arguments StateUsername {D S}.

End discordgo.

(** A record of a logger: level, message, attributes. *)
Definition LogRecord : Type := Level * string * list (string * attr).

(** What an adapter holds as its message handler: the closure over the
    router's [route] that [Register] passes, or a handler of the user of
    the package, known by its number. *)
Inductive InboundHandler : Type :=
| RouterRoute
| DirectHandler (id : nat).

Module discord.

(** [Config]; the logger is not a field, see [World]. *)
Module Config.
Record t : Type := mk {
  Token : string;
  GuildID : string;
}.
End Config.

(** [Adapter]. The event handler is a function that the router never
    sets; it is known by a number. *)
Record Adapter (S : Type) : Type := mkAdapter {
  session : option S;
  token : string;
  guildID : string;
  messageHandler : option InboundHandler;
  eventHandler : option nat;
}.
Arguments mkAdapter {S}.
Arguments session {S}.
Arguments token {S}.
Arguments guildID {S}.
Arguments messageHandler {S}.
Arguments eventHandler {S}.

(** The world of a program with one Discord adapter: the adapter, the
    platform, and what the adapter's logger has written. *)
Record World (D S : Type) : Type := mkWorld {
  adapter : Adapter S;
  sdk : D;
  logged : list LogRecord;
}.
Arguments mkWorld {D S}.
Arguments adapter {D S}.
Arguments sdk {D S}.
Arguments logged {D S}.

(** [New] *)
Definition New {S} (config : Config.t) : Adapter S + error :=
  if String.eqb (Config.Token config) ""
  then inr (errorString "discord token required")
  else inl (mkAdapter None (Config.Token config) (Config.GuildID config)
                      None None).

(** [Name] *)
Definition Name : string := "discord".

(** [getReplyTo] *)
Definition getReplyTo (m : discordgo.MessageCreate.t) : string :=
  match discordgo.MessageCreate.Reference m with
  | Some r => discordgo.MessageReference.MessageID r
  | None => ""
  end.

(** [convertIncoming]; the timestamp and the metadata are not fields of
    [IncomingMessage.t]. *)
Definition convertIncoming (m : discordgo.MessageCreate.t) : IncomingMessage.t :=
  let chatType := ChannelTypeGroup in
  let chatType :=
    if String.eqb (discordgo.MessageCreate.GuildID m) ""
    then ChannelTypeDM else chatType in
  let chatType :=
    match discordgo.MessageCreate.Thread m with
    | Some _ => ChannelTypeThread
    | None => chatType
    end in
  IncomingMessage.mk
    (discordgo.MessageCreate.ID m)
    "discord"
    (discordgo.MessageCreate.ChannelID m)
    chatType
    (discordgo.User.ID (discordgo.MessageCreate.Author m))
    (discordgo.User.Username (discordgo.MessageCreate.Author m))
    (discordgo.MessageCreate.Content m)
    (getReplyTo m).

Section WithApi.

Context {D S : Type}.
Variable api : discordgo.Api D S.

(** [Connect] *)
Definition Connect (w : World D S) : option error * World D S :=
  let a := adapter w in
  let '(r, d1) := discordgo.New api ("Bot " +:+ token a) (sdk w) in
  match r with
  | inr err =>
      (Some (Errorf_w "create discord session: " err),
       mkWorld a d1 (logged w))
  | inl s =>
      let a' := mkAdapter (Some s) (token a) (guildID a)
                          (messageHandler a) (eventHandler a) in
      let d2 := discordgo.AddHandler api s d1 in
      let d3 := discordgo.SetIntents api s d2 in
      let '(err, d4) := discordgo.Open api s d3 in
      match err with
      | Some e =>
          (Some (Errorf_w "open discord session: " e),
           mkWorld a' d4 (logged w))
      | None =>
          (None,
           mkWorld a' d4
             (logged w
              ++ [(LevelInfo, "discord bot connected",
                   [("user", AttrString (discordgo.StateUsername api s d4))])]))
      end
  end.

(** [Disconnect] *)
Definition Disconnect (w : World D S) : option error * World D S :=
  match session (adapter w) with
  | Some s =>
      let '(err, d1) := discordgo.Close api s (sdk w) in
      match err with
      | Some e =>
          (Some (Errorf_w "close discord session: " e),
           mkWorld (adapter w) d1 (logged w))
      | None =>
          (None,
           mkWorld (adapter w) d1
             (logged w ++ [(LevelInfo, "discord bot disconnected", [])]))
      end
  | None => (None, w)
  end.

(** [Send] *)
Definition Send (channelID : string) (msg : OutgoingMessage.t)
    (w : World D S) : option error * World D S :=
  match session (adapter w) with
  | None => (Some (errorString "discord session not connected"), w)
  | Some s =>
      let data :=
        discordgo.MessageSend.mk
          (OutgoingMessage.Content msg)
          (if negb (String.eqb (OutgoingMessage.ReplyTo msg) "")
           then Some (discordgo.MessageReference.mk (OutgoingMessage.ReplyTo msg))
           else None) in
      let '(err, d1) :=
        discordgo.ChannelMessageSendComplex api s channelID data (sdk w) in
      match err with
      | Some e =>
          (Some (Errorf_w "send message: " e),
           mkWorld (adapter w) d1 (logged w))
      | None => (None, mkWorld (adapter w) d1 (logged w))
      end
  end.

(** [OnMessage] *)
Definition OnMessage (handler : InboundHandler) (w : World D S) : World D S :=
  let a := adapter w in
  mkWorld (mkAdapter (session a) (token a) (guildID a)
                     (Some handler) (eventHandler a))
          (sdk w) (logged w).

(** [OnEvent] *)
Definition OnEvent (handler : nat) (w : World D S) : World D S :=
  let a := adapter w in
  mkWorld (mkAdapter (session a) (token a) (guildID a)
                     (messageHandler a) (Some handler))
          (sdk w) (logged w).

(** The adapter as a [Channel], which the last declaration of the file
    asserts it to be. The handler that the router passes to [OnMessage]
    is its closure over [route]. *)
Definition channel : Channel.t (World D S) :=
  Channel.mk Name Connect Disconnect Send (OnMessage RouterRoute).

(** The code of the handlers that the user of the package writes. *)
Variable user_handler :
  nat → IncomingMessage.t → Router.t (World D S) * World D S →
  option error * (Router.t (World D S) * World D S).

(** [a.messageHandler(ctx, msg)] for the handler that the adapter holds. *)
Definition call_inbound (h : InboundHandler) (msg : IncomingMessage.t)
    : M (World D S) (option error) :=
  match h with
  | RouterRoute => route user_handler msg
  | DirectHandler id =>
      λ st, let '(res, (r, w)) :=
              user_handler id msg (st_router st, st_world st) in
            (res, mkSt r w (st_trace st))
  end.

(** [a.logger.Error(msg, key, value, ...)] and the like. *)
Definition adapter_log (level : Level) (msg : string)
    (attrs : list (string * attr)) : M (World D S) unit :=
  lift_world (λ w, (tt, mkWorld (adapter w) (sdk w)
                                (logged w ++ [(level, msg, attrs)]))).

(** The closure that [Connect] hands to [AddHandler]: what the adapter
    does when the SDK delivers a message. [self] is [s.State.User.ID] of
    the session that the SDK passes to the closure. *)
Definition on_message_create (self : string) (m : discordgo.MessageCreate.t)
    : M (World D S) unit :=
  if String.eqb (discordgo.User.ID (discordgo.MessageCreate.Author m)) self
  then ret tt
  else
    do h <- gets (λ st, messageHandler (adapter (st_world st)));
    match h with
    | Some h =>
        let msg := convertIncoming m in
        do err <- call_inbound h msg;
        match err with
        | Some e =>
            adapter_log LevelError "message handler error"
                        [("error", AttrError e)]
        | None => ret tt
        end
    | None => ret tt
    end.

End WithApi.

End discord.


(** ** The Telegram adapter (package telegram)

    As for Discord, the telebot SDK is a parameter. [Connect] starts the
    bot in a goroutine of its own and is not modelled; the adapter is
    taken with or without its bot. *)

(** [type MessageFormat string] and its constants, from package
    channels. *)
Definition MessageFormatPlain : string := "plain".
Definition MessageFormatMarkdown : string := "markdown".
Definition MessageFormatHTML : string := "html".

(** [fmt.Sprintf("%d", n)]: the decimal digits, after a minus sign for a
    negative number. *)
Definition fmt_d (n : Z) : string := pretty n.

(** The types of telebot, with the fields that the adapter reads. *)
Module telebot.

Module Chat.
Record t : Type := mk {
  ID : Z;
  Type_ : string;
  Title : string;
}.
End Chat.

Module User.
Record t : Type := mk {
  ID : Z;
  FirstName : string;
  LastName : string;
  Username : string;
}.
End User.

(** [*telebot.Message]; [Chat] and [Sender] are dereferenced without a
    test and are taken to be there. *)
Module Message.
Record t : Type := mk {
  ID : Z;
  Chat : Chat.t;
  Sender : User.t;
  Text : string;
}.
End Message.

Module SendOptions.
Record t : Type := mk {
  ParseMode : string;
}.
End SendOptions.

(** The constants and the functions of the SDK that the adapter uses, on
    bots [B]: the chat types, the parse modes, [Stop], [ChatByID] and
    [Send] (whose first result the adapter drops). [Stop] waits for the
    polling loop of the bot to take the signal, and does not return when
    the loop is not running: [None]. *)
Record Api (D B : Type) : Type := mkApi {
  ChatGroup : string;
  ChatSuperGroup : string;
  ChatChannel : string;
  ModeMarkdown : string;
  ModeHTML : string;
  Stop : B → D → option D;
  ChatByID : B → Z → D → (Chat.t + error) * D;
  Send : B → Chat.t → string → SendOptions.t → D → option error * D;
}.
Arguments mkApi {D B}.
Arguments ChatGroup {D B}.
Arguments ChatSuperGroup {D B}.
Arguments ChatChannel {D B}.
Arguments ModeMarkdown {D B}.
Arguments ModeHTML {D B}.
Arguments Stop {D B}.
Arguments ChatByID {D B}.
Arguments Send {D B}.

End telebot.

Module telegram.

(** [Config]; the logger is not a field, see [World]. *)
Module Config.
Record t : Type := mk {
  Token : string;
}.
End Config.

(** [Adapter] *)
Record Adapter (B : Type) : Type := mkAdapter {
  bot : option B;
  token : string;
  messageHandler : option InboundHandler;
  eventHandler : option nat;
}.
Arguments mkAdapter {B}.
Arguments bot {B}.
Arguments token {B}.
Arguments messageHandler {B}.
Arguments eventHandler {B}.

Record World (D B : Type) : Type := mkWorld {
  adapter : Adapter B;
  sdk : D;
  logged : list LogRecord;
}.
Arguments mkWorld {D B}.
Arguments adapter {D B}.
Arguments sdk {D B}.
Arguments logged {D B}.

(** [New] *)
Definition New {B} (config : Config.t) : Adapter B + error :=
  if String.eqb (Config.Token config) ""
  then inr (errorString "telegram token required")
  else inl (mkAdapter None (Config.Token config) None None).

(** [Name] *)
Definition Name : string := "telegram".

Section WithApi.

Context {D B : Type}.
Variable api : telebot.Api D B.

(** [strconv.ParseInt(s, 10, 64)] *)
Variable ParseInt : string → Z + error.

(** [convertIncoming]; the timestamp and the metadata are not fields of
    [IncomingMessage.t]. *)
Definition convertIncoming (msg : telebot.Message.t) : IncomingMessage.t :=
  let chat := telebot.Message.Chat msg in
  let sender := telebot.Message.Sender msg in
  let chatType :=
    if String.eqb (telebot.Chat.Type_ chat) (telebot.ChatGroup api)
       || String.eqb (telebot.Chat.Type_ chat) (telebot.ChatSuperGroup api)
    then ChannelTypeGroup
    else if String.eqb (telebot.Chat.Type_ chat) (telebot.ChatChannel api)
    then ChannelTypeChannel
    else ChannelTypeDM in
  let senderName := telebot.User.FirstName sender in
  let senderName :=
    if negb (String.eqb (telebot.User.LastName sender) "")
    then senderName +:+ " " +:+ telebot.User.LastName sender
    else senderName in
  let senderName :=
    if String.eqb senderName "" then telebot.User.Username sender
    else senderName in
  IncomingMessage.mk
    (fmt_d (telebot.Message.ID msg))
    "telegram"
    (fmt_d (telebot.Chat.ID chat))
    chatType
    (fmt_d (telebot.User.ID sender))
    senderName
    (telebot.Message.Text msg)
    "".

(** [Disconnect]; [None] when the call does not return, which is when
    [Stop] does not. *)
Definition Disconnect (w : World D B) : option (option error * World D B) :=
  match bot (adapter w) with
  | Some b =>
      match telebot.Stop api b (sdk w) with
      | Some d1 =>
          Some (None,
                mkWorld (adapter w) d1
                        (logged w ++ [(LevelInfo, "telegram bot stopped", [])]))
      | None => None
      end
  | None => Some (None, w)
  end.

(** [Send] *)
Definition Send (chatID : string) (msg : OutgoingMessage.t)
    (w : World D B) : option error * World D B :=
  match bot (adapter w) with
  | None => (Some (errorString "telegram bot not connected"), w)
  | Some b =>
      match ParseInt chatID with
      | inr err => (Some (Errorf_w "parse chat ID: " err), w)
      | inl chatIDInt =>
          let '(r, d1) := telebot.ChatByID api b chatIDInt (sdk w) in
          match r with
          | inr err =>
              (Some (Errorf_w "get chat: " err),
               mkWorld (adapter w) d1 (logged w))
          | inl chat =>
              let opts :=
                telebot.SendOptions.mk
                  (if String.eqb (OutgoingMessage.Format msg)
                                 MessageFormatMarkdown
                   then telebot.ModeMarkdown api
                   else if String.eqb (OutgoingMessage.Format msg)
                                      MessageFormatHTML
                   then telebot.ModeHTML api
                   else "") in
              let '(err, d2) :=
                telebot.Send api b chat (OutgoingMessage.Content msg) opts d1 in
              match err with
              | Some e =>
                  (Some (Errorf_w "send message: " e),
                   mkWorld (adapter w) d2 (logged w))
              | None => (None, mkWorld (adapter w) d2 (logged w))
              end
          end
      end
  end.

(** [OnMessage] *)
Definition OnMessage (handler : InboundHandler) (w : World D B) : World D B :=
  let a := adapter w in
  mkWorld (mkAdapter (bot a) (token a) (Some handler) (eventHandler a))
          (sdk w) (logged w).

(** [OnEvent] *)
Definition OnEvent (handler : nat) (w : World D B) : World D B :=
  let a := adapter w in
  mkWorld (mkAdapter (bot a) (token a) (messageHandler a) (Some handler))
          (sdk w) (logged w).

(** The code of the handlers that the user of the package writes. *)
Variable user_handler :
  nat → IncomingMessage.t → Router.t (World D B) * World D B →
  option error * (Router.t (World D B) * World D B).

(** [a.messageHandler(ctx, msg)] for the handler that the adapter holds. *)
Definition call_inbound (h : InboundHandler) (msg : IncomingMessage.t)
    : M (World D B) (option error) :=
  match h with
  | RouterRoute => route user_handler msg
  | DirectHandler id =>
      λ st, let '(res, (r, w)) :=
              user_handler id msg (st_router st, st_world st) in
            (res, mkSt r w (st_trace st))
  end.

(** The closure that [Connect] registers for text messages: what the
    adapter does with a message that the SDK delivers, and the error that
    it returns to the SDK. *)
Definition on_text (m : telebot.Message.t) : M (World D B) (option error) :=
  do h <- gets (λ st, messageHandler (adapter (st_world st)));
  match h with
  | None => ret None
  | Some h => call_inbound h (convertIncoming m)
  end.

End WithApi.

End telegram.


(** ** Data for the examples of the adapters *)

(** A Discord platform for the examples: its state is the list of what
    happened on it, latest first. Making a session never fails; session 1
    is the one made with the token good, and opening any other session is
    refused. *)
Definition example_discord_api : discordgo.Api (list string) nat :=
  discordgo.mkApi
    (λ tok d, if String.eqb tok "Bot good" then (inl 1, d) else (inl 2, d))
    (λ s d, d)
    (λ s d, d)
    (λ s d, if (s =? 1)%nat then (None, d)
            else (Some (errorString
                          "websocket: close 4004: Authentication failed."),
                  d))
    (λ s d, (None, "session closed" :: d))
    (λ s channelID data d,
       (None,
        (channelID +:+ ": " +:+ discordgo.MessageSend.Content data
         +:+ match discordgo.MessageSend.Reference data with
             | Some r => " (re " +:+ discordgo.MessageReference.MessageID r
                         +:+ ")"
             | None => ""
             end) :: d))
    (λ s d, "envoy-bot").

Definition example_discord_world : discord.World (list string) nat :=
  discord.mkWorld (discord.mkAdapter None "good" "g-1" None None) [] [].

Definition example_discord_message : discordgo.MessageCreate.t :=
  discordgo.MessageCreate.mk "900" "c-1" "g-1" None
    (discordgo.User.mk "u-7" "ada" "0001") "/ask hi" None.

Definition discord_greeter : AgentProcessor.t (discord.World (list string) nat) :=
  AgentProcessor.mk (λ sessionID content w, (("Hello from agent!", None), w)).

Definition example_discord_handlers (id : nat) (msg : IncomingMessage.t)
    (rw : Router.t (discord.World (list string) nat)
          * discord.World (list string) nat)
    : option error * (Router.t (discord.World (list string) nat)
                      * discord.World (list string) nat) :=
  (Some (errorString "handler failed"), rw).

(** A program with the Discord adapter: the adapter connected and
    registered, an agent set, the agent handler on every message. *)
Definition discord_assembled_st : St (discord.World (list string) nat) :=
  (OnMessage All ProcessWithAgent
     (SetAgent (Some discord_greeter)
        (Register (discord.channel example_discord_api)
           (mkSt NewRouter
                 (discord.Connect example_discord_api example_discord_world).2
                 [])).2).2).2.

(** A Telegram platform for the examples, with the constants of telebot;
    it knows the chat 42. Its state is the list of what happened on it,
    latest first; the polling loop of a bot runs until the bot is stopped
    and is not started again. *)
Definition example_telegram_api : telebot.Api (list string) nat :=
  telebot.mkApi "group" "supergroup" "channel" "Markdown" "HTML"
    (λ b d, if existsb (String.eqb "polling stopped") d then None
            else Some ("polling stopped" :: d))
    (λ b n d, if (n =? 42)%Z
              then (inl (telebot.Chat.mk 42 "private" "Ada"), d)
              else (inr (errorString "chat not found"), d))
    (λ b chat content opts d,
       (None, (fmt_d (telebot.Chat.ID chat) +:+ ": " +:+ content) :: d)).

(** The double quote, for the texts that quote a string. *)
Definition double_quote : string := String (Ascii.ascii_of_nat 34) EmptyString.

(** A stand-in for [strconv.ParseInt] in the examples: it reads 42, and
    for every other string fails the way [strconv] does, with an error
    that names the function and quotes the string and that wraps the
    syntax error. *)
Definition example_ParseInt (s : string) : Z + error :=
  if String.eqb s "42" then inl 42%Z
  else inr (wrapError
              ("strconv.ParseInt: parsing " +:+ double_quote +:+ s
               +:+ double_quote +:+ ": invalid syntax")
              (errorString "invalid syntax")).

Definition example_telegram_message : telebot.Message.t :=
  telebot.Message.mk 7 (telebot.Chat.mk 42 "private" "Ada")
    (telebot.User.mk 5 "" "Lovelace" "ada") "hello".

Definition example_telegram_world (bot : option nat)
    : telegram.World (list string) nat :=
  telegram.mkWorld (telegram.mkAdapter bot "good" None None) [] [].

Definition example_telegram_handlers (id : nat) (msg : IncomingMessage.t)
    (rw : Router.t (telegram.World (list string) nat)
          * telegram.World (list string) nat)
    : option error * (Router.t (telegram.World (list string) nat)
                      * telegram.World (list string) nat) :=
  (Some (errorString "handler failed"), rw).


(** ** What the operations come to, on the world

    The operations below are written once more without the monad and
    without the loop over a map, as what they do to the world and to the
    state: the properties relate the code above to them. *)

(** What a handler value does when it is called on a state, and what it
    returns: the code of a handler of the user, run on the router and the
    world, or the closure of the agent handler. *)
Definition handler_outcome {W}
    (user_handler :
       nat → IncomingMessage.t → Router.t W * W →
       option error * (Router.t W * W))
    (h : MessageHandler) (msg : IncomingMessage.t) (st : St W)
    : option error * St W :=
  match h with
  | UserHandler id =>
      let r := user_handler id msg (st_router st, st_world st) in
      (r.1, mkSt r.2.1 r.2.2 (st_trace st))
  | AgentHandler => ProcessWithAgent_func msg st
  end.

(** The state once [route] is through with one handler whose pattern
    matches: the handler has run, its call is in the trace, and the error
    that it returned, if any, is logged. *)
Definition after_handler {W}
    (user_handler :
       nat → IncomingMessage.t → Router.t W * W →
       option error * (Router.t W * W))
    (msg : IncomingMessage.t) (st : St W) (h : RouteHandler.t) : St W :=
  let r := handler_outcome user_handler (RouteHandler.Handler h) msg st in
  let called := with_event r.2 (EvHandler (RouteHandler.Handler h) msg r.1) in
  match r.1 with
  | Some e => with_event called (handler_error_record msg e)
  | None => called
  end.

(** The sends of a broadcast: each adapter's [Send] in turn, on the world
    that the sends before it have left, whatever they returned; the
    outcomes, and the world at the end. *)
Fixpoint send_outcomes {W} (targets : list (string * Channel.t W * string))
    (out : OutgoingMessage.t) (w : W) : list (SendOutcome W) * W :=
  match targets with
  | [] => ([], w)
  | (name, ch, chatID) :: rest =>
      let r := Channel.Send ch chatID out w in
      let rs := send_outcomes rest out r.2 in
      (mkSendOutcome name ch chatID r.1 :: rs.1, rs.2)
  end.

(** The connects of [ConnectAll]: each adapter's [Connect] in turn, on
    the world that the connects before it have left, up to and including
    the first that fails; what each returned, and the world at the end. *)
Fixpoint connect_outcomes {W} (entries : list (string * Channel.t W)) (w : W)
    : list (string * Channel.t W * option error) * W :=
  match entries with
  | [] => ([], w)
  | (name, ch) :: rest =>
      let r := Channel.Connect ch w in
      match r.1 with
      | Some e => ([(name, ch, Some e)], r.2)
      | None =>
          let rs := connect_outcomes rest r.2 in
          ((name, ch, None) :: rs.1, rs.2)
      end
  end.

(** The error of [ConnectAll] for the outcomes of its connects: the one
    failure, under the name of its adapter, if there is one. *)
Definition connect_error {W}
    (results : list (string * Channel.t W * option error)) : option error :=
  match last results with
  | Some (name, _, Some e) => Some (Errorf_w ("connect " +:+ name +:+ ": ") e)
  | _ => None
  end.

(** The disconnects of [DisconnectAll]: each adapter's [Disconnect] in
    turn, on the world that the disconnects before it have left, whatever
    they returned. *)
Fixpoint disconnect_outcomes {W} (entries : list (string * Channel.t W)) (w : W)
    : list (string * Channel.t W * option error) * W :=
  match entries with
  | [] => ([], w)
  | (name, ch) :: rest =>
      let r := Channel.Disconnect ch w in
      let rs := disconnect_outcomes rest r.2 in
      ((name, ch, r.1) :: rs.1, rs.2)
  end.


(** * Properties *)

(** ** Errors *)

(** Wrapping keeps the wrapped error, and puts its message after the
    prefix. *)
Lemma Errorf_w_Unwrap (prefix : string) (e : error) :
  Unwrap (Errorf_w prefix e) = Some e
  ∧ Error (Errorf_w prefix e) = prefix +:+ Error e.
Proof. done. Qed.

(** ** Pattern matching *)

Lemma found_in_elem_of (xs : list string) (y : string) :
  found_in xs y = true ↔ y ∈ xs.
Proof.
  induction xs as [|x xs IH]; simpl.
  - split; [discriminate | intros H; inversion H].
  - destruct (String.eqb_spec x y) as [->|Hne].
    + split; [intros _; left | done].
    + rewrite IH. split; [by right |].
      intros H. inversion H; subst; [congruence | done].
Qed.

Lemma length_pos_nonempty {A} (l : list A) :
  (0 <? length l)%nat = false ↔ l = [].
Proof. destruct l; simpl; split; (done || discriminate). Qed.

Lemma substring_prefix_append (pre rest : string) :
  String.substring 0 (String.length pre) (pre +:+ rest) = pre.
Proof.
  induction pre as [|c pre IH]; simpl.
  - by destruct rest.
  - by rewrite IH.
Qed.

Lemma substring_whole (s : string) :
  String.substring 0 (String.length s) s = s.
Proof. induction s as [|c s IH]; simpl; [done | by rewrite IH]. Qed.

Lemma substring_split (n : nat) (s : string) :
  s = String.substring 0 n s +:+ String.substring n (String.length s - n) s.
Proof.
  revert n. induction s as [|c s IH]; intros [|n]; simpl; try done.
  - by rewrite substring_whole.
  - change (String c s =
            String c (String.substring 0 n s
                      +:+ String.substring n (String.length s - n) s)).
    f_equal. apply IH.
Qed.

Lemma string_length_append (a b : string) :
  String.length (a +:+ b) = String.length a + String.length b.
Proof. induction a as [|c a IH]; simpl; [done | by rewrite IH]. Qed.

(** The prefix test of the code, a comparison of lengths and then of the
    leading bytes, decides [starts_with]. *)
Lemma prefix_test_starts_with (content pre : string) :
  (String.length content <? String.length pre)%nat = false
  ∧ String.eqb (String.substring 0 (String.length pre) content) pre = true
  ↔ starts_with content pre.
Proof.
  split.
  - intros [_ Heq]. apply String.eqb_eq in Heq.
    exists (String.substring (String.length pre)
              (String.length content - String.length pre) content).
    rewrite <- Heq at 1. apply substring_split.
  - intros [rest ->]. split.
    + apply Nat.ltb_ge. rewrite string_length_append. lia.
    + apply String.eqb_eq, substring_prefix_append.
Qed.

(** A filter on a list lets a value through when the list is empty or
    holds the value. *)
Lemma filter_component_iff (xs : list string) (y : string) :
  (0 <? length xs)%nat && negb (found_in xs y) = false ↔ xs = [] ∨ y ∈ xs.
Proof.
  rewrite andb_false_iff, negb_false_iff, length_pos_nonempty, found_in_elem_of.
  done.
Qed.

Lemma prefix_component_iff (content pre : string) :
  (if negb (String.eqb pre "")
   then if (String.length content <? String.length pre)%nat then false
        else if negb (String.eqb
                        (String.substring 0 (String.length pre) content) pre)
             then false else true
   else true) = true
  ↔ pre = "" ∨ starts_with content pre.
Proof.
  destruct (String.eqb_spec pre "") as [->|Hne]; simpl.
  - split; [by left | done].
  - rewrite <- prefix_test_starts_with.
    destruct (_ <? _)%nat; [intuition congruence |].
    destruct (String.eqb _ pre); simpl; intuition congruence.
Qed.

Lemma matchPattern_true_iff (p : RoutePattern.t) (m : IncomingMessage.t) :
  matchPattern p m = true ↔ channel_ok p m ∧ chat_type_ok p m ∧ prefix_ok p m.
Proof.
  unfold matchPattern, channel_ok, chat_type_ok, prefix_ok.
  destruct ((0 <? length (RoutePattern.Channels p))%nat && _) eqn:Hc.
  { split; [done |]. intros (H & _). apply filter_component_iff in H.
    congruence. }
  destruct ((0 <? length (RoutePattern.ChatTypes p))%nat && _) eqn:Ht.
  { split; [done |]. intros (_ & H & _). apply filter_component_iff in H.
    congruence. }
  apply filter_component_iff in Hc, Ht.
  rewrite prefix_component_iff. tauto.
Qed.

(** C1. [matchPattern] is conjunctive: a message matches a pattern exactly
    when the channel filter is empty or holds the message's channel name,
    the chat-type filter is empty or holds the message's chat type, and the
    prefix is empty or the content starts with it byte for byte. The empty
    pattern [All] matches every message, and a message whose content is
    shorter than the prefix of the pattern does not match. *)
Theorem matchPattern_conjunctive (p : RoutePattern.t) (m : IncomingMessage.t) :
  (matchPattern p m = true
   ↔ (RoutePattern.Channels p = []
      ∨ IncomingMessage.ChannelName m ∈ RoutePattern.Channels p)
     ∧ (RoutePattern.ChatTypes p = []
        ∨ IncomingMessage.ChatType m ∈ RoutePattern.ChatTypes p)
     ∧ (RoutePattern.Prefix p = ""
        ∨ starts_with (IncomingMessage.Content m) (RoutePattern.Prefix p)))
  ∧ matchPattern All m = true
  ∧ (String.length (IncomingMessage.Content m)
     < String.length (RoutePattern.Prefix p) →
     matchPattern p m = false).
Proof.
  split_and!.
  - apply matchPattern_true_iff.
  - reflexivity.
  - intros Hlen. apply not_true_is_false. intros Hm.
    apply matchPattern_true_iff in Hm as (_ & _ & [Hp | [rest Hs]]).
    + rewrite Hp in Hlen. simpl in Hlen. lia.
    + rewrite Hs, string_length_append in Hlen. lia.
Qed.

Lemma matchPattern_conjunctive_witness :
  String.length (IncomingMessage.Content (example_msg "/he"))
  < String.length (RoutePattern.Prefix (RoutePattern.mk [] [] "/help"))
  ∧ matchPattern (RoutePattern.mk [] [] "/help") (example_msg "/he") = false.
Proof.
  split; [simpl; lia |].
  apply (matchPattern_conjunctive (RoutePattern.mk [] [] "/help")
           (example_msg "/he")).
  simpl. lia.
Defined.

Example matchPattern_prefix_hit :
  matchPattern (RoutePattern.mk ["telegram"; "discord"] [ChannelTypeDM] "/help")
               (example_msg "/help me") = true.
Proof. reflexivity. Qed.

Example matchPattern_wrong_channel :
  matchPattern (FromChannels ["discord"]) (example_msg "/help me") = false.
Proof. reflexivity. Qed.

Example matchPattern_group_only :
  matchPattern GroupOnly (example_msg "hello") = false.
Proof. reflexivity. Qed.

(** C9. [matchPattern] is total and its slice expression never panics:
    with the bounds check of [msg.Content[:len(pattern.Prefix)]] written
    out, the function returns a boolean on every input, the one that the
    unchecked function computes; the slice is only reached when the
    content is at least as long as the prefix. *)
Theorem matchPattern_checked_total (p : RoutePattern.t) (m : IncomingMessage.t) :
  matchPattern_checked p m = Some (matchPattern p m)
  ∧ matchPattern_checked p m ≠ None.
Proof.
  assert (matchPattern_checked p m = Some (matchPattern p m)) as H.
  { unfold matchPattern_checked, matchPattern, slice_to.
    destruct (_ && _); [done |].
    destruct (_ && _); [done |].
    destruct (negb (String.eqb (RoutePattern.Prefix p) "")); [| done].
    destruct (_ <? _)%nat eqn:Hlt; [done |].
    apply Nat.ltb_ge in Hlt. apply Nat.leb_le in Hlt. rewrite Hlt.
    by destruct (negb _). }
  split; [exact H | by rewrite H].
Qed.

(** The guard is what keeps the slice in range: without it the slice
    panics on a short content. *)
Example slice_to_short : slice_to "/he" (String.length "/help") = None.
Proof. reflexivity. Qed.

(** ** The router *)

Section RouterFacts.

Context {W : Type}.

Variable user_handler :
  nat → IncomingMessage.t → Router.t W * W → option error * (Router.t W * W).

Implicit Types (st : St W) (ch : Channel.t W) (tr : list (Event W)).
Implicit Types (msg : IncomingMessage.t) (out : OutgoingMessage.t).

Lemma send_calls_app tr1 tr2 :
  send_calls (tr1 ++ tr2) = send_calls tr1 ++ send_calls tr2.
Proof. apply omap_app. Qed.

Lemma connect_calls_app tr1 tr2 :
  connect_calls (tr1 ++ tr2) = connect_calls tr1 ++ connect_calls tr2.
Proof. apply omap_app. Qed.

Lemma disconnect_calls_app tr1 tr2 :
  disconnect_calls (tr1 ++ tr2) = disconnect_calls tr1 ++ disconnect_calls tr2.
Proof. apply omap_app. Qed.

Lemma process_calls_app tr1 tr2 :
  process_calls (tr1 ++ tr2) = process_calls tr1 ++ process_calls tr2.
Proof. apply omap_app. Qed.

Lemma handler_calls_app tr1 tr2 :
  handler_calls (tr1 ++ tr2) = handler_calls tr1 ++ handler_calls tr2.
Proof. apply omap_app. Qed.

Lemma handler_errors_logged_app tr1 tr2 :
  handler_errors_logged (tr1 ++ tr2)
  = handler_errors_logged tr1 ++ handler_errors_logged tr2.
Proof. apply omap_app. Qed.

(** [call_send] is the adapter's own [Send], plus one entry of the
    trace. *)
Lemma call_send_eq ch chatID out st :
  call_send ch chatID out st
  = ((Channel.Send ch chatID out (st_world st)).1,
     mkSt (st_router st) (Channel.Send ch chatID out (st_world st)).2
          (st_trace st
           ++ [EvSend ch chatID out
                      (Channel.Send ch chatID out (st_world st)).1])).
Proof.
  unfold call_send, bind, lift_world, emit, ret.
  by destruct (Channel.Send ch chatID out (st_world st)).
Qed.

Lemma Send_absent channelName chatID out st :
  Router.channels (st_router st) !! channelName = None →
  Send channelName chatID out st = (Some (channel_not_found channelName), st).
Proof. intros H. unfold Send, bind, gets, ret. simpl. by rewrite H. Qed.

Lemma Send_present channelName chatID out st ch :
  Router.channels (st_router st) !! channelName = Some ch →
  Send channelName chatID out st = call_send ch chatID out st.
Proof. intros H. unfold Send, bind, gets. simpl. by rewrite H. Qed.

(** C4. [Send] fails with the not-found error, and calls no adapter,
    exactly when the channel name is absent from the registry (the state
    is then left as it was); when the name is registered, [Send] calls
    the [Send] of that adapter once, with the chat id and the message,
    and returns what the adapter returned. *)
Theorem Send_delegates_or_not_found
    (channelName chatID : string) out st :
  let res := (Send channelName chatID out st).1 in
  let st' := (Send channelName chatID out st).2 in
  ((res = Some (channel_not_found channelName)
    ∧ send_calls (st_trace st') = send_calls (st_trace st))
   ↔ Router.channels (st_router st) !! channelName = None)
  ∧ (Router.channels (st_router st) !! channelName = None → st' = st)
  ∧ (∀ ch, Router.channels (st_router st) !! channelName = Some ch →
       res = (Channel.Send ch chatID out (st_world st)).1
       ∧ st' = mkSt (st_router st)
                    (Channel.Send ch chatID out (st_world st)).2
                    (st_trace st ++ [EvSend ch chatID out res])).
Proof.
  intros res st'. subst res st'.
  destruct (Router.channels (st_router st) !! channelName) as [ch|] eqn:Hl.
  - rewrite (Send_present _ _ _ _ _ Hl), call_send_eq. simpl.
    split_and!.
    + split; [| done]. intros [_ Hs].
      rewrite send_calls_app in Hs. simpl in Hs.
      apply (f_equal length) in Hs. rewrite length_app in Hs.
      simpl in Hs. lia.
    + done.
    + intros ch' [= <-]. done.
  - rewrite (Send_absent _ _ _ _ Hl). simpl. split_and!; done.
Qed.

(** *** Broadcast *)

(** The loop that copies the registry rebuilds the same map, whatever
    the order of the visit. *)
Lemma foldl_insert_foldr {V} (l : list (string * V)) (acc : gmap string V) :
  foldl (λ acc kv, <[kv.1 := kv.2]> acc) acc l
  = foldr (λ kv acc, <[kv.1 := kv.2]> acc) acc (reverse l).
Proof.
  revert acc. induction l as [|kv l IH]; intros acc; simpl; [done |].
  by rewrite reverse_cons, foldr_app, IH.
Qed.

Lemma copy_registry {V} (range : gmap string V → list (string * V))
    (m : gmap string V) :
  range_ok range m →
  foldl (λ acc kv, <[kv.1 := kv.2]> acc) ∅ (range m) = m.
Proof.
  intros Hr. rewrite foldl_insert_foldr.
  change (list_to_map (reverse (range m)) = m).
  rewrite <- (list_to_map_to_list m) at 2.
  apply list_to_map_proper.
  - rewrite reverse_Permutation, Hr. apply NoDup_fst_map_to_list.
  - by rewrite reverse_Permutation.
Qed.

Lemma Broadcast_loop_outcomes (registry : gmap string (Channel.t W))
    (targets : list (string * string)) out (errs : list error) st :
  ∃ outcomes w',
    Broadcast_loop registry targets out errs st
    = (errs ++ named_failures ((λ o, (so_name o, so_result o)) <$> outcomes),
       mkSt (st_router st) w' (st_trace st ++ (so_event out <$> outcomes)))
    ∧ so_target <$> outcomes = broadcast_targets registry targets.
Proof.
  revert errs st.
  induction targets as [|[name chatID] rest IH]; intros errs st; simpl.
  - exists [], (st_world st). simpl. rewrite !app_nil_r.
    by destruct st.
  - unfold broadcast_targets. simpl.
    destruct (registry !! name) as [ch|] eqn:Hl; simpl.
    + unfold bind at 1. rewrite call_send_eq.
      set (r := (Channel.Send ch chatID out (st_world st)).1).
      set (w1 := (Channel.Send ch chatID out (st_world st)).2).
      destruct r as [e|] eqn:Hr.
      * destruct (IH (errs ++ [Errorf_w (name +:+ ": ") e])
                     (mkSt (st_router st) w1
                        (st_trace st ++ [EvSend ch chatID out (Some e)])))
          as (os & w' & Heq & Ht).
        exists (mkSendOutcome name ch chatID (Some e) :: os), w'.
        rewrite Heq. simpl. rewrite <- !app_assoc. simpl.
        split; [done |]. f_equal. exact Ht.
      * destruct (IH errs
                     (mkSt (st_router st) w1
                        (st_trace st ++ [EvSend ch chatID out None])))
          as (os & w' & Heq & Ht).
        exists (mkSendOutcome name ch chatID None :: os), w'.
        rewrite Heq. simpl. rewrite <- !app_assoc. simpl.
        split; [done |]. f_equal. exact Ht.
    + destruct (IH errs st) as (os & w' & Heq & Ht).
      exists os, w'. by rewrite Heq.
Qed.

Lemma named_failures_nil (results : list (string * option error)) :
  named_failures results = [] ↔ Forall (λ nr, nr.2 = None) results.
Proof.
  induction results as [|[name [e|]] rs IH]; simpl.
  - split; [constructor | done].
  - split; [discriminate |]. intros H. by inversion H.
  - unfold named_failures in *. simpl. rewrite IH. split.
    + by constructor.
    + intros H. by inversion H.
Qed.

Lemma aggregate_if (what : string) (errs : list error) st :
  (if (0 <? length errs)%nat
   then ret (Some (errorString (what +:+ fmt_errs errs)))
   else ret None) st
  = (aggregate what errs, st).
Proof. by destruct errs. Qed.

Lemma aggregate_None (what : string) (errs : list error) :
  aggregate what errs = None ↔ errs = [].
Proof. destruct errs; simpl; split; (done || discriminate). Qed.

Lemma send_outcomes_targets (targets : list (string * Channel.t W * string))
    out (w : W) :
  so_target <$> (send_outcomes targets out w).1 = targets.
Proof.
  revert w. induction targets as [|[[name ch] chatID] rest IH]; intros w;
    simpl; [done |].
  f_equal. apply IH.
Qed.

(** The loop of [Broadcast] makes the sends of [send_outcomes], on the
    targets that name a registered channel. *)
Lemma Broadcast_loop_sends (registry : gmap string (Channel.t W))
    (targets : list (string * string)) out (errs : list error) st :
  let sent := send_outcomes (broadcast_targets registry targets) out
                            (st_world st) in
  Broadcast_loop registry targets out errs st
  = (errs ++ named_failures ((λ o, (so_name o, so_result o)) <$> sent.1),
     mkSt (st_router st) sent.2 (st_trace st ++ (so_event out <$> sent.1))).
Proof.
  cbv zeta. revert errs st.
  induction targets as [|[name chatID] rest IH]; intros errs st.
  - simpl. rewrite !app_nil_r. by destruct st.
  - unfold broadcast_targets. simpl.
    destruct (registry !! name) as [ch|] eqn:Hl; simpl.
    + unfold bind at 1. rewrite call_send_eq.
      destruct (Channel.Send ch chatID out (st_world st)).1 as [e|] eqn:Hr.
      * rewrite IH. simpl. unfold named_failures. simpl.
        by rewrite <- !app_assoc.
      * rewrite IH. simpl. unfold named_failures. simpl.
        by rewrite <- !app_assoc.
    + apply IH.
Qed.

(** C5. [Broadcast] calls the adapter's [Send] once for every entry of
    the targets whose channel name is registered, whatever the other
    sends return, and for no other entry: an entry that names an
    unregistered channel is skipped and gives no error. Each send runs on
    the world that the sends before it have left, and the world at the end
    is the one that the last of them leaves. The result is nil exactly
    when every attempted send returned nil (so also when nothing was
    attempted); otherwise it is one error whose message lists every
    failure, each under the name of its target. *)
Theorem Broadcast_attempts_every_registered_target
    (range_channels : gmap string (Channel.t W) → list (string * Channel.t W))
    (range_targets : gmap string string → list (string * string))
    (chatIDs : gmap string string) out st :
  range_ok range_channels (Router.channels (st_router st)) →
  range_ok range_targets chatIDs →
  ∃ attempted : list (string * Channel.t W * string),
    attempted ≡ₚ broadcast_targets (Router.channels (st_router st))
                                   (map_to_list chatIDs)
    ∧ let sent := send_outcomes attempted out (st_world st) in
      let outcomes := sent.1 in
      let res := (Broadcast range_channels range_targets chatIDs out st).1 in
      let st' := (Broadcast range_channels range_targets chatIDs out st).2 in
      Broadcast range_channels range_targets chatIDs out st
      = (aggregate "broadcast errors: "
           (named_failures ((λ o, (so_name o, so_result o)) <$> outcomes)),
         mkSt (st_router st) sent.2
              (st_trace st ++ (so_event out <$> outcomes)))
      ∧ so_target <$> outcomes = attempted
      ∧ st_world st' = sent.2
      ∧ st_router st' = st_router st
      ∧ st_trace st' = st_trace st ++ (so_event out <$> outcomes)
      ∧ (res = None ↔ Forall (λ o, so_result o = None) outcomes).
Proof.
  intros Hrc Hrt.
  exists (broadcast_targets (Router.channels (st_router st))
                            (range_targets chatIDs)).
  split.
  { unfold broadcast_targets. by rewrite Hrt. }
  assert (Broadcast range_channels range_targets chatIDs out st
          = (aggregate "broadcast errors: "
               (named_failures
                  ((λ o, (so_name o, so_result o))
                   <$> (send_outcomes
                          (broadcast_targets (Router.channels (st_router st))
                                             (range_targets chatIDs))
                          out (st_world st)).1)),
             mkSt (st_router st)
                  (send_outcomes
                     (broadcast_targets (Router.channels (st_router st))
                                        (range_targets chatIDs))
                     out (st_world st)).2
                  (st_trace st
                   ++ (so_event out
                       <$> (send_outcomes
                              (broadcast_targets
                                 (Router.channels (st_router st))
                                 (range_targets chatIDs))
                              out (st_world st)).1)))) as Heq.
  { unfold Broadcast, bind, gets. cbv zeta.
    rewrite (copy_registry _ _ Hrc), Broadcast_loop_sends.
    by rewrite aggregate_if. }
  cbv zeta. rewrite Heq. simpl.
  split_and!; try done.
  - apply send_outcomes_targets.
  - rewrite aggregate_None, named_failures_nil, Forall_fmap. done.
Qed.

(** *** ConnectAll and DisconnectAll *)

Lemma call_connect_eq ch st :
  call_connect ch st
  = ((Channel.Connect ch (st_world st)).1,
     mkSt (st_router st) (Channel.Connect ch (st_world st)).2
          (st_trace st ++ [EvConnect ch (Channel.Connect ch (st_world st)).1])).
Proof.
  unfold call_connect, bind, lift_world, emit, ret.
  by destruct (Channel.Connect ch (st_world st)).
Qed.

Lemma call_disconnect_eq ch st :
  call_disconnect ch st
  = ((Channel.Disconnect ch (st_world st)).1,
     mkSt (st_router st) (Channel.Disconnect ch (st_world st)).2
          (st_trace st
           ++ [EvDisconnect ch (Channel.Disconnect ch (st_world st)).1])).
Proof.
  unfold call_disconnect, bind, lift_world, emit, ret.
  by destruct (Channel.Disconnect ch (st_world st)).
Qed.

Lemma ConnectAll_loop_cons name ch (rest : list (string * Channel.t W)) st :
  ConnectAll_loop ((name, ch) :: rest) st
  = match (Channel.Connect ch (st_world st)).1 with
    | Some e =>
        (Some (Errorf_w ("connect " +:+ name +:+ ": ") e),
         mkSt (st_router st) (Channel.Connect ch (st_world st)).2
              (st_trace st ++ [EvConnect ch (Some e)]))
    | None =>
        ConnectAll_loop rest
          (mkSt (st_router st) (Channel.Connect ch (st_world st)).2
                (st_trace st
                 ++ connect_events (name, ch, None)))
    end.
Proof.
  simpl. unfold bind at 1. rewrite call_connect_eq.
  destruct (Channel.Connect ch (st_world st)).1; [done |].
  unfold bind, log, emit, connect_events. simpl.
  by rewrite <- app_assoc.
Qed.

(** The loop of [ConnectAll] either connects every entry, or stops at the
    first entry whose [Connect] fails. *)
Lemma ConnectAll_loop_outcome (entries : list (string * Channel.t W)) st :
  ∃ w',
    (ConnectAll_loop entries st
     = (None,
        mkSt (st_router st) w'
             (st_trace st ++ ((λ en, (en, None)) <$> entries) ≫= connect_events)))
    ∨ (∃ pre name ch e post,
         entries = pre ++ (name, ch) :: post
         ∧ ConnectAll_loop entries st
           = (Some (Errorf_w ("connect " +:+ name +:+ ": ") e),
              mkSt (st_router st) w'
                   (st_trace st
                    ++ (((λ en, (en, None)) <$> pre) ≫= connect_events)
                    ++ [EvConnect ch (Some e)]))).
Proof.
  revert st. induction entries as [|[name ch] rest IH]; intros st.
  - exists (st_world st). left. simpl. unfold ret. rewrite app_nil_r.
    by destruct st.
  - rewrite ConnectAll_loop_cons.
    set (w1 := (Channel.Connect ch (st_world st)).2).
    destruct (Channel.Connect ch (st_world st)).1 as [e|] eqn:Hr.
    + exists w1. right. by exists [], name, ch, e, rest.
    + destruct (IH (mkSt (st_router st) w1
                      (st_trace st ++ connect_events (name, ch, None))))
        as (w' & [Heq | (pre & n & c & e & post & Hen & Heq)]).
      * exists w'. left. rewrite Heq. simpl.
        by rewrite <- !app_assoc.
      * exists w'. right. exists ((name, ch) :: pre), n, c, e, post.
        rewrite Heq, Hen. simpl. by rewrite <- !app_assoc.
Qed.

Lemma DisconnectAll_loop_outcome (entries : list (string * Channel.t W))
    (errs : list error) st :
  ∃ (results : list (string * Channel.t W * option error)) w',
    DisconnectAll_loop entries errs st
    = (errs ++ named_failures ((λ r, (r.1.1, r.2)) <$> results),
       mkSt (st_router st) w'
            (st_trace st ++ results ≫= disconnect_events))
    ∧ fst <$> results = entries.
Proof.
  revert errs st.
  induction entries as [|[name ch] rest IH]; intros errs st; simpl.
  - exists [], (st_world st). simpl. rewrite !app_nil_r. by destruct st.
  - unfold bind at 1. rewrite call_disconnect_eq.
    set (w1 := (Channel.Disconnect ch (st_world st)).2).
    destruct (Channel.Disconnect ch (st_world st)).1 as [e|] eqn:Hr.
    + destruct (IH (errs ++ [Errorf_w (name +:+ ": ") e])
                   (mkSt (st_router st) w1
                      (st_trace st ++ [EvDisconnect ch (Some e)])))
        as (rs & w' & Heq & Hen).
      exists ((name, ch, Some e) :: rs), w'. rewrite Heq. simpl.
      rewrite <- !app_assoc. simpl. split; [done |]. f_equal. exact Hen.
    + unfold bind, log, emit. simpl.
      destruct (IH errs
                   (mkSt (st_router st) w1
                      ((st_trace st ++ [EvDisconnect ch None])
                       ++ [EvLog LevelInfo "channel disconnected"
                                 [("name", AttrString name)]])))
        as (rs & w' & Heq & Hen).
      exists ((name, ch, None) :: rs), w'. rewrite Heq. simpl.
      rewrite <- !app_assoc. simpl. split; [done |]. f_equal. exact Hen.
Qed.

Lemma disconnect_calls_connect_events
    (rs : list (string * Channel.t W * option error)) :
  disconnect_calls (rs ≫= connect_events) = [].
Proof.
  induction rs as [|[[name ch] [e|]] rs IH]; [done | |];
    change ((?r :: rs) ≫= connect_events)
      with (connect_events r ++ rs ≫= connect_events);
    by rewrite disconnect_calls_app, IH.
Qed.

Lemma connect_error_cons_None (name : string) ch
    (rs : list (string * Channel.t W * option error)) :
  connect_error ((name, ch, None) :: rs) = connect_error rs.
Proof. by destruct rs. Qed.

(** The loop of [ConnectAll] makes the connects of [connect_outcomes]. *)
Lemma ConnectAll_loop_connects (entries : list (string * Channel.t W)) st :
  let connected := connect_outcomes entries (st_world st) in
  ConnectAll_loop entries st
  = (connect_error connected.1,
     mkSt (st_router st) connected.2
          (st_trace st ++ connected.1 ≫= connect_events)).
Proof.
  cbv zeta. revert st. induction entries as [|[name ch] rest IH]; intros st.
  - simpl. unfold ret. rewrite app_nil_r. by destruct st.
  - rewrite ConnectAll_loop_cons. simpl.
    destruct (Channel.Connect ch (st_world st)).1 as [e|] eqn:Hr; [done |].
    rewrite IH. simpl. rewrite connect_error_cons_None.
    by rewrite <- app_assoc.
Qed.

(** The connects stop at the first failure: either every entry connects,
    or the outcomes are those of the entries before the first failure,
    all nil, and the failure. *)
Lemma connect_outcomes_shape (entries : list (string * Channel.t W)) (w : W) :
  let rs := (connect_outcomes entries w).1 in
  (rs = (λ en, (en, None)) <$> entries ∧ connect_error rs = None)
  ∨ (∃ pre name ch e post,
       entries = pre ++ (name, ch) :: post
       ∧ rs = ((λ en, (en, None)) <$> pre) ++ [(name, ch, Some e)]
       ∧ connect_error rs = Some (Errorf_w ("connect " +:+ name +:+ ": ") e)).
Proof.
  cbv zeta. revert w. induction entries as [|[name ch] rest IH]; intros w.
  - by left.
  - simpl. destruct (Channel.Connect ch w).1 as [e|] eqn:Hr.
    + right. by exists [], name, ch, e, rest.
    + simpl. rewrite connect_error_cons_None.
      destruct (IH (Channel.Connect ch w).2)
        as [[Hrs He] | (pre & n & c & e & post & Hen & Hrs & He)].
      * left. split; [| exact He]. simpl. f_equal. exact Hrs.
      * right. exists ((name, ch) :: pre), n, c, e, post.
        split; [by rewrite Hen |]. split; [| exact He].
        simpl. f_equal. exact Hrs.
Qed.

(** The loop of [DisconnectAll] makes the disconnects of
    [disconnect_outcomes]. *)
Lemma DisconnectAll_loop_disconnects (entries : list (string * Channel.t W))
    (errs : list error) st :
  let disconnected := disconnect_outcomes entries (st_world st) in
  DisconnectAll_loop entries errs st
  = (errs ++ named_failures ((λ r, (r.1.1, r.2)) <$> disconnected.1),
     mkSt (st_router st) disconnected.2
          (st_trace st ++ disconnected.1 ≫= disconnect_events))
  ∧ fst <$> disconnected.1 = entries.
Proof.
  cbv zeta. revert errs st.
  induction entries as [|[name ch] rest IH]; intros errs st.
  - simpl. rewrite !app_nil_r. by destruct st.
  - simpl. unfold bind at 1. rewrite call_disconnect_eq.
    destruct (Channel.Disconnect ch (st_world st)).1 as [e|] eqn:Hr.
    + destruct (IH (errs ++ [Errorf_w (name +:+ ": ") e])
                   (mkSt (st_router st)
                      (Channel.Disconnect ch (st_world st)).2
                      (st_trace st ++ [EvDisconnect ch (Some e)])))
        as [Heq Hen].
      rewrite Heq. simpl. unfold named_failures. simpl.
      rewrite <- !app_assoc. split; [done |]. f_equal. exact Hen.
    + unfold bind, log, emit. simpl.
      destruct (IH errs
                   (mkSt (st_router st)
                      (Channel.Disconnect ch (st_world st)).2
                      ((st_trace st ++ [EvDisconnect ch None])
                       ++ [EvLog LevelInfo "channel disconnected"
                                 [("name", AttrString name)]])))
        as [Heq Hen].
      rewrite Heq. simpl. unfold named_failures. simpl.
      rewrite <- !app_assoc. split; [done |]. f_equal. exact Hen.
Qed.

(** C6. [ConnectAll] calls [Connect] on the registered adapters one after
    the other, each on the world that the connects before it have left,
    and stops at the first failure: it then returns that one failure,
    under the name of the adapter, has called no adapter after it, and has
    disconnected none of those connected before it; the world is the one
    that the failed [Connect] leaves. It returns nil when every [Connect]
    returned nil. [DisconnectAll] calls [Disconnect] on every registered
    adapter, whatever the earlier calls returned, each on the world that
    the calls before it have left; it returns nil when all of them
    returned nil, and otherwise one error whose message lists every
    failure. *)
Theorem ConnectAll_fails_fast_DisconnectAll_tries_all
    (range : gmap string (Channel.t W) → list (string * Channel.t W)) st :
  range_ok range (Router.channels (st_router st)) →
  ∃ entries : list (string * Channel.t W),
    entries ≡ₚ map_to_list (Router.channels (st_router st))
    ∧ (let connected := connect_outcomes entries (st_world st) in
       ConnectAll range st
       = (connect_error connected.1,
          mkSt (st_router st) connected.2
               (st_trace st ++ connected.1 ≫= connect_events))
       ∧ disconnect_calls (st_trace (ConnectAll range st).2)
         = disconnect_calls (st_trace st)
       ∧ (((ConnectAll range st).1 = None
           ∧ connected.1 = (λ en, (en, None)) <$> entries)
          ∨ (∃ pre name ch e post,
               entries = pre ++ (name, ch) :: post
               ∧ connected.1
                 = ((λ en, (en, None)) <$> pre) ++ [(name, ch, Some e)]
               ∧ (ConnectAll range st).1
                 = Some (Errorf_w ("connect " +:+ name +:+ ": ") e))))
    ∧ (let disconnected := disconnect_outcomes entries (st_world st) in
       DisconnectAll range st
       = (aggregate "disconnect errors: "
            (named_failures ((λ r, (r.1.1, r.2)) <$> disconnected.1)),
          mkSt (st_router st) disconnected.2
               (st_trace st ++ disconnected.1 ≫= disconnect_events))
       ∧ fst <$> disconnected.1 = entries
       ∧ ((DisconnectAll range st).1 = None
          ↔ Forall (λ r, r.2 = None) disconnected.1)).
Proof.
  intros Hr. exists (range (Router.channels (st_router st))).
  split; [exact Hr |]. split.
  - cbv zeta.
    assert (ConnectAll range st
            = ConnectAll_loop (range (Router.channels (st_router st))) st)
      as Hc by done.
    rewrite Hc, ConnectAll_loop_connects. cbv zeta. simpl.
    split_and!; [done | |].
    + by rewrite disconnect_calls_app, disconnect_calls_connect_events,
        app_nil_r.
    + destruct (connect_outcomes_shape
                  (range (Router.channels (st_router st))) (st_world st))
        as [[Hrs He] | (pre & name & ch & e & post & Hen & Hrs & He)].
      * left. by split.
      * right. by exists pre, name, ch, e, post.
  - cbv zeta.
    destruct (DisconnectAll_loop_disconnects
                (range (Router.channels (st_router st))) [] st)
      as [Heq Hen].
    assert (DisconnectAll range st
            = (aggregate "disconnect errors: "
                 (named_failures
                    ((λ r, (r.1.1, r.2))
                     <$> (disconnect_outcomes
                            (range (Router.channels (st_router st)))
                            (st_world st)).1)),
               mkSt (st_router st)
                    (disconnect_outcomes
                       (range (Router.channels (st_router st)))
                       (st_world st)).2
                    (st_trace st
                     ++ (disconnect_outcomes
                           (range (Router.channels (st_router st)))
                           (st_world st)).1 ≫= disconnect_events))) as Hd.
    { unfold DisconnectAll, bind, gets. cbv zeta.
      by rewrite Heq, aggregate_if. }
    rewrite Hd. simpl. split_and!; [done | exact Hen |].
    rewrite aggregate_None, named_failures_nil, Forall_fmap. done.
Qed.

(** *** The registry *)

Lemma Register_eq ch st :
  Register ch st
  = (tt,
     mkSt (Router.mk (<[Channel.Name ch := ch]> (Router.channels (st_router st)))
                     (Router.handlers (st_router st))
                     (Router.agent (st_router st)))
          (Channel.OnMessage ch (st_world st))
          (st_trace st
           ++ [EvOnMessage ch;
               EvLog LevelInfo "channel registered"
                     [("name", AttrString (Channel.Name ch))]])).
Proof.
  unfold Register, bind, modify_router, call_on_message, lift_world, log, emit.
  simpl. by rewrite <- app_assoc.
Qed.

Lemma GetChannel_eq (name : string) st :
  GetChannel name st
  = (match Router.channels (st_router st) !! name with
     | Some ch => (Some ch, true)
     | None => (None, false)
     end, st).
Proof.
  unfold GetChannel, bind, gets, ret. simpl.
  by destruct (Router.channels (st_router st) !! name).
Qed.

Lemma foldl_append_keys {V} (l : list (string * V)) (acc : list string) :
  foldl (λ names kv, names ++ [kv.1]) acc l = acc ++ l.*1.
Proof.
  revert acc. induction l as [|kv l IH]; intros acc; simpl.
  - by rewrite app_nil_r.
  - by rewrite IH, <- app_assoc.
Qed.

(** [Unregister] removes the entry of the name, and only it; it does
    nothing to the world: the adapter is not disconnected. *)
Lemma Unregister_lookup (name other : string) st :
  let st' := (Unregister name st).2 in
  Router.channels (st_router st') !! name = None
  ∧ (other ≠ name →
       Router.channels (st_router st') !! other
       = Router.channels (st_router st) !! other)
  ∧ st_world st' = st_world st.
Proof.
  unfold Unregister, bind, modify_router, log, emit. simpl.
  split_and!; [apply lookup_delete_eq | | done].
  intros Hne. by apply lookup_delete_ne.
Qed.

(** [ListChannels] returns the keys of the registry, in the order of the
    visit. *)
Lemma ListChannels_eq
    (range : gmap string (Channel.t W) → list (string * Channel.t W)) st :
  ListChannels range st = ((range (Router.channels (st_router st))).*1, st).
Proof.
  unfold ListChannels, bind, gets, ret. simpl.
  by rewrite foldl_append_keys.
Qed.


(** *** The agent handler *)

Lemma ProcessWithAgent_func_eq msg st :
  ProcessWithAgent_func msg st
  = match Router.agent (st_router st) with
    | None => (None, with_event st (no_agent_record msg))
    | Some a =>
        let pr := AgentProcessor.Process a (session_of msg)
                    (IncomingMessage.Content msg) (st_world st) in
        match pr.1.2 with
        | Some e =>
            (Some e, with_event (after_process a msg st)
                                (agent_error_record msg e))
        | None =>
            Send (IncomingMessage.ChannelName msg) (IncomingMessage.ChatID msg)
                 (reply_with msg pr.1.1) (after_process a msg st)
        end
    end.
Proof.
  unfold ProcessWithAgent_func, bind at 1, gets.
  destruct (Router.agent (st_router st)) as [a|]; [| done].
  unfold after_process, session_of, call_process, bind, log, emit, lift_world,
    ret, with_event.
  simpl.
  destruct (AgentProcessor.Process a _ _ (st_world st)) as [[text [e|]] w1];
    simpl; by rewrite <- !app_assoc.
Qed.

Lemma call_handler_agent msg st :
  call_handler user_handler ProcessWithAgent msg st
  = ((ProcessWithAgent_func msg st).1,
     with_event (ProcessWithAgent_func msg st).2
                (EvHandler AgentHandler msg (ProcessWithAgent_func msg st).1)).
Proof.
  unfold call_handler, ProcessWithAgent, bind, emit, ret, with_event.
  by destruct (ProcessWithAgent_func msg st).
Qed.

(** C3. The handler that [ProcessWithAgent] returns runs the closure
    [ProcessWithAgent_func]. With no agent configured it returns nil,
    calls neither processor nor adapter, and leaves router and world as
    they were. With an agent it calls [Process] once, with the session
    [ChannelName:ChatID] and the content of the message; when that call
    fails the handler returns the failure and sends nothing; when it
    succeeds with a text, the handler is [Send] of that text, in reply to
    the id of the message, to the channel and chat of the message. *)
Theorem ProcessWithAgent_handler_behaviour msg st :
  let res := (ProcessWithAgent_func msg st).1 in
  let st' := (ProcessWithAgent_func msg st).2 in
  call_handler user_handler ProcessWithAgent msg st
  = (res, with_event st' (EvHandler ProcessWithAgent msg res))
  ∧ (Router.agent (st_router st) = None →
       res = None
       ∧ st' = with_event st (no_agent_record msg)
       ∧ send_calls (st_trace st') = send_calls (st_trace st)
       ∧ process_calls (st_trace st') = process_calls (st_trace st))
  ∧ (∀ a, Router.agent (st_router st) = Some a →
       let pr := AgentProcessor.Process a
                   (IncomingMessage.ChannelName msg +:+ ":"
                    +:+ IncomingMessage.ChatID msg)
                   (IncomingMessage.Content msg) (st_world st) in
       let st1 := after_process a msg st in
       process_calls (st_trace st1)
       = process_calls (st_trace st)
         ++ [(a, IncomingMessage.ChannelName msg +:+ ":"
                 +:+ IncomingMessage.ChatID msg,
              IncomingMessage.Content msg, pr.1)]
       ∧ send_calls (st_trace st1) = send_calls (st_trace st)
       ∧ (∀ e, pr.1.2 = Some e →
            res = Some e
            ∧ st' = with_event st1 (agent_error_record msg e)
            ∧ send_calls (st_trace st') = send_calls (st_trace st)
            ∧ process_calls (st_trace st') = process_calls (st_trace st1))
       ∧ (pr.1.2 = None →
            (res, st')
            = Send (IncomingMessage.ChannelName msg)
                   (IncomingMessage.ChatID msg)
                   (OutgoingMessage.mk pr.1.1 (IncomingMessage.ID msg) "")
                   st1
            ∧ process_calls (st_trace st') = process_calls (st_trace st1))).
Proof.
  intros res st'. split_and!.
  - apply call_handler_agent.
  - intros Ha. subst res st'. rewrite ProcessWithAgent_func_eq, Ha. simpl.
    rewrite send_calls_app, process_calls_app. simpl.
    by rewrite !app_nil_r.
  - intros a Ha pr st1. subst res st'.
    rewrite ProcessWithAgent_func_eq, Ha. cbv zeta.
    change (AgentProcessor.Process a (session_of msg)
              (IncomingMessage.Content msg) (st_world st)) with pr.
    change (after_process a msg st) with st1.
    assert (process_calls (st_trace st1)
            = process_calls (st_trace st)
              ++ [(a, session_of msg, IncomingMessage.Content msg, pr.1)])
      as Hp.
    { subst st1. unfold after_process. simpl.
      by rewrite process_calls_app. }
    assert (send_calls (st_trace st1) = send_calls (st_trace st)) as Hs.
    { subst st1. unfold after_process. simpl.
      rewrite send_calls_app. simpl. by rewrite app_nil_r. }
    split_and!; [exact Hp | exact Hs | |].
    + intros e He. rewrite He. simpl.
      rewrite send_calls_app, process_calls_app. simpl.
      rewrite !app_nil_r. done.
    + intros He. rewrite He.
      change (OutgoingMessage.mk pr.1.1 (IncomingMessage.ID msg) "")
        with (reply_with msg pr.1.1).
      split; [by destruct (Send _ _ _ st1) |].
      destruct (Router.channels (st_router st1)
                !! IncomingMessage.ChannelName msg) as [ch|] eqn:Hl.
      * rewrite (Send_present _ _ _ _ _ Hl), call_send_eq. simpl.
        rewrite process_calls_app. simpl. by rewrite app_nil_r.
      * by rewrite (Send_absent _ _ _ _ Hl).
Qed.

(** *** Dispatch *)

(** The agent handler calls no handler and writes no "handler error"
    record. *)
Lemma ProcessWithAgent_func_trace msg st :
  ∃ evs, st_trace (ProcessWithAgent_func msg st).2 = st_trace st ++ evs
         ∧ handler_calls evs = []
         ∧ handler_errors_logged evs = [].
Proof.
  rewrite ProcessWithAgent_func_eq.
  destruct (Router.agent (st_router st)) as [a|].
  - cbv zeta.
    destruct (AgentProcessor.Process a _ _ (st_world st)).1.2 as [e|].
    + eexists. simpl. rewrite <- app_assoc. split; [reflexivity |]. done.
    + destruct (Router.channels (st_router (after_process a msg st))
                !! IncomingMessage.ChannelName msg) as [ch|] eqn:Hl.
      * rewrite (Send_present _ _ _ _ _ Hl), call_send_eq.
        eexists. simpl. rewrite <- app_assoc. split; [reflexivity |]. done.
      * rewrite (Send_absent _ _ _ _ Hl).
        eexists. simpl. split; [reflexivity |]. done.
  - eexists. simpl. split; [reflexivity |]. done.
Qed.

(** A call of a handler adds its own entry after whatever the handler
    itself left in the trace. *)
Lemma call_handler_trace (h : MessageHandler) msg st :
  ∃ evs,
    st_trace (call_handler user_handler h msg st).2
    = st_trace st ++ evs
      ++ [EvHandler h msg (call_handler user_handler h msg st).1]
    ∧ handler_calls evs = []
    ∧ handler_errors_logged evs = [].
Proof.
  destruct h as [id|].
  - exists []. unfold call_handler, bind, emit, ret.
    destruct (user_handler id msg (st_router st, st_world st))
      as [res [r w]].
    done.
  - destruct (ProcessWithAgent_func_trace msg st) as (evs & Ht & Hc & Hl).
    exists evs. change AgentHandler with ProcessWithAgent.
    rewrite call_handler_agent. simpl. rewrite Ht, <- app_assoc. done.
Qed.

Lemma route_loop_cons (h : RouteHandler.t) (rest : list RouteHandler.t)
    msg st :
  route_loop user_handler (h :: rest) msg st
  = if matchPattern (RouteHandler.Pattern h) msg
    then
      let r := call_handler user_handler (RouteHandler.Handler h) msg st in
      route_loop user_handler rest msg
        match r.1 with
        | Some e => with_event r.2 (handler_error_record msg e)
        | None => r.2
        end
    else route_loop user_handler rest msg st.
Proof.
  simpl. unfold bind at 1.
  destruct (matchPattern (RouteHandler.Pattern h) msg); [| done].
  unfold bind at 1.
  destruct (call_handler user_handler (RouteHandler.Handler h) msg st)
    as [[e|] st1]; done.
Qed.

(** The loop of [route] calls the handlers of the list whose pattern
    matches, in the order of the list, whatever they return, and writes
    one "handler error" record for each error returned. *)
Lemma route_loop_calls (hs : list RouteHandler.t) msg st :
  ∃ evs,
    st_trace (route_loop user_handler hs msg st).2 = st_trace st ++ evs
    ∧ fst <$> handler_calls evs
      = (λ h, (RouteHandler.Handler h, msg))
        <$> filter (λ h, matchPattern (RouteHandler.Pattern h) msg = true) hs
    ∧ handler_errors_logged evs = omap snd (handler_calls evs).
Proof.
  revert st. induction hs as [|h rest IH]; intros st.
  - exists []. simpl. by rewrite app_nil_r.
  - rewrite route_loop_cons.
    destruct (matchPattern (RouteHandler.Pattern h) msg) eqn:Hm.
    + rewrite filter_cons_True by done. cbv zeta.
      destruct (call_handler_trace (RouteHandler.Handler h) msg st)
        as (evs0 & Ht0 & Hc0 & Hl0).
      destruct (call_handler user_handler (RouteHandler.Handler h) msg st)
        as [[e|] st1]; simpl in Ht0 |- *.
      * destruct (IH (with_event st1 (handler_error_record msg e)))
          as (evs & Ht & Hc & Hl).
        exists (evs0 ++ [EvHandler (RouteHandler.Handler h) msg (Some e)]
                ++ [handler_error_record msg e] ++ evs).
        rewrite Ht. simpl. rewrite Ht0.
        rewrite !handler_calls_app, !handler_errors_logged_app, Hc0, Hl0.
        split_and!.
        -- by rewrite <- !app_assoc.
        -- simpl. f_equal. exact Hc.
        -- simpl. f_equal. exact Hl.
      * destruct (IH st1) as (evs & Ht & Hc & Hl).
        exists (evs0 ++ [EvHandler (RouteHandler.Handler h) msg None] ++ evs).
        rewrite Ht, Ht0.
        rewrite !handler_calls_app, !handler_errors_logged_app, Hc0, Hl0.
        split_and!.
        -- by rewrite <- !app_assoc.
        -- simpl. f_equal. exact Hc.
        -- simpl. exact Hl.
    + rewrite filter_cons_False by (rewrite Hm; done). apply IH.
Qed.

Lemma route_eq msg st :
  route user_handler msg st
  = (None,
     (route_loop user_handler (Router.handlers (st_router st)) msg st).2).
Proof.
  unfold route, bind, gets, ret.
  by destruct (route_loop user_handler _ msg st).
Qed.

(** A call of a handler is what the handler does, followed by the entry
    of the call in the trace. *)
Lemma call_handler_outcome (h : MessageHandler) msg st :
  call_handler user_handler h msg st
  = ((handler_outcome user_handler h msg st).1,
     with_event (handler_outcome user_handler h msg st).2
                (EvHandler h msg (handler_outcome user_handler h msg st).1)).
Proof.
  destruct h as [id|].
  - unfold call_handler, handler_outcome, bind, emit, ret, with_event.
    by destruct (user_handler id msg (st_router st, st_world st))
      as [res [r w]].
  - apply call_handler_agent.
Qed.

(** The loop of [route] is a fold of [after_handler] over the handlers
    whose pattern matches. *)
Lemma route_loop_fold (hs : list RouteHandler.t) msg st :
  route_loop user_handler hs msg st
  = (tt,
     foldl (after_handler user_handler msg) st
           (filter (λ h, matchPattern (RouteHandler.Pattern h) msg = true) hs)).
Proof.
  revert st. induction hs as [|h rest IH]; intros st; [done |].
  rewrite route_loop_cons.
  destruct (matchPattern (RouteHandler.Pattern h) msg) eqn:Hm.
  - rewrite filter_cons_True by done. cbv zeta.
    rewrite call_handler_outcome, IH. simpl. reflexivity.
  - rewrite filter_cons_False by (rewrite Hm; done). apply IH.
Qed.

(** C2. [route] calls the handlers whose pattern matches the message,
    all of them and no other, in the order of the handler list as it was
    when [route] started, and [OnMessage] appends at the end of that
    list; each call gets the message. The state at the end is the state
    at the start taken through the matching handlers one after the other:
    each runs on the router and the world that the one before has left,
    and for every error that a handler returns one "handler error" record
    is written and the handlers after it are still called. [route]
    returns nil in every case. *)
Theorem route_calls_matching_handlers_in_order msg st :
  let matching :=
    filter (λ h, matchPattern (RouteHandler.Pattern h) msg = true)
           (Router.handlers (st_router st)) in
  let res := (route user_handler msg st).1 in
  let st' := (route user_handler msg st).2 in
  route user_handler msg st
  = (None, foldl (after_handler user_handler msg) st matching)
  ∧ res = None
  ∧ (∃ evs,
       st_trace st' = st_trace st ++ evs
       ∧ fst <$> handler_calls evs
         = (λ h, (RouteHandler.Handler h, msg)) <$> matching
       ∧ handler_errors_logged evs = omap snd (handler_calls evs))
  ∧ (∀ pattern handler st0,
       Router.handlers (st_router (OnMessage pattern handler st0).2)
       = Router.handlers (st_router st0)
         ++ [RouteHandler.mk pattern handler]).
Proof.
  intros matching res st'. subst matching res st'.
  split_and!.
  - by rewrite route_eq, route_loop_fold.
  - by rewrite route_eq.
  - rewrite route_eq. apply route_loop_calls.
  - done.
Qed.

(** C10. When an agent is configured and its [Process] succeeds with a
    text, the agent handler returns what the [Send] of the reply returns:
    the not-found error when the channel of the message is not
    registered, the adapter's error when the adapter fails. A [route]
    that reaches the handler writes that error to the log and returns
    nil. *)
Theorem ProcessWithAgent_returns_Send_outcome
    msg st (a : AgentProcessor.t W) (text : string) :
  Router.agent (st_router st) = Some a →
  (AgentProcessor.Process a
     (IncomingMessage.ChannelName msg +:+ ":" +:+ IncomingMessage.ChatID msg)
     (IncomingMessage.Content msg) (st_world st)).1 = (text, None) →
  let st1 := after_process a msg st in
  let out := OutgoingMessage.mk text (IncomingMessage.ID msg) "" in
  let res := (ProcessWithAgent_func msg st).1 in
  ProcessWithAgent_func msg st
  = Send (IncomingMessage.ChannelName msg) (IncomingMessage.ChatID msg) out st1
  ∧ (Router.channels (st_router st) !! IncomingMessage.ChannelName msg = None →
       res = Some (channel_not_found (IncomingMessage.ChannelName msg)))
  ∧ (∀ ch, Router.channels (st_router st) !! IncomingMessage.ChannelName msg
           = Some ch →
       res = (Channel.Send ch (IncomingMessage.ChatID msg) out (st_world st1)).1)
  ∧ (∀ pattern e,
       Router.handlers (st_router st)
       = [RouteHandler.mk pattern ProcessWithAgent] →
       matchPattern pattern msg = true →
       res = Some e →
       (route user_handler msg st).1 = None
       ∧ st_trace (route user_handler msg st).2
         = st_trace (ProcessWithAgent_func msg st).2
           ++ [EvHandler ProcessWithAgent msg (Some e);
               handler_error_record msg e]).
Proof.
  intros Ha Hp st1 out res.
  assert (ProcessWithAgent_func msg st
          = Send (IncomingMessage.ChannelName msg)
                 (IncomingMessage.ChatID msg) out st1) as Heq.
  { rewrite ProcessWithAgent_func_eq, Ha. cbv zeta.
    unfold session_of. by rewrite Hp. }
  split_and!.
  - exact Heq.
  - intros Hl. subst res. rewrite Heq. by rewrite Send_absent.
  - intros ch Hl. subst res. rewrite Heq.
    by rewrite (Send_present _ _ _ _ ch), call_send_eq.
  - intros pattern e Hh Hm He. rewrite route_eq, Hh, route_loop_cons. simpl.
    rewrite Hm. cbv zeta. rewrite call_handler_agent. simpl.
    fold res. rewrite He. simpl. split; [done |].
    by rewrite <- app_assoc.
Qed.

End RouterFacts.

(** *** The theorems at work on the example router *)

Lemma Send_delegates_or_not_found_witness :
  let st := example_st example_router in
  (Router.channels (st_router st) !! "slack" = None
   ∧ (Send "slack" "9" hello st).2 = st)
  ∧ (Router.channels (st_router st) !! "telegram" = Some (up_adapter "telegram")
     ∧ (Send "telegram" "42" hello st).1 = None).
Proof.
  intros st. split.
  - split; [reflexivity |].
    apply (Send_delegates_or_not_found "slack" "9" hello st). reflexivity.
  - split; [reflexivity |].
    destruct (Send_delegates_or_not_found "telegram" "42" hello st)
      as (_ & _ & Hpresent).
    destruct (Hpresent (up_adapter "telegram") eq_refl) as [Hres _].
    exact Hres.
Defined.

Example Send_example_unregistered :
  Send "slack" "9" hello (example_st example_router)
  = (Some (errorString "channel not found: slack"), example_st example_router).
Proof. reflexivity. Qed.

Example Send_example_adapter_error :
  (Send "discord" "7" hello (example_st example_router)).1
  = Some (errorString "not connected").
Proof. reflexivity. Qed.

Lemma Broadcast_attempts_every_registered_target_witness :
  let st := example_st example_router in
  range_ok map_to_list (Router.channels (st_router st))
  ∧ range_ok map_to_list example_targets
  ∧ ∃ attempted : list (string * Channel.t ExWorld * string),
      attempted ≡ₚ broadcast_targets (Router.channels (st_router st))
                                     (map_to_list example_targets)
      ∧ let sent := send_outcomes attempted hello (st_world st) in
        let outcomes := sent.1 in
        let res :=
          (Broadcast map_to_list map_to_list example_targets hello st).1 in
        let st' :=
          (Broadcast map_to_list map_to_list example_targets hello st).2 in
        Broadcast map_to_list map_to_list example_targets hello st
        = (aggregate "broadcast errors: "
             (named_failures ((λ o, (so_name o, so_result o)) <$> outcomes)),
           mkSt (st_router st) sent.2
                (st_trace st ++ (so_event hello <$> outcomes)))
        ∧ so_target <$> outcomes = attempted
        ∧ st_world st' = sent.2
        ∧ st_router st' = st_router st
        ∧ st_trace st' = st_trace st ++ (so_event hello <$> outcomes)
        ∧ (res = None ↔ Forall (λ o, so_result o = None) outcomes).
Proof.
  intros st.
  split; [unfold range_ok; reflexivity |].
  split; [unfold range_ok; reflexivity |].
  apply (Broadcast_attempts_every_registered_target
           map_to_list map_to_list example_targets hello st);
    unfold range_ok; reflexivity.
Defined.

Example Broadcast_example :
  let r := Broadcast map_to_list map_to_list example_targets hello
             (example_st example_router) in
  r.1 = Some (errorString "broadcast errors: [discord: not connected]")
  ∧ st_world r.2 = ["telegram/42: hello"]
  ∧ length (send_calls (st_trace r.2)) = 2.
Proof. vm_compute. done. Qed.

Lemma ConnectAll_fails_fast_DisconnectAll_tries_all_witness :
  let st := example_st example_router in
  range_ok map_to_list (Router.channels (st_router st))
  ∧ ∃ entries : list (string * Channel.t ExWorld),
      entries ≡ₚ map_to_list (Router.channels (st_router st))
      ∧ (let connected := connect_outcomes entries (st_world st) in
         ConnectAll map_to_list st
         = (connect_error connected.1,
            mkSt (st_router st) connected.2
                 (st_trace st ++ connected.1 ≫= connect_events))
         ∧ disconnect_calls (st_trace (ConnectAll map_to_list st).2)
           = disconnect_calls (st_trace st)
         ∧ (((ConnectAll map_to_list st).1 = None
             ∧ connected.1 = (λ en, (en, None)) <$> entries)
            ∨ (∃ pre name ch e post,
                 entries = pre ++ (name, ch) :: post
                 ∧ connected.1
                   = ((λ en, (en, None)) <$> pre) ++ [(name, ch, Some e)]
                 ∧ (ConnectAll map_to_list st).1
                   = Some (Errorf_w ("connect " +:+ name +:+ ": ") e))))
      ∧ (let disconnected := disconnect_outcomes entries (st_world st) in
         DisconnectAll map_to_list st
         = (aggregate "disconnect errors: "
              (named_failures ((λ r, (r.1.1, r.2)) <$> disconnected.1)),
            mkSt (st_router st) disconnected.2
                 (st_trace st ++ disconnected.1 ≫= disconnect_events))
         ∧ fst <$> disconnected.1 = entries
         ∧ ((DisconnectAll map_to_list st).1 = None
            ↔ Forall (λ r, r.2 = None) disconnected.1)).
Proof.
  intros st. split; [unfold range_ok; reflexivity |].
  apply (ConnectAll_fails_fast_DisconnectAll_tries_all map_to_list st).
  unfold range_ok; reflexivity.
Defined.

Example ConnectAll_example :
  (ConnectAll map_to_list (example_st example_router)).1
  = Some (wrapError "connect discord: dial failed" (errorString "dial failed")).
Proof. vm_compute. reflexivity. Qed.

Example DisconnectAll_example :
  let r := DisconnectAll map_to_list (example_st example_router) in
  r.1 = Some (errorString "disconnect errors: [discord: close failed]")
  ∧ length (disconnect_calls (st_trace r.2)) = 2.
Proof. vm_compute. done. Qed.


Example Register_example_Send :
  let st2 := (Register (up_adapter "telegram")
                (Register (down_adapter "telegram")
                   (example_st NewRouter)).2).2 in
  (Send "telegram" "42" hello st2).1 = None
  ∧ (ListChannels map_to_list st2).1 = ["telegram"].
Proof. vm_compute. done. Qed.

Lemma ProcessWithAgent_handler_behaviour_witness :
  let st := example_st example_router in
  let msg := example_msg "/ask what is new" in
  Router.agent (st_router st) = Some greeter
  ∧ (ProcessWithAgent_func msg st).2
    = (Send "telegram" "42" (OutgoingMessage.mk "Hello from agent!" "m1" "")
         (after_process greeter msg st)).2.
Proof.
  intros st msg. split; [reflexivity |].
  destruct (ProcessWithAgent_handler_behaviour example_handlers msg st)
    as (_ & _ & Hagent).
  destruct (Hagent greeter eq_refl) as (_ & _ & _ & Hok).
  destruct (Hok eq_refl) as [Heq _].
  exact (f_equal snd Heq).
Defined.

Example ProcessWithAgent_example_reply :
  let r := ProcessWithAgent_func (example_msg "/ask what is new")
             (example_st example_router) in
  r.1 = None
  ∧ st_world r.2 = ["telegram/42: Hello from agent!"]
  ∧ process_calls (st_trace r.2)
    = [(greeter, "telegram:42", "/ask what is new", ("Hello from agent!", None))].
Proof. vm_compute. done. Qed.

Example ProcessWithAgent_example_no_agent :
  let st := example_st (Router.mk two_channels [] None) in
  let r := ProcessWithAgent_func (example_msg "hi") st in
  r.1 = None ∧ st_world r.2 = [] ∧ send_calls (st_trace r.2) = [].
Proof. vm_compute. done. Qed.

Example ProcessWithAgent_example_agent_fails :
  let st := example_st (Router.mk two_channels [] (Some broken_agent)) in
  let r := ProcessWithAgent_func (example_msg "hi") st in
  r.1 = Some (errorString "model overloaded")
  ∧ send_calls (st_trace r.2) = [].
Proof. vm_compute. done. Qed.

Lemma ProcessWithAgent_returns_Send_outcome_witness :
  let st := example_st (Router.mk ∅ [RouteHandler.mk All ProcessWithAgent]
                                  (Some greeter)) in
  let msg := example_msg "hi" in
  (Router.agent (st_router st) = Some greeter
   ∧ (AgentProcessor.Process greeter "telegram:42" "hi" (st_world st)).1
     = ("Hello from agent!", None))
  ∧ (ProcessWithAgent_func msg st).1 = Some (channel_not_found "telegram")
  ∧ (route example_handlers msg st).1 = None.
Proof.
  intros st msg. split; [split; reflexivity |].
  destruct (ProcessWithAgent_returns_Send_outcome example_handlers msg st
              greeter "Hello from agent!" eq_refl eq_refl)
    as (_ & Habsent & _ & Hroute).
  split; [exact (Habsent eq_refl) |].
  exact (proj1 (Hroute All (channel_not_found "telegram")
                  eq_refl eq_refl (Habsent eq_refl))).
Defined.

Example route_example :
  let r := route example_handlers (example_msg "/ask what is new")
             (example_st example_router) in
  r.1 = None
  ∧ fst <$> handler_calls (st_trace r.2)
    = [(UserHandler 1, example_msg "/ask what is new");
       (UserHandler 0, example_msg "/ask what is new");
       (ProcessWithAgent, example_msg "/ask what is new")]
  ∧ handler_errors_logged (st_trace r.2) = [errorString "handler failed"].
Proof. vm_compute. done. Qed.

(** Every handler fails: [route] still calls them all and returns nil. *)
Example route_example_all_fail :
  let st := example_st (Router.mk ∅ [RouteHandler.mk All (UserHandler 1);
                                     RouteHandler.mk All (UserHandler 2);
                                     RouteHandler.mk All ProcessWithAgent]
                                  (Some greeter)) in
  let r := route example_handlers (example_msg "hi") st in
  r.1 = None
  ∧ handler_errors_logged (st_trace r.2)
    = [errorString "handler failed"; errorString "handler failed";
       errorString "channel not found: telegram"].
Proof. vm_compute. done. Qed.

(** ** The gateway *)

(** C8. For a frame of type chat with id [i] and content [c] the gateway
    replies with one frame. With a processor configured it is a response
    with id [i] and the text of the processor when the processor succeeds,
    and an error frame with id [i] and the description of the failure when
    it fails. With no processor it is a response with id [i] and the
    content ["Message received: "] followed by [c]. *)
Theorem handleMessage_chat {W} (agent : option (AgentProcessor.t W))
    (sessionID : string) (now : nat) (unknown : MessageType → string)
    (msg : Message.t) (w : W) :
  Message.Type_ msg = MessageTypeChat →
  let reply := (handleMessage agent sessionID now unknown msg w).1 in
  (∀ a, agent = Some a →
     let pr := AgentProcessor.Process a sessionID (Message.Content msg) w in
     (pr.1.2 = None →
        ∃ f, reply = [f]
             ∧ Message.Type_ f = MessageTypeResponse
             ∧ Message.ID f = Message.ID msg
             ∧ Message.Content f = pr.1.1)
     ∧ (∀ e, pr.1.2 = Some e →
          ∃ f, reply = [f]
               ∧ Message.Type_ f = MessageTypeError
               ∧ Message.ID f = Message.ID msg
               ∧ Message.Error f = Error e))
  ∧ (agent = None →
       ∃ f, reply = [f]
            ∧ Message.Type_ f = MessageTypeResponse
            ∧ Message.ID f = Message.ID msg
            ∧ Message.Content f = "Message received: " +:+ Message.Content msg).
Proof.
  intros Ht reply. subst reply. unfold handleMessage. rewrite Ht. simpl.
  split.
  - intros a ->. cbv zeta.
    destruct (AgentProcessor.Process a sessionID (Message.Content msg) w)
      as [[text [e|]] w']; simpl; split.
    + discriminate.
    + intros e' [= <-]. by eexists.
    + intros _. by eexists.
    + intros e'. discriminate.
  - intros ->. by eexists.
Qed.

Lemma handleMessage_chat_witness :
  let msg := Message.mk "chat-1" MessageTypeChat "Hello!" "" ∅ "" 0 in
  Message.Type_ msg = MessageTypeChat
  ∧ ∃ f, (handleMessage (W := ExWorld) None "s1" 5 (λ t, t) msg []).1 = [f]
         ∧ Message.Type_ f = MessageTypeResponse
         ∧ Message.ID f = Message.ID msg
         ∧ Message.Content f = "Message received: " +:+ Message.Content msg.
Proof.
  intros msg. split; [reflexivity |].
  apply (handleMessage_chat (W := ExWorld) None "s1" 5 (λ t, t) msg []);
    reflexivity.
Defined.

(** The cases of the gateway tests. *)
Example handleMessage_echo :
  (handleMessage (W := ExWorld) None "s1" 5 (λ t, t)
     (Message.mk "chat-1" MessageTypeChat "Hello!" "" ∅ "" 0) []).1
  = [NewChatResponse "chat-1" "Message received: Hello!" 5].
Proof. reflexivity. Qed.

Example handleMessage_with_agent :
  (handleMessage (Some greeter) "s1" 5 (λ t, t)
     (Message.mk "chat-1" MessageTypeChat "Hello, agent!" "" ∅ "" 0) []).1
  = [NewChatResponse "chat-1" "Hello from agent!" 5].
Proof. reflexivity. Qed.

Example handleMessage_agent_fails :
  (handleMessage (Some broken_agent) "s1" 5 (λ t, t)
     (Message.mk "chat-1" MessageTypeChat "Hello, agent!" "" ∅ "" 0) []).1
  = [NewErrorMessage "chat-1" "model overloaded" 5].
Proof. reflexivity. Qed.

(** * Further properties of the router *)

Section RouterMore.

Context {W : Type}.

Variable user_handler :
  nat → IncomingMessage.t → Router.t W * W → option error * (Router.t W * W).

Implicit Types (st : St W) (ch : Channel.t W) (tr : list (Event W)).
Implicit Types (msg : IncomingMessage.t) (out : OutgoingMessage.t).

Lemma Unregister_eq (name : string) st :
  Unregister name st
  = (tt,
     mkSt (Router.mk (delete name (Router.channels (st_router st)))
                     (Router.handlers (st_router st))
                     (Router.agent (st_router st)))
          (st_world st)
          (st_trace st
           ++ [EvLog LevelInfo "channel unregistered"
                     [("name", AttrString name)]])).
Proof. reflexivity. Qed.

(** X1. [Unregister] forgets the name and nothing else: afterwards
    [GetChannel] finds nothing and [Send] to the name fails with the
    not-found error, the other names, the handlers and the agent are as
    before. It calls no adapter (the adapter is not disconnected): the
    world is untouched and the trace gets one log record. For a name that
    is not registered the router is left as it was. *)
Theorem Unregister_forgets_without_disconnect (name : string) st :
  let st' := (Unregister name st).2 in
  GetChannel name st' = ((None, false), st')
  ∧ (∀ chatID out,
       Send name chatID out st' = (Some (channel_not_found name), st'))
  ∧ (∀ other, other ≠ name →
       Router.channels (st_router st') !! other
       = Router.channels (st_router st) !! other)
  ∧ Router.handlers (st_router st') = Router.handlers (st_router st)
  ∧ Router.agent (st_router st') = Router.agent (st_router st)
  ∧ st_world st' = st_world st
  ∧ st_trace st'
    = st_trace st
      ++ [EvLog LevelInfo "channel unregistered" [("name", AttrString name)]]
  ∧ (Router.channels (st_router st) !! name = None →
       st_router st' = st_router st).
Proof.
  intros st'. subst st'. rewrite Unregister_eq. simpl.
  split_and!; try done.
  - rewrite GetChannel_eq. simpl. by rewrite lookup_delete_eq.
  - intros chatID out. apply Send_absent. simpl. apply lookup_delete_eq.
  - intros other Hne. by apply lookup_delete_ne.
  - intros Habsent. rewrite delete_id by done. by destruct (st_router st).
Qed.


(** X3. Registering an adapter under a fresh name and unregistering the
    name again gives back the router as it was. The hook that [Register]
    installed in the adapter stays: [Unregister] does not undo the
    adapter's [OnMessage]. *)
Theorem Register_Unregister_round_trip ch st :
  Router.channels (st_router st) !! Channel.Name ch = None →
  let st' := (Unregister (Channel.Name ch) (Register ch st).2).2 in
  st_router st' = st_router st
  ∧ st_world st' = Channel.OnMessage ch (st_world st).
Proof.
  intros Hfresh st'. subst st'. rewrite Register_eq, Unregister_eq. simpl.
  split; [| done].
  rewrite delete_insert_eq, delete_id by done. by destruct (st_router st).
Qed.

(** X4. [ListChannels] returns the registered names, each once, whatever
    the order of the visit: a name is in the list exactly when
    [GetChannel] finds a channel under it, the names are pairwise
    distinct, and there are as many as entries in the registry. The state
    is left as it was. *)
Theorem ListChannels_lists_the_registered_names
    (range : gmap string (Channel.t W) → list (string * Channel.t W)) st :
  range_ok range (Router.channels (st_router st)) →
  let names := (ListChannels range st).1 in
  (∀ name, name ∈ names ↔ (GetChannel name st).1.2 = true)
  ∧ NoDup names
  ∧ length names = size (Router.channels (st_router st))
  ∧ (ListChannels range st).2 = st.
Proof.
  intros Hr names. subst names. rewrite ListChannels_eq. simpl.
  unfold range_ok in Hr.
  split_and!; [| | | done].
  - intros name. rewrite Hr, GetChannel_eq. simpl.
    rewrite list_elem_of_fmap. split.
    + intros ([k ch] & -> & Hin). apply elem_of_map_to_list in Hin.
      simpl. by rewrite Hin.
    + destruct (Router.channels (st_router st) !! name) as [ch|] eqn:Hl;
        [| done].
      intros _. exists (name, ch). split; [done |].
      by apply elem_of_map_to_list.
  - rewrite Hr. apply NoDup_fst_map_to_list.
  - rewrite Hr, length_fmap. apply length_map_to_list.
Qed.

(** What [Send] adds to a trace holds no call of the agent. *)
Lemma Send_process_calls (channelName chatID : string) out st :
  process_calls (st_trace (Send channelName chatID out st).2)
  = process_calls (st_trace st).
Proof.
  destruct (Router.channels (st_router st) !! channelName) as [ch|] eqn:Hl.
  - rewrite (Send_present _ _ _ _ _ Hl), call_send_eq. simpl.
    rewrite process_calls_app. simpl. by rewrite app_nil_r.
  - by rewrite (Send_absent _ _ _ _ Hl).
Qed.

Lemma Send_router (channelName chatID : string) out st :
  st_router (Send channelName chatID out st).2 = st_router st.
Proof.
  destruct (Router.channels (st_router st) !! channelName) as [ch|] eqn:Hl.
  - by rewrite (Send_present _ _ _ _ _ Hl), call_send_eq.
  - by rewrite (Send_absent _ _ _ _ Hl).
Qed.

(** X5. Sending, broadcasting, connecting, disconnecting and the agent
    handler never change the router: the registry, the handler list and
    the agent after the operation are those before it, whatever the
    adapters and the agent return and in whatever order the maps are
    visited. In particular [DisconnectAll] leaves every adapter
    registered. *)
Theorem operations_keep_the_router
    (range_channels : gmap string (Channel.t W) → list (string * Channel.t W))
    (range_targets : gmap string string → list (string * string))
    (chatIDs : gmap string string) (channelName chatID : string)
    out msg st :
  st_router (Send channelName chatID out st).2 = st_router st
  ∧ st_router (Broadcast range_channels range_targets chatIDs out st).2
    = st_router st
  ∧ st_router (ConnectAll range_channels st).2 = st_router st
  ∧ st_router (DisconnectAll range_channels st).2 = st_router st
  ∧ st_router (ProcessWithAgent_func msg st).2 = st_router st.
Proof.
  split_and!.
  - apply Send_router.
  - unfold Broadcast, bind, gets. cbv zeta.
    destruct (Broadcast_loop_outcomes
                (foldl (λ acc kv, <[kv.1 := kv.2]> acc) ∅
                       (range_channels (Router.channels (st_router st))))
                (range_targets chatIDs) out [] st)
      as (outcomes & w' & Heq & _).
    by rewrite Heq, aggregate_if.
  - unfold ConnectAll, bind, gets. cbv zeta.
    destruct (ConnectAll_loop_outcome
                (range_channels (Router.channels (st_router st))) st)
      as (w' & [Heq | (pre & name & ch & e & post & _ & Heq)]);
      by rewrite Heq.
  - unfold DisconnectAll, bind, gets. cbv zeta.
    destruct (DisconnectAll_loop_outcome
                (range_channels (Router.channels (st_router st))) [] st)
      as (results & w' & Heq & _).
    by rewrite Heq, aggregate_if.
  - rewrite ProcessWithAgent_func_eq.
    destruct (Router.agent (st_router st)) as [a|]; [| done]. cbv zeta.
    destruct (AgentProcessor.Process a _ _ (st_world st)).1.2; [done |].
    by rewrite Send_router.
Qed.

Lemma Broadcast_loop_unregistered (registry : gmap string (Channel.t W))
    (targets : list (string * string)) out (errs : list error) st :
  Forall (λ t, registry !! t.1 = None) targets →
  Broadcast_loop registry targets out errs st = (errs, st).
Proof.
  induction 1 as [|[name chatID] rest Hn _ IH]; simpl in *; [done |].
  by rewrite Hn.
Qed.

(** X6. When none of the targets names a registered channel (in
    particular when there are no targets), [Broadcast] returns nil, calls
    nothing and leaves the state as it was, where [Send] to any of these
    names fails with the not-found error. *)
Theorem Broadcast_is_silent_on_unregistered_targets
    (range_channels : gmap string (Channel.t W) → list (string * Channel.t W))
    (range_targets : gmap string string → list (string * string))
    (chatIDs : gmap string string) out st :
  range_ok range_channels (Router.channels (st_router st)) →
  range_ok range_targets chatIDs →
  (∀ name chatID, chatIDs !! name = Some chatID →
     Router.channels (st_router st) !! name = None) →
  Broadcast range_channels range_targets chatIDs out st = (None, st)
  ∧ (∀ name chatID, chatIDs !! name = Some chatID →
       Send name chatID out st = (Some (channel_not_found name), st)).
Proof.
  intros Hrc Hrt Hun. split.
  - unfold Broadcast, bind, gets. cbv zeta.
    rewrite (copy_registry _ _ Hrc), Broadcast_loop_unregistered; [done |].
    apply Forall_forall. intros [name chatID] Hin. simpl.
    apply (Hun name chatID). apply elem_of_map_to_list.
    unfold range_ok in Hrt. by rewrite <- Hrt.
  - intros name chatID Ht. apply Send_absent. by apply (Hun name chatID).
Qed.

(** X7. On a router with no registered channel, [ConnectAll] and
    [DisconnectAll] return nil, [ListChannels] returns no name, every
    [Broadcast] returns nil, and all of them leave the state as it was. *)
Theorem empty_registry_operations
    (range : gmap string (Channel.t W) → list (string * Channel.t W))
    (range_targets : gmap string string → list (string * string))
    (chatIDs : gmap string string) out st :
  Router.channels (st_router st) = ∅ →
  range_ok range ∅ →
  ConnectAll range st = (None, st)
  ∧ DisconnectAll range st = (None, st)
  ∧ ListChannels range st = ([], st)
  ∧ Broadcast range range_targets chatIDs out st = (None, st).
Proof.
  intros He Hr.
  assert (range ∅ = []) as Hnil.
  { unfold range_ok in Hr. rewrite map_to_list_empty in Hr.
    by apply Permutation_nil_r. }
  split_and!.
  - unfold ConnectAll, bind, gets. cbv zeta. by rewrite He, Hnil.
  - unfold DisconnectAll, bind, gets. cbv zeta. by rewrite He, Hnil.
  - rewrite ListChannels_eq. by rewrite He, Hnil.
  - unfold Broadcast, bind, gets. cbv zeta. rewrite He, Hnil. simpl.
    rewrite Broadcast_loop_unregistered; [done |].
    apply Forall_forall. intros t _. apply lookup_empty.
Qed.

Lemma route_loop_no_match (hs : list RouteHandler.t) msg st :
  Forall (λ h, matchPattern (RouteHandler.Pattern h) msg = false) hs →
  route_loop user_handler hs msg st = (tt, st).
Proof.
  induction 1 as [|h rest Hm _ IH]; [done |].
  by rewrite route_loop_cons, Hm.
Qed.

(** X8. When no handler has a pattern that matches the message (in
    particular when no handler is registered), [route] returns nil, calls
    nothing and leaves the state as it was. *)
Theorem route_without_matching_handler msg st :
  Forall (λ h, matchPattern (RouteHandler.Pattern h) msg = false)
         (Router.handlers (st_router st)) →
  route user_handler msg st = (None, st).
Proof.
  intros Hno. rewrite route_eq. by rewrite route_loop_no_match.
Qed.

Lemma route_loop_app (hs1 hs2 : list RouteHandler.t) msg st :
  route_loop user_handler (hs1 ++ hs2) msg st
  = route_loop user_handler hs2 msg (route_loop user_handler hs1 msg st).2.
Proof.
  revert st. induction hs1 as [|h rest IH]; intros st; [done |].
  rewrite <- app_comm_cons, !route_loop_cons.
  destruct (matchPattern (RouteHandler.Pattern h) msg); apply IH.
Qed.

(** X9. A handler added with [OnMessage] runs last: a [route] after the
    [OnMessage] first goes through the handlers that were there before, as
    it would have without the new one, and then, when the new pattern
    matches, calls the new handler in the state that they leave, logging
    its error if it returns one; when the pattern does not match the new
    handler changes nothing. *)
Theorem OnMessage_handler_runs_last
    (pattern : RoutePattern.t) (handler : MessageHandler) msg st :
  let st0 := (OnMessage pattern handler st).2 in
  let st1 :=
    (route_loop user_handler (Router.handlers (st_router st)) msg st0).2 in
  let r := call_handler user_handler handler msg st1 in
  route user_handler msg st0
  = (None,
     if matchPattern pattern msg
     then match r.1 with
          | Some e => with_event r.2 (handler_error_record msg e)
          | None => r.2
          end
     else st1).
Proof.
  intros st0 st1 r. rewrite route_eq. f_equal.
  change (Router.handlers (st_router st0))
    with (Router.handlers (st_router st) ++ [RouteHandler.mk pattern handler]).
  rewrite route_loop_app. fold st1. rewrite route_loop_cons. simpl.
  by destruct (matchPattern pattern msg).
Qed.

(** X10. The agent handler reads the agent when it is called, not when it
    is registered: after [SetAgent] the handler calls the agent just set,
    whatever was configured before, and after [SetAgent] with nil it
    returns nil and calls neither agent nor adapter. [SetAgent] itself
    changes nothing but the agent. *)
Theorem SetAgent_is_read_at_dispatch
    (agent : option (AgentProcessor.t W)) msg st :
  let st' := (SetAgent agent st).2 in
  Router.channels (st_router st') = Router.channels (st_router st)
  ∧ Router.handlers (st_router st') = Router.handlers (st_router st)
  ∧ Router.agent (st_router st') = agent
  ∧ st_world st' = st_world st
  ∧ st_trace st' = st_trace st
  ∧ (agent = None →
       (ProcessWithAgent_func msg st').1 = None
       ∧ process_calls (st_trace (ProcessWithAgent_func msg st').2)
         = process_calls (st_trace st)
       ∧ send_calls (st_trace (ProcessWithAgent_func msg st').2)
         = send_calls (st_trace st))
  ∧ (∀ a, agent = Some a →
       process_calls (st_trace (ProcessWithAgent_func msg st').2)
       = process_calls (st_trace st)
         ++ [(a, IncomingMessage.ChannelName msg +:+ ":"
                 +:+ IncomingMessage.ChatID msg,
              IncomingMessage.Content msg,
              (AgentProcessor.Process a
                 (IncomingMessage.ChannelName msg +:+ ":"
                  +:+ IncomingMessage.ChatID msg)
                 (IncomingMessage.Content msg) (st_world st)).1)]).
Proof.
  intros st'. subst st'. unfold SetAgent, modify_router. simpl.
  split_and!; try done.
  - intros ->. rewrite ProcessWithAgent_func_eq. simpl.
    rewrite process_calls_app, send_calls_app. simpl.
    by rewrite !app_nil_r.
  - intros a ->. rewrite ProcessWithAgent_func_eq. simpl.
    fold (session_of msg).
    destruct (AgentProcessor.Process a (session_of msg)
                (IncomingMessage.Content msg) (st_world st))
      as [[text [e|]] w1] eqn:Hp; simpl.
    + unfold after_process. simpl. rewrite Hp. simpl.
      rewrite !process_calls_app. simpl. by rewrite app_nil_r.
    + rewrite Send_process_calls. unfold after_process. simpl. rewrite Hp.
      simpl. by rewrite process_calls_app.
Qed.

(** The state that [route] ends in when its one handler is the agent
    handler, the agent answers and the channel of the message is
    registered. *)
Lemma route_agent_reply_state
    msg st ch (a : AgentProcessor.t W) (pattern : RoutePattern.t)
    (text : string) :
  Router.channels (st_router st) !! IncomingMessage.ChannelName msg = Some ch →
  Router.agent (st_router st) = Some a →
  Router.handlers (st_router st) = [RouteHandler.mk pattern ProcessWithAgent] →
  matchPattern pattern msg = true →
  (AgentProcessor.Process a (session_of msg)
     (IncomingMessage.Content msg) (st_world st)).1 = (text, None) →
  let reply := reply_with msg text in
  let sent := Channel.Send ch (IncomingMessage.ChatID msg) reply
                (st_world (after_process a msg st)) in
  let replied :=
    with_event
      (mkSt (st_router st) sent.2
            (st_trace (after_process a msg st)
             ++ [EvSend ch (IncomingMessage.ChatID msg) reply sent.1]))
      (EvHandler AgentHandler msg sent.1) in
  route user_handler msg st
  = (None,
     match sent.1 with
     | Some e => with_event replied (handler_error_record msg e)
     | None => replied
     end).
Proof.
  intros Hl Ha Hh Hm Hp reply sent replied.
  assert (ProcessWithAgent_func msg st
          = (sent.1,
             mkSt (st_router st) sent.2
                  (st_trace (after_process a msg st)
                   ++ [EvSend ch (IncomingMessage.ChatID msg) reply sent.1])))
    as Hpwa.
  { rewrite ProcessWithAgent_func_eq, Ha. cbv zeta. rewrite Hp. simpl.
    rewrite (Send_present _ _ _ _ ch) by exact Hl.
    by rewrite call_send_eq. }
  rewrite route_eq, Hh, route_loop_cons. simpl. rewrite Hm. cbv zeta.
  rewrite call_handler_agent, Hpwa. simpl. subst replied.
  by destruct sent.1.
Qed.

(** X11. From inbound message to reply. On a router whose one handler is
    the agent handler, with a pattern that matches the message, an agent
    that answers with a text, and the channel of the message registered:
    [route] makes one adapter call, the [Send] of that channel's adapter,
    to the chat of the message, with the text of the agent in reply to the
    id of the message. [route] returns nil whatever that [Send] returns; a
    failure of the [Send] is the one "handler error" that is logged. *)
Theorem routed_message_is_answered_on_its_channel
    msg st ch (a : AgentProcessor.t W) (pattern : RoutePattern.t)
    (text : string) :
  Router.channels (st_router st) !! IncomingMessage.ChannelName msg = Some ch →
  Router.agent (st_router st) = Some a →
  Router.handlers (st_router st) = [RouteHandler.mk pattern ProcessWithAgent] →
  matchPattern pattern msg = true →
  (AgentProcessor.Process a
     (IncomingMessage.ChannelName msg +:+ ":" +:+ IncomingMessage.ChatID msg)
     (IncomingMessage.Content msg) (st_world st)).1 = (text, None) →
  let w1 := (AgentProcessor.Process a
               (IncomingMessage.ChannelName msg +:+ ":"
                +:+ IncomingMessage.ChatID msg)
               (IncomingMessage.Content msg) (st_world st)).2 in
  let reply := OutgoingMessage.mk text (IncomingMessage.ID msg) "" in
  let sent := Channel.Send ch (IncomingMessage.ChatID msg) reply w1 in
  let st' := (route user_handler msg st).2 in
  (route user_handler msg st).1 = None
  ∧ send_calls (st_trace st')
    = send_calls (st_trace st)
      ++ [(ch, IncomingMessage.ChatID msg, reply, sent.1)]
  ∧ st_world st' = sent.2
  ∧ st_router st' = st_router st
  ∧ handler_errors_logged (st_trace st')
    = handler_errors_logged (st_trace st)
      ++ match sent.1 with Some e => [e] | None => [] end.
Proof.
  intros Hl Ha Hh Hm Hp w1 reply sent st'. subst st'.
  rewrite (route_agent_reply_state msg st ch a pattern text Hl Ha Hh Hm Hp).
  cbv zeta.
  change (st_world (after_process a msg st)) with w1.
  change (reply_with msg text) with reply. fold sent.
  unfold after_process. simpl.
  destruct sent.1 as [e|]; simpl;
    rewrite !send_calls_app, !handler_errors_logged_app; simpl;
    rewrite ?app_nil_r; split_and!; done.
Qed.

(** X12. Which failures can be unwrapped. The error of [ConnectAll] wraps
    the error that the failing adapter returned from the last [Connect]
    call, so [errors.Unwrap] gives it back. The errors of [DisconnectAll]
    and of [Broadcast] are built from the text of the failures only: they
    wrap nothing, and the errors of the adapters cannot be recovered from
    them. *)
Theorem ConnectAll_wraps_and_aggregates_flatten
    (range : gmap string (Channel.t W) → list (string * Channel.t W))
    (range_targets : gmap string string → list (string * string))
    (chatIDs : gmap string string) out st :
  (∀ err, (ConnectAll range st).1 = Some err →
     ∃ ch e, Unwrap err = Some e
             ∧ last (connect_calls (st_trace (ConnectAll range st).2))
               = Some (ch, Some e))
  ∧ (∀ err, (DisconnectAll range st).1 = Some err → Unwrap err = None)
  ∧ (∀ err, (Broadcast range range_targets chatIDs out st).1 = Some err →
       Unwrap err = None).
Proof.
  split_and!.
  - intros err. unfold ConnectAll, bind, gets. cbv zeta.
    destruct (ConnectAll_loop_outcome
                (range (Router.channels (st_router st))) st)
      as (w' & [Heq | (pre & name & ch & e & post & _ & Heq)]);
      rewrite Heq; simpl; [done |].
    intros [= <-]. exists ch, e. split; [done |].
    rewrite app_assoc, connect_calls_app. simpl. apply last_snoc.
  - intros err. unfold DisconnectAll, bind, gets. cbv zeta.
    destruct (DisconnectAll_loop_outcome
                (range (Router.channels (st_router st))) [] st)
      as (results & w' & Heq & _).
    rewrite Heq, aggregate_if. simpl.
    destruct (named_failures _); simpl; [done | by intros [= <-]].
  - intros err. unfold Broadcast, bind, gets. cbv zeta.
    destruct (Broadcast_loop_outcomes
                (foldl (λ acc kv, <[kv.1 := kv.2]> acc) ∅
                       (range (Router.channels (st_router st))))
                (range_targets chatIDs) out [] st)
      as (outcomes & w' & Heq & _).
    rewrite Heq, aggregate_if. simpl.
    destruct (named_failures _); simpl; [done | by intros [= <-]].
Qed.

End RouterMore.

(** * Further properties of patterns *)

Lemma string_append_assoc (a b c : string) :
  (a +:+ b) +:+ c = a +:+ (b +:+ c).
Proof.
  induction a as [|x a IH]; [done |].
  change (String x ((a +:+ b) +:+ c) = String x (a +:+ (b +:+ c))).
  by f_equal.
Qed.

(** X13. What the pattern constructors match. [FromChannels] matches the
    messages of the channels named, and every message when no channel is
    named; [DMOnly] matches the messages whose chat type is dm and
    [GroupOnly] those whose chat type is group, so no message matches
    both. *)
Theorem pattern_constructors_match (names : list string) (m : IncomingMessage.t) :
  (matchPattern (FromChannels names) m = true
   ↔ names = [] ∨ IncomingMessage.ChannelName m ∈ names)
  ∧ (matchPattern DMOnly m = true ↔ IncomingMessage.ChatType m = ChannelTypeDM)
  ∧ (matchPattern GroupOnly m = true
     ↔ IncomingMessage.ChatType m = ChannelTypeGroup)
  ∧ (matchPattern DMOnly m = true → matchPattern GroupOnly m = false).
Proof.
  assert (∀ t, matchPattern (RoutePattern.mk [] [t] "") m = true
               ↔ IncomingMessage.ChatType m = t) as Hone.
  { intros t. rewrite matchPattern_true_iff.
    unfold channel_ok, chat_type_ok, prefix_ok. simpl.
    rewrite list_elem_of_singleton. split; [| by auto].
    by intros (_ & [?|?] & _). }
  split_and!.
  - rewrite matchPattern_true_iff.
    unfold channel_ok, chat_type_ok, prefix_ok. simpl. tauto.
  - apply Hone.
  - apply Hone.
  - intros Hdm. apply Hone in Hdm. apply not_true_is_false. intros Hg.
    apply Hone in Hg. rewrite Hdm in Hg. discriminate.
Qed.

Lemma pattern_constructors_match_witness :
  matchPattern DMOnly (example_msg "hi") = true
  ∧ matchPattern GroupOnly (example_msg "hi") = false.
Proof.
  split; [reflexivity |].
  apply (pattern_constructors_match [] (example_msg "hi")). reflexivity.
Defined.

(** X14. Filters only narrow. A message that matches a pattern still
    matches when the channel filter or the chat-type filter is dropped and
    when the prefix is cut short: a handler registered with a prefix of
    another handler's prefix, and the same or fewer filters, is called for
    every message that the other is called for. *)
Theorem narrower_pattern_matches_less
    (cs : list string) (ts : list ChannelType) (pre ext : string)
    (m : IncomingMessage.t) :
  matchPattern (RoutePattern.mk cs ts (pre +:+ ext)) m = true →
  matchPattern (RoutePattern.mk cs ts pre) m = true
  ∧ matchPattern (RoutePattern.mk [] ts pre) m = true
  ∧ matchPattern (RoutePattern.mk cs [] pre) m = true
  ∧ matchPattern (RoutePattern.mk [] [] pre) m = true.
Proof.
  rewrite !matchPattern_true_iff.
  unfold channel_ok, chat_type_ok, prefix_ok. simpl.
  intros (Hc & Ht & Hp).
  assert (pre = "" ∨ starts_with (IncomingMessage.Content m) pre) as Hp'.
  { destruct Hp as [He | [rest Hs]].
    - left. destruct pre; [done | discriminate].
    - right. exists (ext +:+ rest). by rewrite Hs, string_append_assoc. }
  split_and!; auto.
Qed.

Lemma narrower_pattern_matches_less_witness :
  matchPattern (RoutePattern.mk ["telegram"] [ChannelTypeDM] ("/ask" +:+ " "))
               (example_msg "/ask what is new") = true
  ∧ matchPattern (RoutePattern.mk [] [] "/ask")
                 (example_msg "/ask what is new") = true.
Proof.
  split; [reflexivity |].
  apply (narrower_pattern_matches_less ["telegram"] [ChannelTypeDM] "/ask" " "
           (example_msg "/ask what is new")).
  reflexivity.
Defined.

(** * The further properties at work on the example router *)

Lemma Unregister_forgets_without_disconnect_witness :
  let st := example_st example_router in
  let st' := (Unregister "discord" st).2 in
  "telegram" ≠ "discord"
  ∧ Router.channels (st_router st') !! "telegram"
    = Router.channels (st_router st) !! "telegram".
Proof.
  intros st st'. split; [discriminate |].
  apply (Unregister_forgets_without_disconnect "discord" st). discriminate.
Defined.

Example Unregister_example :
  let st' := (Unregister "discord" (example_st example_router)).2 in
  (Send "discord" "7" hello st').1
  = Some (errorString "channel not found: discord")
  ∧ (ListChannels map_to_list st').1 = ["telegram"]
  ∧ disconnect_calls (st_trace st') = [].
Proof. vm_compute. done. Qed.


Lemma Register_Unregister_round_trip_witness :
  let st := example_st example_router in
  let ch := up_adapter "slack" in
  Router.channels (st_router st) !! Channel.Name ch = None
  ∧ st_router (Unregister (Channel.Name ch) (Register ch st).2).2
    = st_router st.
Proof.
  intros st ch. split; [reflexivity |].
  apply (Register_Unregister_round_trip ch st). reflexivity.
Defined.

Lemma ListChannels_lists_the_registered_names_witness :
  let st := example_st example_router in
  range_ok map_to_list (Router.channels (st_router st))
  ∧ NoDup (ListChannels map_to_list st).1.
Proof.
  intros st. split; [unfold range_ok; reflexivity |].
  apply (ListChannels_lists_the_registered_names map_to_list st).
  unfold range_ok; reflexivity.
Defined.

Lemma Broadcast_is_silent_on_unregistered_targets_witness :
  let st := example_st example_router in
  let chatIDs : gmap string string := {["slack" := "9"]} in
  (range_ok map_to_list (Router.channels (st_router st))
   ∧ range_ok map_to_list chatIDs
   ∧ ∀ name chatID, chatIDs !! name = Some chatID →
       Router.channels (st_router st) !! name = None)
  ∧ Broadcast map_to_list map_to_list chatIDs hello st = (None, st).
Proof.
  intros st chatIDs.
  assert (∀ name chatID, chatIDs !! name = Some chatID →
            Router.channels (st_router st) !! name = None) as Hun.
  { intros name chatID H. apply lookup_singleton_Some in H as [<- _].
    reflexivity. }
  split.
  - split; [unfold range_ok; reflexivity |].
    split; [unfold range_ok; reflexivity | exact Hun].
  - apply (Broadcast_is_silent_on_unregistered_targets
             map_to_list map_to_list chatIDs hello st);
      [unfold range_ok; reflexivity | unfold range_ok; reflexivity | exact Hun].
Defined.

Lemma empty_registry_operations_witness :
  let st := example_st NewRouter in
  (Router.channels (st_router st) = ∅
   ∧ range_ok (V := Channel.t ExWorld) map_to_list ∅)
  ∧ ConnectAll map_to_list st = (None, st).
Proof.
  intros st. split; [split; [reflexivity | unfold range_ok; reflexivity] |].
  apply (empty_registry_operations map_to_list map_to_list ∅ hello st);
    [reflexivity | unfold range_ok; reflexivity].
Defined.

Lemma route_without_matching_handler_witness :
  let st := example_st
              (Router.mk two_channels
                 [RouteHandler.mk (FromChannels ["discord"]) (UserHandler 1);
                  RouteHandler.mk GroupOnly ProcessWithAgent]
                 (Some greeter)) in
  Forall (λ h, matchPattern (RouteHandler.Pattern h) (example_msg "hi") = false)
         (Router.handlers (st_router st))
  ∧ route example_handlers (example_msg "hi") st = (None, st).
Proof.
  intros st.
  assert (Forall (λ h, matchPattern (RouteHandler.Pattern h)
                         (example_msg "hi") = false)
                 (Router.handlers (st_router st))) as Hno
    by (repeat constructor).
  split; [exact Hno |].
  apply (route_without_matching_handler example_handlers (example_msg "hi") st).
  exact Hno.
Defined.

Example OnMessage_example_runs_last :
  let st0 := (OnMessage All (UserHandler 2) (example_st example_router)).2 in
  (fst <$> handler_calls
             (st_trace (route example_handlers (example_msg "hi") st0).2)).*1
  = [UserHandler 1; UserHandler 0; UserHandler 2].
Proof. vm_compute. done. Qed.

Lemma SetAgent_is_read_at_dispatch_witness :
  let st := example_st (Router.mk two_channels [] (Some broken_agent)) in
  let st' := (SetAgent (Some greeter) st).2 in
  process_calls (st_trace (ProcessWithAgent_func (example_msg "hi") st').2)
  = [(greeter, "telegram:42", "hi", ("Hello from agent!", None))].
Proof.
  intros st st'.
  apply (SetAgent_is_read_at_dispatch (Some greeter) (example_msg "hi") st
           : _ ∧ _ ∧ _ ∧ _ ∧ _ ∧ _ ∧ _).
  reflexivity.
Defined.

Lemma routed_message_is_answered_on_its_channel_witness :
  let msg := example_msg "what is new" in
  (Router.channels (st_router assembled_st) !! IncomingMessage.ChannelName msg
   = Some (up_adapter "telegram")
   ∧ Router.agent (st_router assembled_st) = Some greeter
   ∧ Router.handlers (st_router assembled_st)
     = [RouteHandler.mk All ProcessWithAgent]
   ∧ matchPattern All msg = true)
  ∧ st_world (route example_handlers msg assembled_st).2
    = ["telegram/42: Hello from agent!"].
Proof.
  intros msg. split; [split_and!; reflexivity |].
  destruct (routed_message_is_answered_on_its_channel example_handlers msg
              assembled_st (up_adapter "telegram") greeter All
              "Hello from agent!"
              eq_refl eq_refl eq_refl eq_refl eq_refl)
    as (_ & _ & Hw & _).
  exact Hw.
Defined.

Example routed_message_example_send :
  send_calls (st_trace (route example_handlers (example_msg "what is new")
                          assembled_st).2)
  = [(up_adapter "telegram", "42",
      OutgoingMessage.mk "Hello from agent!" "m1" "", None)].
Proof. vm_compute. done. Qed.

Lemma ConnectAll_wraps_and_aggregates_flatten_witness :
  let st := example_st example_router in
  let err := wrapError "connect discord: dial failed"
                       (errorString "dial failed") in
  (ConnectAll map_to_list st).1 = Some err
  ∧ ∃ ch e, Unwrap err = Some e
            ∧ last (connect_calls (st_trace (ConnectAll map_to_list st).2))
              = Some (ch, Some e).
Proof.
  intros st err.
  assert ((ConnectAll map_to_list st).1 = Some err) as Hfail
    by (vm_compute; reflexivity).
  split; [exact Hfail |].
  apply (ConnectAll_wraps_and_aggregates_flatten
           map_to_list map_to_list ∅ hello st).
  exact Hfail.
Defined.

(** * The Discord adapter *)

Section DiscordFacts.

Context {D S : Type}.
Variable api : discordgo.Api D S.

Variable user_handler :
  nat → IncomingMessage.t → Router.t (discord.World D S) * discord.World D S →
  option error * (Router.t (discord.World D S) * discord.World D S).

Implicit Types (w : discord.World D S) (m : discordgo.MessageCreate.t).
Implicit Types (st : St (discord.World D S)) (out : OutgoingMessage.t).

(** X15. What [convertIncoming] makes of a Discord message. The channel
    name is the name of the adapter, and the chat id is the Discord
    channel of the message, so a reply sent to the message's channel and
    chat goes back where the message came from. The chat type is thread
    when the message carries a thread, also in a direct message;
    otherwise dm when there is no guild and group when there is one; it
    is never channel. So [DMOnly] matches exactly the messages without
    guild and without thread. *)
Theorem discord_convertIncoming_chat_type m :
  let msg := discord.convertIncoming m in
  IncomingMessage.ChannelName msg = discord.Name
  ∧ IncomingMessage.ChatID msg = discordgo.MessageCreate.ChannelID m
  ∧ (IncomingMessage.ChatType msg = ChannelTypeThread
     ↔ is_Some (discordgo.MessageCreate.Thread m))
  ∧ (IncomingMessage.ChatType msg = ChannelTypeDM
     ↔ discordgo.MessageCreate.Thread m = None
       ∧ discordgo.MessageCreate.GuildID m = "")
  ∧ (IncomingMessage.ChatType msg = ChannelTypeGroup
     ↔ discordgo.MessageCreate.Thread m = None
       ∧ discordgo.MessageCreate.GuildID m ≠ "")
  ∧ IncomingMessage.ChatType msg ≠ ChannelTypeChannel
  ∧ (matchPattern DMOnly msg = true
     ↔ discordgo.MessageCreate.Thread m = None
       ∧ discordgo.MessageCreate.GuildID m = "")
  ∧ matchPattern (FromChannels [discord.Name]) msg = true.
Proof.
  intros msg.
  assert (IncomingMessage.ChatType msg = ChannelTypeDM
          ↔ discordgo.MessageCreate.Thread m = None
            ∧ discordgo.MessageCreate.GuildID m = "") as Hdm.
  { subst msg. unfold discord.convertIncoming. simpl.
    destruct (discordgo.MessageCreate.Thread m) as [t|];
      destruct (String.eqb_spec (discordgo.MessageCreate.GuildID m) "");
      split; try done; try (by intros [? ?]). }
  split_and!; try done.
  - subst msg. unfold discord.convertIncoming. simpl.
    destruct (discordgo.MessageCreate.Thread m) as [t|];
      [split; [by eexists | done] |].
    destruct (String.eqb _ ""); split; try done; by intros [? ?].
  - subst msg. unfold discord.convertIncoming. simpl.
    destruct (discordgo.MessageCreate.Thread m) as [t|];
      destruct (String.eqb_spec (discordgo.MessageCreate.GuildID m) "");
      split; try done; try (by intros [? ?]).
  - subst msg. unfold discord.convertIncoming. simpl.
    destruct (discordgo.MessageCreate.Thread m) as [t|]; [done |].
    by destruct (String.eqb _ "").
  - rewrite <- Hdm, matchPattern_true_iff.
    unfold channel_ok, chat_type_ok, prefix_ok. simpl.
    rewrite list_elem_of_singleton. split; [| by auto].
    by intros (_ & [?|?] & _).
Qed.

(** X16. [New] refuses an empty token and nothing else. The adapter it
    returns is not connected and has no handler: until [Connect], [Send]
    fails with "discord session not connected" and [Disconnect] returns
    nil, and neither calls the SDK nor changes anything. *)
Theorem discord_New_is_not_connected (config : discord.Config.t) :
  (discord.New (S := S) config = inr (errorString "discord token required")
   ↔ discord.Config.Token config = "")
  ∧ (∀ a : discord.Adapter S, discord.New config = inl a →
       discord.token a = discord.Config.Token config
       ∧ discord.messageHandler a = None
       ∧ ∀ (d : D) (lg : list LogRecord) (chatID : string) out,
           let w := discord.mkWorld a d lg in
           discord.Send api chatID out w
           = (Some (errorString "discord session not connected"), w)
           ∧ discord.Disconnect api w = (None, w)).
Proof.
  unfold discord.New.
  destruct (String.eqb_spec (discord.Config.Token config) "") as [He|Hne].
  - split; [done |]. intros a. discriminate.
  - split; [split; [discriminate | done] |].
    intros a [= <-]. simpl. done.
Qed.

(** X17. The outcomes of [Connect]. When the SDK gives no session the
    adapter is left as it was and the failure is returned wrapped. When
    the SDK gives a session the adapter keeps it, its handlers unchanged,
    whether [Open] succeeds or not, and [Connect] returns nil exactly when
    [Open] does: after a failed [Open] the adapter holds the session, a
    previous session is replaced without being closed, and [Send] no
    longer reports that the adapter is not connected. *)
Theorem discord_Connect_outcomes w :
  let r := discordgo.New api ("Bot " +:+ discord.token (discord.adapter w))
             (discord.sdk w) in
  (∀ err, r.1 = inr err →
     discord.Connect api w
     = (Some (wrapError ("create discord session: " +:+ Error err) err),
        discord.mkWorld (discord.adapter w) r.2 (discord.logged w)))
  ∧ (∀ s, r.1 = inl s →
       let opened :=
         discordgo.Open api s
           (discordgo.SetIntents api s (discordgo.AddHandler api s r.2)) in
       let w' := (discord.Connect api w).2 in
       discord.session (discord.adapter w') = Some s
       ∧ discord.messageHandler (discord.adapter w')
         = discord.messageHandler (discord.adapter w)
       ∧ discord.sdk w' = opened.2
       ∧ ((discord.Connect api w).1 = None ↔ opened.1 = None)
       ∧ (∀ e, opened.1 = Some e →
            (discord.Connect api w).1
            = Some (wrapError ("open discord session: " +:+ Error e) e))
       ∧ (∀ chatID out,
            (discord.Send api chatID out w').1
            ≠ Some (errorString "discord session not connected"))).
Proof.
  intros r. subst r. unfold discord.Connect.
  destruct (discordgo.New api _ (discord.sdk w)) as [[s|err0] d1]; simpl.
  - split; [intros err; discriminate |].
    intros s' [= <-].
    destruct (discordgo.Open api s _) as [[e|] d4] eqn:Ho; simpl.
    + split_and!; try done.
      * intros e' [= <-]. done.
      * intros chatID out. unfold discord.Send. simpl.
        by destruct (discordgo.ChannelMessageSendComplex api s chatID _ d4)
          as [[e1|] d5].
    + split_and!; try done.
      intros chatID out. unfold discord.Send. simpl.
      by destruct (discordgo.ChannelMessageSendComplex api s chatID _ d4)
        as [[e1|] d5].
  - split; [| intros s; discriminate].
    intros err [= <-]. done.
Qed.

(** X18. [Disconnect] closes the session of the adapter when there is one
    and returns what [Close] returns, wrapped; it never forgets the
    session, so the adapter is as it was: a [Send] after [Disconnect]
    still goes to the SDK with the closed session, and a second
    [Disconnect] closes it again. *)
Theorem discord_Disconnect_keeps_the_session w :
  discord.adapter (discord.Disconnect api w).2 = discord.adapter w
  ∧ (discord.session (discord.adapter w) = None →
       discord.Disconnect api w = (None, w))
  ∧ (∀ s, discord.session (discord.adapter w) = Some s →
       let closed := discordgo.Close api s (discord.sdk w) in
       discord.sdk (discord.Disconnect api w).2 = closed.2
       ∧ ((discord.Disconnect api w).1 = None ↔ closed.1 = None)
       ∧ (∀ e, closed.1 = Some e →
            (discord.Disconnect api w).1
            = Some (wrapError ("close discord session: " +:+ Error e) e))
       ∧ (∀ chatID out,
            (discord.Send api chatID out (discord.Disconnect api w).2).1
            ≠ Some (errorString "discord session not connected"))).
Proof.
  unfold discord.Disconnect.
  destruct (discord.session (discord.adapter w)) as [s|] eqn:Hs.
  - destruct (discordgo.Close api s (discord.sdk w)) as [[e|] d1] eqn:Hc;
      simpl.
    + split_and!; try done. intros s' [= <-]. rewrite Hc. simpl.
      split_and!; try done.
      * intros e' [= <-]. done.
      * intros chatID out. unfold discord.Send. simpl. rewrite Hs.
        by destruct (discordgo.ChannelMessageSendComplex api s chatID _ d1)
          as [[e1|] d5].
    + split_and!; try done. intros s' [= <-]. rewrite Hc. simpl.
      split_and!; try done.
      intros chatID out. unfold discord.Send. simpl. rewrite Hs.
      by destruct (discordgo.ChannelMessageSendComplex api s chatID _ d1)
        as [[e1|] d5].
  - split_and!; try done.
Qed.

(** X19. What a connected adapter sends. [Send] makes one SDK call, on
    the session of the adapter and the channel given, with the content of
    the message and, exactly when the message has a non-empty [ReplyTo], a
    reference to that message id. It returns nil when the SDK does and the
    SDK's error wrapped otherwise, and changes nothing in the adapter. The
    format of the message is not looked at. *)
Theorem discord_Send_payload w (s : S) (chatID : string) out :
  discord.session (discord.adapter w) = Some s →
  let data :=
    discordgo.MessageSend.mk
      (OutgoingMessage.Content out)
      (if decide (OutgoingMessage.ReplyTo out = "") then None
       else Some (discordgo.MessageReference.mk (OutgoingMessage.ReplyTo out))) in
  let called :=
    discordgo.ChannelMessageSendComplex api s chatID data (discord.sdk w) in
  (discord.Send api chatID out w).2
  = discord.mkWorld (discord.adapter w) called.2 (discord.logged w)
  ∧ ((discord.Send api chatID out w).1 = None ↔ called.1 = None)
  ∧ (∀ e, called.1 = Some e →
       (discord.Send api chatID out w).1
       = Some (wrapError ("send message: " +:+ Error e) e))
  ∧ (∀ format,
       discord.Send api chatID
         (OutgoingMessage.mk (OutgoingMessage.Content out)
                             (OutgoingMessage.ReplyTo out) format) w
       = discord.Send api chatID out w).
Proof.
  intros Hs data called. subst data called. unfold discord.Send.
  rewrite Hs. simpl.
  destruct (decide (OutgoingMessage.ReplyTo out = "")) as [He|Hne].
  - rewrite He. simpl.
    destruct (discordgo.ChannelMessageSendComplex api s chatID _ (discord.sdk w))
      as [[e|] d1]; simpl; split_and!; try done.
    intros e' [= <-]. done.
  - apply String.eqb_neq in Hne. rewrite Hne. simpl.
    destruct (discordgo.ChannelMessageSendComplex api s chatID _ (discord.sdk w))
      as [[e|] d1]; simpl; split_and!; try done.
    intros e' [= <-]. done.
Qed.

(** X20. What the adapter does with a message that the SDK delivers. A
    message written by the bot itself is dropped, and so is every message
    while the adapter has no handler: nothing is called and nothing
    changes. Otherwise the handler gets the converted message. With the
    router's closure as handler the adapter does what [route] does and
    logs nothing of its own; with a handler of the user, an error that the
    handler returns is written to the adapter's log and goes no
    further. *)
Theorem discord_inbound_message_dispatch
    (self : string) m st :
  let author := discordgo.User.ID (discordgo.MessageCreate.Author m) in
  let msg := discord.convertIncoming m in
  (author = self →
     discord.on_message_create user_handler self m st = (tt, st))
  ∧ (discord.messageHandler (discord.adapter (st_world st)) = None →
       discord.on_message_create user_handler self m st = (tt, st))
  ∧ (author ≠ self →
     discord.messageHandler (discord.adapter (st_world st)) = Some RouterRoute →
       discord.on_message_create user_handler self m st
       = (tt, (route user_handler msg st).2))
  ∧ (∀ id, author ≠ self →
       discord.messageHandler (discord.adapter (st_world st))
       = Some (DirectHandler id) →
       let r := user_handler id msg (st_router st, st_world st) in
       discord.on_message_create user_handler self m st
       = (tt,
          mkSt r.2.1
               match r.1 with
               | Some e =>
                   discord.mkWorld (discord.adapter r.2.2) (discord.sdk r.2.2)
                     (discord.logged r.2.2
                      ++ [(LevelError, "message handler error",
                           [("error", AttrError e)])])
               | None => r.2.2
               end
               (st_trace st))).
Proof.
  intros author msg. subst author msg. unfold discord.on_message_create.
  split_and!.
  - intros ->. by rewrite String.eqb_refl.
  - intros Hh. destruct (String.eqb _ self); [done |].
    unfold bind, gets. by rewrite Hh.
  - intros Hne Hh. apply String.eqb_neq in Hne. rewrite Hne.
    unfold bind at 1, gets. rewrite Hh. simpl.
    unfold bind. rewrite route_eq. done.
  - intros id Hne Hh. apply String.eqb_neq in Hne. rewrite Hne.
    unfold bind at 1, gets. rewrite Hh. simpl.
    unfold bind.
    destruct (user_handler id (discord.convertIncoming m)
                (st_router st, st_world st)) as [[e|] [r w]]; done.
Qed.

(** X21. From a Discord message to the reply on Discord. The adapter is
    registered and holds the router's closure, the one handler of the
    router is the agent handler with a pattern that matches, and the
    agent answers a message of another user with a text, leaving the
    adapter connected. Then delivering the message makes one SDK send: to
    the Discord channel of the message, with the text of the agent, as a
    reply to the message when it has an id. Whatever the SDK returns, the
    adapter logs no handler error and the router is unchanged. *)
Theorem discord_message_is_answered_in_its_channel
    (self : string) m st (a : AgentProcessor.t (discord.World D S))
    (pattern : RoutePattern.t) (text : string) (s : S) :
  let msg := discord.convertIncoming m in
  let pr := AgentProcessor.Process a
              (discord.Name +:+ ":" +:+ discordgo.MessageCreate.ChannelID m)
              (discordgo.MessageCreate.Content m) (st_world st) in
  discordgo.User.ID (discordgo.MessageCreate.Author m) ≠ self →
  discord.messageHandler (discord.adapter (st_world st)) = Some RouterRoute →
  Router.channels (st_router st) !! discord.Name = Some (discord.channel api) →
  Router.agent (st_router st) = Some a →
  Router.handlers (st_router st) = [RouteHandler.mk pattern ProcessWithAgent] →
  matchPattern pattern msg = true →
  pr.1 = (text, None) →
  discord.session (discord.adapter pr.2) = Some s →
  let data :=
    discordgo.MessageSend.mk text
      (if decide (discordgo.MessageCreate.ID m = "") then None
       else Some (discordgo.MessageReference.mk (discordgo.MessageCreate.ID m))) in
  let called :=
    discordgo.ChannelMessageSendComplex api s
      (discordgo.MessageCreate.ChannelID m) data (discord.sdk pr.2) in
  let st' := (discord.on_message_create user_handler self m st).2 in
  st_world st'
  = discord.mkWorld (discord.adapter pr.2) called.2 (discord.logged pr.2)
  ∧ st_router st' = st_router st.
Proof.
  intros msg pr Hne Hh Hl Ha Hhs Hm Hp Hs data called st'. subst st'.
  assert (discord.on_message_create user_handler self m st
          = (tt, (route user_handler msg st).2)) as Hon.
  { unfold discord.on_message_create. subst msg.
    apply String.eqb_neq in Hne. rewrite Hne.
    unfold bind at 1, gets. rewrite Hh. simpl.
    unfold bind. rewrite route_eq. done. }
  rewrite Hon.
  rewrite (route_agent_reply_state user_handler msg st (discord.channel api)
             a pattern text Hl Ha Hhs Hm Hp).
  cbv zeta.
  change (st_world (after_process a msg st)) with pr.2.
  change (Channel.Send (discord.channel api)) with (discord.Send api).
  change (IncomingMessage.ChatID msg) with (discordgo.MessageCreate.ChannelID m).
  assert (discord.Send api (discordgo.MessageCreate.ChannelID m)
            (reply_with msg text) pr.2
          = (match called.1 with
             | Some e => Some (Errorf_w "send message: " e)
             | None => None
             end,
             discord.mkWorld (discord.adapter pr.2) called.2
                             (discord.logged pr.2))) as Hsend.
  { unfold discord.Send. rewrite Hs. simpl. subst called data.
    destruct (decide (discordgo.MessageCreate.ID m = "")) as [He|Hn].
    - rewrite He. simpl.
      by destruct (discordgo.ChannelMessageSendComplex api s _ _ _)
        as [[e|] d1].
    - apply String.eqb_neq in Hn. rewrite Hn. simpl.
      by destruct (discordgo.ChannelMessageSendComplex api s _ _ _)
        as [[e|] d1]. }
  rewrite Hsend. simpl. by destruct called.1.
Qed.

End DiscordFacts.

(** * The Telegram adapter *)

Section TelegramFacts.

Context {D B : Type}.
Variable api : telebot.Api D B.
Variable ParseInt : string → Z + error.

Variable user_handler :
  nat → IncomingMessage.t → Router.t (telegram.World D B) * telegram.World D B →
  option error * (Router.t (telegram.World D B) * telegram.World D B).

Implicit Types (w : telegram.World D B) (m : telebot.Message.t).
Implicit Types (st : St (telegram.World D B)) (out : OutgoingMessage.t).

Lemma string_append_empty (a b : string) : a +:+ b = "" → a = "" ∧ b = "".
Proof. destruct a; [done | discriminate]. Qed.

(** X22. What [convertIncoming] makes of a Telegram message. The channel
    name is the name of the adapter; the reply-to field is always empty;
    the chat type is group exactly for the group and supergroup chats of
    the SDK and is never thread. The sender name is the first name,
    followed by a space and the last name when there is a last name (so
    it starts with a space when only the last name is there); the
    username is used when both names are empty, and the sender name is
    empty only when all three are. *)
Theorem telegram_convertIncoming_fields m :
  let msg := telegram.convertIncoming api m in
  let chat := telebot.Message.Chat m in
  let sender := telebot.Message.Sender m in
  IncomingMessage.ChannelName msg = telegram.Name
  ∧ IncomingMessage.ReplyTo msg = ""
  ∧ IncomingMessage.Content msg = telebot.Message.Text m
  ∧ IncomingMessage.ChatType msg ≠ ChannelTypeThread
  ∧ (IncomingMessage.ChatType msg = ChannelTypeGroup
     ↔ telebot.Chat.Type_ chat = telebot.ChatGroup api
       ∨ telebot.Chat.Type_ chat = telebot.ChatSuperGroup api)
  ∧ (telebot.User.LastName sender ≠ "" →
       IncomingMessage.SenderName msg
       = telebot.User.FirstName sender +:+ " " +:+ telebot.User.LastName sender)
  ∧ (telebot.User.LastName sender = "" →
     telebot.User.FirstName sender ≠ "" →
       IncomingMessage.SenderName msg = telebot.User.FirstName sender)
  ∧ (telebot.User.LastName sender = "" →
     telebot.User.FirstName sender = "" →
       IncomingMessage.SenderName msg = telebot.User.Username sender)
  ∧ (IncomingMessage.SenderName msg = ""
     ↔ telebot.User.FirstName sender = ""
       ∧ telebot.User.LastName sender = ""
       ∧ telebot.User.Username sender = "").
Proof.
  intros msg chat sender. subst msg chat sender.
  unfold telegram.convertIncoming. simpl.
  set (ty := telebot.Chat.Type_ (telebot.Message.Chat m)).
  set (first := telebot.User.FirstName (telebot.Message.Sender m)).
  set (lastn := telebot.User.LastName (telebot.Message.Sender m)).
  set (user := telebot.User.Username (telebot.Message.Sender m)).
  assert (∀ x : string, first +:+ " " +:+ x ≠ "") as Hsp.
  { intros x Hx. apply string_append_empty in Hx as [_ Hx]. discriminate. }
  split_and!; try done.
  - destruct (String.eqb ty _ || String.eqb ty _); [done |].
    by destruct (String.eqb ty _).
  - destruct (String.eqb_spec ty (telebot.ChatGroup api)) as [Hg|Hg]; simpl.
    { split; [by left | done]. }
    destruct (String.eqb_spec ty (telebot.ChatSuperGroup api)) as [Hs|Hs];
      simpl.
    { split; [by right | done]. }
    destruct (String.eqb ty _); split; try done; by intros [?|?].
  - intros Hl. apply String.eqb_neq in Hl. rewrite Hl. simpl.
    destruct (String.eqb_spec (first +:+ " " +:+ lastn) ""); [| done].
    by destruct (Hsp lastn).
  - intros Hl Hf. rewrite Hl. simpl.
    apply String.eqb_neq in Hf. by rewrite Hf.
  - intros Hl Hf. rewrite Hl, Hf. done.
  - destruct (String.eqb_spec lastn "") as [Hl|Hl]; simpl.
    + destruct (String.eqb_spec first "") as [Hf|Hf].
      * split; [by intros -> | by intros (_ & _ & ?)].
      * split; [done | by intros (? & _)].
    + destruct (String.eqb_spec (first +:+ " " +:+ lastn) "") as [He|He].
      { by destruct (Hsp lastn). }
      split; [done | by intros (_ & ? & _)].
Qed.

(** X23. [Send] fails before it reaches the platform: with no bot it
    returns "telegram bot not connected" whatever the chat id; with a bot
    and a chat id that is not a number it returns the parse failure
    wrapped; in both cases nothing is called and nothing changes. When
    the SDK does not find the chat, the lookup failure is returned wrapped
    and no message is sent. *)
Theorem telegram_Send_fails_before_sending (chatID : string) out w :
  (telegram.bot (telegram.adapter w) = None →
     telegram.Send api ParseInt chatID out w
     = (Some (errorString "telegram bot not connected"), w))
  ∧ (∀ b err,
       telegram.bot (telegram.adapter w) = Some b →
       ParseInt chatID = inr err →
       telegram.Send api ParseInt chatID out w
       = (Some (wrapError ("parse chat ID: " +:+ Error err) err), w))
  ∧ (∀ b n err,
       telegram.bot (telegram.adapter w) = Some b →
       ParseInt chatID = inl n →
       (telebot.ChatByID api b n (telegram.sdk w)).1 = inr err →
       telegram.Send api ParseInt chatID out w
       = (Some (wrapError ("get chat: " +:+ Error err) err),
          telegram.mkWorld (telegram.adapter w)
            (telebot.ChatByID api b n (telegram.sdk w)).2
            (telegram.logged w))).
Proof.
  unfold telegram.Send. split_and!.
  - by intros ->.
  - intros b err -> ->. done.
  - intros b n err -> ->.
    destruct (telebot.ChatByID api b n (telegram.sdk w)) as [[c|e] d1]; simpl;
      [discriminate |].
    by intros [= ->].
Qed.

(** X24. What a connected adapter sends. Once the chat is found, [Send]
    makes one SDK send to that chat with the content of the message; the
    parse mode is the SDK's Markdown mode for the markdown format, its
    HTML mode for the html format, and the default for every other
    format. It returns nil when the SDK does and the SDK's error wrapped
    otherwise. The reply-to of the message is not looked at: the reply is
    sent as a plain message. *)
Theorem telegram_Send_parse_mode_and_reply
    (chatID : string) out w (b : B) (n : Z) (chat : telebot.Chat.t) :
  telegram.bot (telegram.adapter w) = Some b →
  ParseInt chatID = inl n →
  (telebot.ChatByID api b n (telegram.sdk w)).1 = inl chat →
  let mode :=
    if decide (OutgoingMessage.Format out = MessageFormatMarkdown)
    then telebot.ModeMarkdown api
    else if decide (OutgoingMessage.Format out = MessageFormatHTML)
    then telebot.ModeHTML api
    else "" in
  let called :=
    telebot.Send api b chat (OutgoingMessage.Content out)
      (telebot.SendOptions.mk mode)
      (telebot.ChatByID api b n (telegram.sdk w)).2 in
  (telegram.Send api ParseInt chatID out w).2
  = telegram.mkWorld (telegram.adapter w) called.2 (telegram.logged w)
  ∧ ((telegram.Send api ParseInt chatID out w).1 = None ↔ called.1 = None)
  ∧ (∀ e, called.1 = Some e →
       (telegram.Send api ParseInt chatID out w).1
       = Some (wrapError ("send message: " +:+ Error e) e))
  ∧ (∀ replyTo,
       telegram.Send api ParseInt chatID
         (OutgoingMessage.mk (OutgoingMessage.Content out) replyTo
                             (OutgoingMessage.Format out)) w
       = telegram.Send api ParseInt chatID out w).
Proof.
  intros Hb Hp Hc mode called.
  assert (mode
          = if String.eqb (OutgoingMessage.Format out) MessageFormatMarkdown
            then telebot.ModeMarkdown api
            else if String.eqb (OutgoingMessage.Format out) MessageFormatHTML
            then telebot.ModeHTML api
            else "") as Hmode.
  { subst mode.
    destruct (String.eqb_spec (OutgoingMessage.Format out) MessageFormatMarkdown);
      [by rewrite decide_True | rewrite decide_False by done].
    destruct (String.eqb_spec (OutgoingMessage.Format out) MessageFormatHTML);
      [by rewrite decide_True | by rewrite decide_False]. }
  subst called. rewrite Hmode. clear Hmode mode.
  unfold telegram.Send. rewrite Hb, Hp. simpl.
  destruct (telebot.ChatByID api b n (telegram.sdk w)) as [[c|e0] d1];
    simpl in Hc |- *; [| discriminate].
  injection Hc as ->.
  destruct (telebot.Send api b chat _ _ d1) as [[e|] d2]; simpl;
    split_and!; try done.
  intros e' [= <-]. done.
Qed.

(** X25. The chat id survives the way through the router. When
    [strconv.ParseInt] reads the decimal rendering of the chat id of a
    message back as that id, a [Send] to the chat id of the converted
    message asks the SDK for the chat that the message came from: a
    failed lookup of that chat is what [Send] returns, and otherwise the
    one SDK send goes to the chat found. *)
Theorem telegram_reply_reaches_the_chat_of_the_message m out w (b : B) :
  let id := telebot.Chat.ID (telebot.Message.Chat m) in
  let chatID := IncomingMessage.ChatID (telegram.convertIncoming api m) in
  let looked := telebot.ChatByID api b id (telegram.sdk w) in
  telegram.bot (telegram.adapter w) = Some b →
  ParseInt (fmt_d id) = inl id →
  (∀ err, looked.1 = inr err →
     telegram.Send api ParseInt chatID out w
     = (Some (wrapError ("get chat: " +:+ Error err) err),
        telegram.mkWorld (telegram.adapter w) looked.2 (telegram.logged w)))
  ∧ (∀ chat, looked.1 = inl chat →
       ∃ opts,
         (telegram.Send api ParseInt chatID out w).2
         = telegram.mkWorld (telegram.adapter w)
             (telebot.Send api b chat (OutgoingMessage.Content out) opts
                           looked.2).2
             (telegram.logged w)).
Proof.
  intros id chatID looked Hb Hp. subst chatID looked.
  unfold telegram.Send, telegram.convertIncoming. simpl. fold id.
  rewrite Hb, Hp.
  destruct (telebot.ChatByID api b id (telegram.sdk w)) as [[c|e0] d1]; simpl.
  - split; [intros err; discriminate |].
    intros chat [= <-].
    exists (telebot.SendOptions.mk
              (if String.eqb (OutgoingMessage.Format out) MessageFormatMarkdown
               then telebot.ModeMarkdown api
               else if String.eqb (OutgoingMessage.Format out)
                                  MessageFormatHTML
               then telebot.ModeHTML api
               else "")).
    by destruct (telebot.Send api b c _ _ d1) as [[e|] d2].
  - split; [| intros chat; discriminate].
    by intros err [= <-].
Qed.

(** X26. [Disconnect] never returns an error and never forgets the bot.
    With no bot it returns nil at once and changes nothing. With a bot it
    returns exactly when the [Stop] of the SDK returns, and then it
    returns nil with the adapter as it was and the stop logged; so a
    second [Disconnect] stops the same bot once more, and does not return
    when that [Stop] does not. A message that the SDK delivers is dropped
    while the adapter has no handler; otherwise the closure returns to the
    SDK what the handler returns for the converted message, which for the
    router's closure is always nil. *)
Theorem telegram_Disconnect_and_inbound_dispatch w m st :
  (telegram.bot (telegram.adapter w) = None →
     telegram.Disconnect api w = Some (None, w))
  ∧ (∀ b, telegram.bot (telegram.adapter w) = Some b →
       telegram.Disconnect api w
       = (λ d, (None,
                telegram.mkWorld (telegram.adapter w) d
                  (telegram.logged w
                   ++ [(LevelInfo, "telegram bot stopped", [])])))
         <$> telebot.Stop api b (telegram.sdk w))
  ∧ (∀ r, telegram.Disconnect api w = Some r →
       r.1 = None
       ∧ telegram.adapter r.2 = telegram.adapter w
       ∧ ∀ b, telegram.bot (telegram.adapter w) = Some b →
           (is_Some (telegram.Disconnect api r.2)
            ↔ is_Some (telebot.Stop api b (telegram.sdk r.2))))
  ∧ (telegram.messageHandler (telegram.adapter (st_world st)) = None →
       telegram.on_text api user_handler m st = (None, st))
  ∧ (telegram.messageHandler (telegram.adapter (st_world st))
     = Some RouterRoute →
       telegram.on_text api user_handler m st
       = route user_handler (telegram.convertIncoming api m) st
       ∧ (telegram.on_text api user_handler m st).1 = None)
  ∧ (∀ id,
       telegram.messageHandler (telegram.adapter (st_world st))
       = Some (DirectHandler id) →
       (telegram.on_text api user_handler m st).1
       = (user_handler id (telegram.convertIncoming api m)
            (st_router st, st_world st)).1).
Proof.
  split_and!.
  - unfold telegram.Disconnect. by intros ->.
  - unfold telegram.Disconnect. intros b ->.
    by destruct (telebot.Stop api b (telegram.sdk w)).
  - intros r Hr.
    assert (r.1 = None ∧ telegram.adapter r.2 = telegram.adapter w)
      as [Hnil Hkept].
    { unfold telegram.Disconnect in Hr.
      destruct (telegram.bot (telegram.adapter w)) as [b|].
      - destruct (telebot.Stop api b (telegram.sdk w)) as [d1|];
          [| discriminate].
        by injection Hr as <-.
      - by injection Hr as <-. }
    split_and!; [exact Hnil | exact Hkept |].
    intros b Hb. unfold telegram.Disconnect at 1. rewrite Hkept, Hb.
    destruct (telebot.Stop api b (telegram.sdk r.2)) as [d1|].
    + split; by eexists.
    + split; intros [x Hx]; discriminate.
  - unfold telegram.on_text, bind, gets. by intros ->.
  - unfold telegram.on_text, bind, gets. intros ->. simpl.
    split; [done |]. by rewrite route_eq.
  - unfold telegram.on_text, bind, gets. intros id ->. simpl.
    by destruct (user_handler id _ _) as [res [r w']].
Qed.

End TelegramFacts.

(** * The adapters at work on the example platforms *)

Lemma discord_New_is_not_connected_witness :
  let config := discord.Config.mk "good" "g-1" in
  let a : discord.Adapter nat := discord.mkAdapter None "good" "g-1" None None in
  discord.New config = inl a
  ∧ discord.Send example_discord_api "c-1" hello (discord.mkWorld a [] [])
    = (Some (errorString "discord session not connected"),
       discord.mkWorld a [] []).
Proof.
  intros config a. split; [reflexivity |].
  destruct (discord_New_is_not_connected example_discord_api config)
    as [_ Hnew].
  destruct (Hnew a eq_refl) as (_ & _ & Hsend).
  exact (proj1 (Hsend [] [] "c-1" hello)).
Defined.

Lemma discord_Connect_outcomes_witness :
  let w := example_discord_world in
  (discordgo.New example_discord_api
     ("Bot " +:+ discord.token (discord.adapter w)) (discord.sdk w)).1 = inl 1
  ∧ discord.session (discord.adapter (discord.Connect example_discord_api w).2)
    = Some 1.
Proof.
  intros w. split; [reflexivity |].
  destruct (discord_Connect_outcomes example_discord_api w) as [_ Hok].
  exact (proj1 (Hok 1 eq_refl)).
Defined.

(** A token that the platform refuses: the session is made, [Open]
    fails, and the adapter holds the session all the same. *)
Example discord_Connect_bad_token :
  let r := discord.Connect example_discord_api
             (discord.mkWorld (discord.mkAdapter None "stolen" "" None None)
                              [] []) in
  r.1 = Some (wrapError
                "open discord session: websocket: close 4004: Authentication failed."
                (errorString "websocket: close 4004: Authentication failed."))
  ∧ discord.session (discord.adapter r.2) = Some 2.
Proof. vm_compute. done. Qed.

Lemma discord_Disconnect_keeps_the_session_witness :
  let w := (discord.Connect example_discord_api example_discord_world).2 in
  let w' := (discord.Disconnect example_discord_api w).2 in
  discord.session (discord.adapter w) = Some 1
  ∧ discord.sdk w' = ["session closed"]
  ∧ (discord.Disconnect example_discord_api w).1 = None
  ∧ discord.session (discord.adapter w') = Some 1
  ∧ (discord.Send example_discord_api "c-1" hello w').1
    ≠ Some (errorString "discord session not connected").
Proof.
  intros w w'.
  destruct (discord_Disconnect_keeps_the_session example_discord_api w)
    as (Hkept & _ & Hsome).
  destruct (Hsome 1 eq_refl) as (Hsdk & Hnil & _ & Hsend).
  split_and!.
  - reflexivity.
  - exact Hsdk.
  - apply Hnil. reflexivity.
  - exact (f_equal discord.session Hkept).
  - exact (Hsend "c-1" hello).
Defined.

(** A second [Disconnect] closes the session once more. *)
Example discord_Disconnect_twice :
  let w := (discord.Connect example_discord_api example_discord_world).2 in
  discord.sdk
    (discord.Disconnect example_discord_api
       (discord.Disconnect example_discord_api w).2).2
  = ["session closed"; "session closed"].
Proof. vm_compute. done. Qed.

Lemma discord_Send_payload_witness :
  let w := (discord.Connect example_discord_api example_discord_world).2 in
  let out := OutgoingMessage.mk "hi there" "900" MessageFormatMarkdown in
  discord.session (discord.adapter w) = Some 1
  ∧ discord.Send example_discord_api "c-1"
      (OutgoingMessage.mk "hi there" "900" MessageFormatPlain) w
    = discord.Send example_discord_api "c-1" out w.
Proof.
  intros w out. split; [reflexivity |].
  destruct (discord_Send_payload example_discord_api w 1 "c-1" out eq_refl)
    as (_ & _ & _ & Hformat).
  exact (Hformat MessageFormatPlain).
Defined.

Example discord_Send_example :
  discord.sdk
    (discord.Send example_discord_api "c-1"
       (OutgoingMessage.mk "hi there" "900" "")
       (discord.Connect example_discord_api example_discord_world).2).2
  = ["c-1: hi there (re 900)"].
Proof. reflexivity. Qed.

Lemma discord_inbound_message_dispatch_witness :
  let st := discord_assembled_st in
  let m := example_discord_message in
  let msg := discord.convertIncoming m in
  let direct := mkSt (st_router st)
                  (discord.OnMessage (DirectHandler 0) (st_world st))
                  (st_trace st) in
  (discordgo.User.ID (discordgo.MessageCreate.Author m) ≠ "bot-1"
   ∧ discord.messageHandler (discord.adapter (st_world st)) = Some RouterRoute
   ∧ discord.messageHandler (discord.adapter (st_world direct))
     = Some (DirectHandler 0))
  ∧ discord.on_message_create example_discord_handlers "bot-1" m st
    = (tt, (route example_discord_handlers msg st).2)
  ∧ discord.logged
      (st_world (discord.on_message_create example_discord_handlers "bot-1"
                   m direct).2)
    = discord.logged (st_world direct)
      ++ [(LevelError, "message handler error",
           [("error", AttrError (errorString "handler failed"))])].
Proof.
  intros st m msg direct.
  assert (discordgo.User.ID (discordgo.MessageCreate.Author m) ≠ "bot-1")
    as Hne by discriminate.
  split; [split_and!; (exact Hne || reflexivity) |].
  split.
  - destruct (discord_inbound_message_dispatch example_discord_handlers
                "bot-1" m st) as (_ & _ & Hroute & _).
    exact (Hroute Hne eq_refl).
  - destruct (discord_inbound_message_dispatch example_discord_handlers
                "bot-1" m direct) as (_ & _ & _ & Hdirect).
    exact (f_equal (λ r, discord.logged (st_world r.2))
                   (Hdirect 0 Hne eq_refl)).
Defined.

Lemma discord_message_is_answered_in_its_channel_witness :
  let st := discord_assembled_st in
  let m := example_discord_message in
  (discordgo.User.ID (discordgo.MessageCreate.Author m) ≠ "bot-1"
   ∧ discord.messageHandler (discord.adapter (st_world st)) = Some RouterRoute
   ∧ Router.channels (st_router st) !! discord.Name
     = Some (discord.channel example_discord_api)
   ∧ matchPattern All (discord.convertIncoming m) = true)
  ∧ discord.sdk
      (st_world (discord.on_message_create example_discord_handlers "bot-1"
                   m st).2)
    = ["c-1: Hello from agent! (re 900)"].
Proof.
  intros st m.
  assert (discordgo.User.ID (discordgo.MessageCreate.Author m) ≠ "bot-1")
    as Hne by discriminate.
  split; [split_and!; (exact Hne || reflexivity) |].
  destruct (discord_message_is_answered_in_its_channel example_discord_api
              example_discord_handlers "bot-1" m st discord_greeter All
              "Hello from agent!" 1
              Hne eq_refl eq_refl eq_refl eq_refl eq_refl eq_refl eq_refl)
    as [Hw _].
  exact (f_equal discord.sdk Hw).
Defined.

Lemma telegram_convertIncoming_fields_witness :
  let m := example_telegram_message in
  telebot.User.LastName (telebot.Message.Sender m) ≠ ""
  ∧ IncomingMessage.SenderName (telegram.convertIncoming example_telegram_api m)
    = " Lovelace".
Proof.
  intros m.
  assert (telebot.User.LastName (telebot.Message.Sender m) ≠ "") as Hl
    by discriminate.
  split; [exact Hl |].
  destruct (telegram_convertIncoming_fields example_telegram_api m)
    as (_ & _ & _ & _ & _ & Hlast & _).
  exact (Hlast Hl).
Defined.

Example telegram_convertIncoming_example :
  telegram.convertIncoming example_telegram_api example_telegram_message
  = IncomingMessage.mk "7" "telegram" "42" "dm" "5" " Lovelace" "hello" "".
Proof. vm_compute. reflexivity. Qed.

Lemma telegram_Send_fails_before_sending_witness :
  let w := example_telegram_world None in
  telegram.bot (telegram.adapter w) = None
  ∧ telegram.Send example_telegram_api example_ParseInt "not a number" hello w
    = (Some (errorString "telegram bot not connected"), w).
Proof.
  intros w. split; [reflexivity |].
  apply (telegram_Send_fails_before_sending example_telegram_api
           example_ParseInt "not a number" hello w).
  reflexivity.
Defined.

Example telegram_Send_bad_chat_id :
  let r := telegram.Send example_telegram_api example_ParseInt "not a number"
             hello (example_telegram_world (Some 1)) in
  Error <$> r.1
  = Some ("parse chat ID: strconv.ParseInt: parsing " +:+ double_quote
          +:+ "not a number" +:+ double_quote +:+ ": invalid syntax")
  ∧ r.2 = example_telegram_world (Some 1).
Proof. vm_compute. done. Qed.

Lemma telegram_Send_parse_mode_and_reply_witness :
  let w := example_telegram_world (Some 1) in
  let out := OutgoingMessage.mk "hi there" "7" MessageFormatHTML in
  (telegram.bot (telegram.adapter w) = Some 1
   ∧ example_ParseInt "42" = inl 42%Z
   ∧ (telebot.ChatByID example_telegram_api 1 42 (telegram.sdk w)).1
     = inl (telebot.Chat.mk 42 "private" "Ada"))
  ∧ telegram.Send example_telegram_api example_ParseInt "42"
      (OutgoingMessage.mk "hi there" "" MessageFormatHTML) w
    = telegram.Send example_telegram_api example_ParseInt "42" out w.
Proof.
  intros w out. split; [split_and!; reflexivity |].
  destruct (telegram_Send_parse_mode_and_reply example_telegram_api
              example_ParseInt "42" out w 1 42%Z
              (telebot.Chat.mk 42 "private" "Ada") eq_refl eq_refl eq_refl)
    as (_ & _ & _ & Hreply).
  exact (Hreply "").
Defined.

Lemma telegram_reply_reaches_the_chat_of_the_message_witness :
  let w := example_telegram_world (Some 1) in
  let m := example_telegram_message in
  (telegram.bot (telegram.adapter w) = Some 1
   ∧ example_ParseInt (fmt_d (telebot.Chat.ID (telebot.Message.Chat m)))
     = inl (telebot.Chat.ID (telebot.Message.Chat m)))
  ∧ ∃ opts,
      (telegram.Send example_telegram_api example_ParseInt
         (IncomingMessage.ChatID (telegram.convertIncoming example_telegram_api m))
         hello w).2
      = telegram.mkWorld (telegram.adapter w)
          (telebot.Send example_telegram_api 1
             (telebot.Chat.mk 42 "private" "Ada")
             (OutgoingMessage.Content hello) opts
             (telebot.ChatByID example_telegram_api 1 42 (telegram.sdk w)).2).2
          (telegram.logged w).
Proof.
  intros w m. split; [split; reflexivity |].
  destruct (telegram_reply_reaches_the_chat_of_the_message
              example_telegram_api example_ParseInt m hello w 1
              eq_refl eq_refl)
    as [_ Hfound].
  exact (Hfound (telebot.Chat.mk 42 "private" "Ada") eq_refl).
Defined.

Lemma telegram_Disconnect_and_inbound_dispatch_witness :
  let w := example_telegram_world (Some 1) in
  let stopped :=
    telegram.mkWorld (telegram.adapter w) ["polling stopped"]
                     [(LevelInfo, "telegram bot stopped", [])] in
  let m := example_telegram_message in
  let st :=
    (OnMessage All (UserHandler 0)
       (mkSt NewRouter (telegram.OnMessage RouterRoute w) [])).2 in
  let direct := mkSt NewRouter (telegram.OnMessage (DirectHandler 0) w) [] in
  (telegram.bot (telegram.adapter w) = Some 1
   ∧ telegram.bot (telegram.adapter stopped) = Some 1
   ∧ telegram.messageHandler (telegram.adapter (st_world st))
     = Some RouterRoute
   ∧ telegram.messageHandler (telegram.adapter (st_world direct))
     = Some (DirectHandler 0))
  ∧ telegram.Disconnect example_telegram_api w = Some (None, stopped)
  ∧ telegram.Disconnect example_telegram_api stopped = None
  ∧ telegram.on_text example_telegram_api example_telegram_handlers m st
    = route example_telegram_handlers
        (telegram.convertIncoming example_telegram_api m) st
  ∧ (telegram.on_text example_telegram_api example_telegram_handlers m st).1
    = None
  ∧ handler_calls
      (st_trace
         (telegram.on_text example_telegram_api example_telegram_handlers
            m st).2)
    = [(UserHandler 0, telegram.convertIncoming example_telegram_api m,
        Some (errorString "handler failed"))]
  ∧ (telegram.on_text example_telegram_api example_telegram_handlers
       m direct).1
    = Some (errorString "handler failed").
Proof.
  intros w stopped m st direct.
  destruct (telegram_Disconnect_and_inbound_dispatch example_telegram_api
              example_telegram_handlers w m st)
    as (_ & Hbot & _ & _ & Hroute & _).
  destruct (telegram_Disconnect_and_inbound_dispatch example_telegram_api
              example_telegram_handlers stopped m direct)
    as (_ & Hagain & _ & _ & _ & Hdirect).
  split; [split_and!; reflexivity |].
  split_and!.
  - exact (Hbot 1 eq_refl).
  - exact (Hagain 1 eq_refl).
  - exact (proj1 (Hroute eq_refl)).
  - exact (proj2 (Hroute eq_refl)).
  - rewrite (proj1 (Hroute eq_refl)). vm_compute. reflexivity.
  - exact (Hdirect 0 eq_refl).
Defined.

(** On the example platform the second [Disconnect] does not return: the
    bot is still there and its polling loop has stopped. *)
Example telegram_Disconnect_twice :
  let w := example_telegram_world (Some 1) in
  (snd <$> telegram.Disconnect example_telegram_api w)
  ≫= telegram.Disconnect example_telegram_api
  = None.
Proof. vm_compute. done. Qed.
